(** * claude_helper: source analyzers, dependency resolver and analysis cache

    A shallow embedding of the Python sources
      - [claude_helper/types/common.py], [claude_helper/types/web.py]
      - [claude_helper/analyzers/base.py]      (BaseAnalyzer)
      - [claude_helper/analyzers/python.py]    (PythonAnalyzer)
      - [claude_helper/analyzers/web/react.py] (ReactAnalyzer)
      - [claude_helper/utils/cache.py]         (AnalysisCache)
    followed by the properties of the specification that concern them.

    Conventions.
      - A Python [str] is a Rocq [string]; every character is read as a code
        point below 256.  A [pathlib.Path] is represented by its [str()].
      - A Python [int] is a [Z]; a Python [float] is a primitive binary64
        [float], so [int * float] and [float - int] round as in CPython.
      - A [dict] is a [gmap], a [set] is a [gset], a [list] is a [list].
      - A method that mutates [self] and may raise is a function
        [state -> (exn + A) * state]: the state survives an exception. *)

From Stdlib Require Import ZArith String Ascii List DecimalString Floats Uint63 Sorted.
From stdpp Require Import gmap strings list.
Import ListNotations.
Open Scope string_scope.
Open Scope Z_scope.
Set Warnings "-register-all,-clear-no-such-hyp".

(* ===================================================================== *)
(** * Python runtime primitives *)
(* ===================================================================== *)

Module Py.

(** Exceptions, by class.  [str(e)] is the carried message. *)
Inductive exn : Type :=
| ValueError (msg : string)
| SyntaxError (msg : string)
| AttributeError (msg : string)
| IndexError (msg : string)
| TypeError (msg : string)
| RecursionError (msg : string).

Definition str_exn (e : exn) : string :=
  match e with
  | ValueError m | SyntaxError m | AttributeError m
  | IndexError m | TypeError m | RecursionError m => m
  end.

(** Computations over a mutable object of type [S] that may raise. *)
Definition M (S A : Type) : Type := S -> (exn + A) * S.

Definition ret {S A} (a : A) : M S A := fun st => (inr a, st).

Definition raise {S A} (e : exn) : M S A := fun st => (inl e, st).

Definition bind {S A B} (m : M S A) (k : A -> M S B) : M S B :=
  fun st =>
    match m st with
    | (inl e, st') => (inl e, st')
    | (inr a, st') => k a st'
    end.

Definition gets {S A} (f : S -> A) : M S A := fun st => (inr (f st), st).

Definition modify {S} (f : S -> S) : M S unit := fun st => (inr tt, f st).

(** ** Integers and floats *)

(** [str(n)] for an [int]. *)
Definition str_int (z : Z) : string := NilZero.string_of_int (Z.to_int z).

(** [float(n)] for [|n| < 2^63] (round to nearest even). *)
Definition float_of_int (z : Z) : float :=
  if z <? 0 then PrimFloat.opp (PrimFloat.of_uint63 (Uint63.of_Z (- z)))
  else PrimFloat.of_uint63 (Uint63.of_Z z).

(** [int(x)] for a finite float: truncation towards zero. *)
Definition int_of_float (f : float) : Z :=
  match Prim2SF f with
  | S754_finite s m e =>
      let mag := if 0 <=? e then Z.shiftl (Zpos m) e else Z.shiftr (Zpos m) (- e) in
      if s then - mag else mag
  | _ => 0
  end.

(** ** Strings *)

Definition chr (n : nat) : ascii := ascii_of_nat n.

Definition ord (c : ascii) : nat := nat_of_ascii c.

(** [c.isspace()] on code points below 256. *)
Definition isspace (c : ascii) : bool :=
  let n := ord c in
  ((9 <=? n)%nat && (n <=? 13)%nat)
  || ((28 <=? n)%nat && (n <=? 32)%nat)
  || (n =? 133)%nat || (n =? 160)%nat.

(** The line boundaries of [str.splitlines] below 256, carriage return apart. *)
Definition is_linebreak (c : ascii) : bool :=
  let n := ord c in
  (n =? 10)%nat || (n =? 11)%nat || (n =? 12)%nat
  || ((28 <=? n)%nat && (n <=? 30)%nat) || (n =? 133)%nat.

Definition LF : string := String (chr 10) EmptyString.

(** [bool(s)]: a string is true when it is not empty. *)
Definition truthy (s : string) : bool :=
  match s with EmptyString => false | String _ _ => true end.

(** [bool(o)] for an [Optional[str]]. *)
Definition truthy_opt (o : option string) : bool :=
  match o with None => false | Some s => truthy s end.

Definition len (s : string) : Z := Z.of_nat (String.length s).

(** The [ValueError] of a conversion that the digit limit refuses. *)
Definition digit_limit_error (max_str_digits : Z) : exn :=
  ValueError
    ("Exceeds the limit (" ++ str_int max_str_digits
     ++ " digits) for integer string conversion; "
     ++ "use sys.set_int_max_str_digits() to increase the limit").

(** [str(n)] for an [int] where [sys.get_int_max_str_digits()] is
    [max_str_digits] (4300 unless changed): with a limit above zero, an
    integer of more decimal digits is not converted and [ValueError] is
    raised.  An interpreter from before the limit behaves as one with the
    limit zero. *)
Definition str_int_limited (max_str_digits : Z) (z : Z) : exn + string :=
  if (0 <? max_str_digits) && (max_str_digits <? len (str_int (Z.abs z)))
  then inl (digit_limit_error max_str_digits)
  else inr (str_int z).

Fixpoint startswith (s p : string) : bool :=
  match p, s with
  | EmptyString, _ => true
  | String _ _, EmptyString => false
  | String a p', String b s' => Ascii.eqb a b && startswith s' p'
  end.

(** [sub in s]. *)
Fixpoint contains (s sub : string) : bool :=
  startswith s sub
  || match s with
     | EmptyString => false
     | String _ s' => contains s' sub
     end.

Fixpoint lstrip (s : string) : string :=
  match s with
  | EmptyString => EmptyString
  | String c s' => if isspace c then lstrip s' else s
  end.

Definition rstrip (s : string) : string := String.rev (lstrip (String.rev s)).

Definition strip (s : string) : string := rstrip (lstrip s).

(** [s.replace(a, b)] for one-character [a] and [b]. *)
Fixpoint replace_char (a b : ascii) (s : string) : string :=
  match s with
  | EmptyString => EmptyString
  | String c s' => String (if Ascii.eqb c a then b else c) (replace_char a b s')
  end.

(** [sep.join(l)]. *)
Fixpoint join (sep : string) (l : list string) : string :=
  match l with
  | [] => EmptyString
  | [x] => x
  | x :: l' => x ++ sep ++ join sep l'
  end.

(** [s.splitlines()]: [cur] is the line being read. *)
Fixpoint splitlines_from (cur s : string) : list string :=
  match s with
  | EmptyString => if truthy cur then [cur] else []
  | String c rest =>
      if (ord c =? 13)%nat then
        match rest with
        | String c2 rest' =>
            if (ord c2 =? 10)%nat then cur :: splitlines_from EmptyString rest'
            else cur :: splitlines_from EmptyString rest
        | EmptyString => [cur]
        end
      else if is_linebreak c then cur :: splitlines_from EmptyString rest
      else splitlines_from (cur ++ String c EmptyString) rest
  end.

Definition splitlines (s : string) : list string := splitlines_from EmptyString s.

(** [sum(l)] for a list of [int]. *)
Definition sum (l : list Z) : Z := fold_right Z.add 0 l.

(** ** Slices *)

Fixpoint drop_chars (n : nat) (s : string) : string :=
  match n, s with
  | S n', String _ s' => drop_chars n' s'
  | _, _ => s
  end.

Fixpoint take_chars (n : nat) (s : string) : string :=
  match n, s with
  | S n', String c s' => String c (take_chars n' s')
  | _, _ => EmptyString
  end.

(** The position an index of a slice stands for: a negative index counts
    from the end, and every index is clamped to the string. *)
Definition slice_index (s : string) (i : Z) : nat :=
  Z.to_nat (if i <? 0 then Z.max 0 (len s + i) else Z.min i (len s)).

(** [s[i:]], [s[:j]] and [s[i:j]]. *)
Definition slice_from (s : string) (i : Z) : string :=
  drop_chars (slice_index s i) s.

Definition slice_to (s : string) (j : Z) : string :=
  take_chars (slice_index s j) s.

Definition slice (s : string) (i j : Z) : string :=
  take_chars (slice_index s j - slice_index s i) (drop_chars (slice_index s i) s).

End Py.

Notation "'do' x <- m ;; k" := (Py.bind m (fun x => k))
  (at level 10, x name, m at level 99, k at level 200, only parsing).

(* ===================================================================== *)
(** * The [ast] module of the Python library (a subset of its grammar) *)
(* ===================================================================== *)

(** The node classes follow Python's abstract grammar (3.8 to 3.10).  Classes
    that the analyzers never test for and that are left out here
    ([AsyncFor], [AsyncWith], comprehensions, lambdas, ...) behave like
    the untested classes that are present. *)
Module Ast.

Inductive expr_context : Type := Load | Store | Del.

Inductive boolop : Type := And | Or.

Inductive operator : Type := Add | Sub | Mult | Div | Mod | Pow.

Inductive unaryop : Type := Invert | Not | UAdd | USub.

Inductive cmpop : Type := Eq | NotEq | Lt | LtE | Gt | GtE | Is | IsNot | In | NotIn.

Inductive constant : Type :=
| CNone
| CBool (b : bool)
| CInt (n : Z)
| CStr (s : string)
| CEllipsis.

Inductive expr : Type :=
| BoolOp (op : boolop) (values : list expr)
| BinOp (left : expr) (op : operator) (right : expr)
| UnaryOp (op : unaryop) (operand : expr)
| IfExp (test body orelse : expr)
| Dict_ (keys : list (option expr)) (values : list expr)
| Set_ (elts : list expr)
| Compare (left : expr) (ops : list cmpop) (comparators : list expr)
| Call (func : expr) (args : list expr) (keywords : list keyword)
| Constant (value : constant)
| Attribute (value : expr) (attr : string) (ctx : expr_context)
| Name (id : string) (ctx : expr_context)
| List_ (elts : list expr) (ctx : expr_context)
with keyword : Type :=
| Keyword (arg : option string) (value : expr).

Inductive arg : Type :=
| Arg (arg : string) (annotation : option expr).

Inductive arguments : Type :=
| Arguments (posonlyargs args : list arg) (vararg : option arg)
    (kwonlyargs : list arg) (kw_defaults : list (option expr))
    (kwarg : option arg) (defaults : list expr).

Inductive alias : Type :=
| Alias (name : string) (asname : option string).

Inductive withitem : Type :=
| Withitem (context_expr : expr) (optional_vars : option expr).

Inductive stmt : Type :=
| FunctionDef (lineno : Z) (name : string) (args : arguments)
    (body : list stmt) (decorator_list : list expr) (returns : option expr)
| AsyncFunctionDef (lineno : Z) (name : string) (args : arguments)
    (body : list stmt) (decorator_list : list expr) (returns : option expr)
| ClassDef (lineno : Z) (name : string) (bases : list expr)
    (keywords : list keyword) (body : list stmt) (decorator_list : list expr)
| Return (value : option expr)
| Assign (targets : list expr) (value : expr)
| For (target iter : expr) (body orelse : list stmt)
| While (test : expr) (body orelse : list stmt)
| If (test : expr) (body orelse : list stmt)
| With (items : list withitem) (body : list stmt)
| Raise (exc cause : option expr)
| Try (body : list stmt) (handlers : list excepthandler)
    (orelse finalbody : list stmt)
| Assert (test : expr) (msg : option expr)
| Import (lineno col_offset : Z) (names : list alias)
| ImportFrom (lineno col_offset : Z) (module : option string)
    (names : list alias) (level : option Z)
| Expr (value : expr)
| Pass
| Break
| Continue
with excepthandler : Type :=
| ExceptHandler (lineno : Z) (type : option expr) (name : option string)
    (body : list stmt).

Inductive mod_ : Type :=
| Module (body : list stmt).

(** Any instance of [ast.AST]. *)
Inductive node : Type :=
| NMod (m : mod_)
| NStmt (s : stmt)
| NExpr (e : expr)
| NExceptHandler (h : excepthandler)
| NArguments (a : arguments)
| NArg (a : arg)
| NKeyword (k : keyword)
| NAlias (a : alias)
| NWithitem (w : withitem)
| NExprContext (c : expr_context)
| NBoolop (o : boolop)
| NOperator (o : operator)
| NUnaryop (o : unaryop)
| NCmpop (o : cmpop).

Definition opt_node {A} (f : A -> node) (o : option A) : list node :=
  match o with Some a => [f a] | None => [] end.

Definition opt_nodes {A} (f : A -> node) (l : list (option A)) : list node :=
  flat_map (opt_node f) l.

(** [ast.iter_child_nodes]: the fields of [node] that are nodes, and the
    items of its fields that are lists of nodes, in the order of [_fields]. *)
Definition iter_child_nodes (n : node) : list node :=
  match n with
  | NMod (Module body) => map NStmt body
  | NStmt (FunctionDef _ _ args body decorator_list returns)
  | NStmt (AsyncFunctionDef _ _ args body decorator_list returns) =>
      NArguments args :: map NStmt body ++ map NExpr decorator_list
        ++ opt_node NExpr returns
  | NStmt (ClassDef _ _ bases keywords body decorator_list) =>
      map NExpr bases ++ map NKeyword keywords ++ map NStmt body
        ++ map NExpr decorator_list
  | NStmt (Return value) => opt_node NExpr value
  | NStmt (Assign targets value) => map NExpr targets ++ [NExpr value]
  | NStmt (For target iter body orelse) =>
      NExpr target :: NExpr iter :: map NStmt body ++ map NStmt orelse
  | NStmt (While test body orelse) | NStmt (If test body orelse) =>
      NExpr test :: map NStmt body ++ map NStmt orelse
  | NStmt (With items body) => map NWithitem items ++ map NStmt body
  | NStmt (Raise exc cause) => opt_node NExpr exc ++ opt_node NExpr cause
  | NStmt (Try body handlers orelse finalbody) =>
      map NStmt body ++ map NExceptHandler handlers ++ map NStmt orelse
        ++ map NStmt finalbody
  | NStmt (Assert test msg) => NExpr test :: opt_node NExpr msg
  | NStmt (Import _ _ names) | NStmt (ImportFrom _ _ _ names _) => map NAlias names
  | NStmt (Expr value) => [NExpr value]
  | NStmt Pass | NStmt Break | NStmt Continue => []
  | NExpr (BoolOp op values) => NBoolop op :: map NExpr values
  | NExpr (BinOp lhs op rhs) => [NExpr lhs; NOperator op; NExpr rhs]
  | NExpr (UnaryOp op operand) => [NUnaryop op; NExpr operand]
  | NExpr (IfExp test body orelse) => [NExpr test; NExpr body; NExpr orelse]
  | NExpr (Dict_ keys values) => opt_nodes NExpr keys ++ map NExpr values
  | NExpr (Set_ elts) => map NExpr elts
  | NExpr (Compare lhs ops comparators) =>
      NExpr lhs :: map NCmpop ops ++ map NExpr comparators
  | NExpr (Call func args keywords) =>
      NExpr func :: map NExpr args ++ map NKeyword keywords
  | NExpr (Constant _) => []
  | NExpr (Attribute value _ ctx) => [NExpr value; NExprContext ctx]
  | NExpr (Name _ ctx) => [NExprContext ctx]
  | NExpr (List_ elts ctx) => map NExpr elts ++ [NExprContext ctx]
  | NExceptHandler (ExceptHandler _ type _ body) =>
      opt_node NExpr type ++ map NStmt body
  | NArguments (Arguments posonlyargs args vararg kwonlyargs kw_defaults kwarg defaults) =>
      map NArg posonlyargs ++ map NArg args ++ opt_node NArg vararg
        ++ map NArg kwonlyargs ++ opt_nodes NExpr kw_defaults
        ++ opt_node NArg kwarg ++ map NExpr defaults
  | NArg (Arg _ annotation) => opt_node NExpr annotation
  | NKeyword (Keyword _ value) => [NExpr value]
  | NAlias _ => []
  | NWithitem (Withitem context_expr optional_vars) =>
      NExpr context_expr :: opt_node NExpr optional_vars
  | NExprContext _ | NBoolop _ | NOperator _ | NUnaryop _ | NCmpop _ => []
  end.

(** The number of nodes of a tree: the length of the walk over it. *)
Definition list_size {A} (f : A -> nat) (l : list A) : nat :=
  list_sum (map f l).

Definition opt_size {A} (f : A -> nat) (o : option A) : nat :=
  match o with Some a => f a | None => O end.

Fixpoint expr_size (e : expr) : nat :=
  S match e with
    | BoolOp _ values => 1 + list_sum (map expr_size values)
    | BinOp lhs _ rhs => expr_size lhs + 1 + expr_size rhs
    | UnaryOp _ operand => 1 + expr_size operand
    | IfExp test body orelse => expr_size test + expr_size body + expr_size orelse
    | Dict_ keys values =>
        list_sum (map (fun o => match o with Some k => expr_size k | None => O end) keys)
        + list_sum (map expr_size values)
    | Set_ elts => list_sum (map expr_size elts)
    | Compare lhs ops comparators =>
        expr_size lhs + length ops + list_sum (map expr_size comparators)
    | Call func args keywords =>
        expr_size func + list_sum (map expr_size args)
        + list_sum (map keyword_size keywords)
    | Constant _ => 0
    | Attribute value _ _ => expr_size value + 1
    | Name _ _ => 1
    | List_ elts _ => list_sum (map expr_size elts) + 1
    end%nat
with keyword_size (k : keyword) : nat :=
  match k with Keyword _ value => S (expr_size value) end.

Definition arg_size (a : arg) : nat :=
  match a with Arg _ annotation => S (opt_size expr_size annotation) end.

Definition arguments_size (a : arguments) : nat :=
  match a with
  | Arguments posonlyargs args vararg kwonlyargs kw_defaults kwarg defaults =>
      S (list_size arg_size posonlyargs + list_size arg_size args
         + opt_size arg_size vararg + list_size arg_size kwonlyargs
         + list_size (opt_size expr_size) kw_defaults
         + opt_size arg_size kwarg + list_size expr_size defaults)
  end.

Definition withitem_size (w : withitem) : nat :=
  match w with
  | Withitem context_expr optional_vars =>
      S (expr_size context_expr + opt_size expr_size optional_vars)
  end.

Fixpoint stmt_size (s : stmt) : nat :=
  S match s with
    | FunctionDef _ _ args body decorator_list returns
    | AsyncFunctionDef _ _ args body decorator_list returns =>
        arguments_size args + list_sum (map stmt_size body)
        + list_size expr_size decorator_list + opt_size expr_size returns
    | ClassDef _ _ bases keywords body decorator_list =>
        list_size expr_size bases + list_size keyword_size keywords
        + list_sum (map stmt_size body) + list_size expr_size decorator_list
    | Return value => opt_size expr_size value
    | Assign targets value => list_size expr_size targets + expr_size value
    | For target iter body orelse =>
        expr_size target + expr_size iter + list_sum (map stmt_size body)
        + list_sum (map stmt_size orelse)
    | While test body orelse | If test body orelse =>
        expr_size test + list_sum (map stmt_size body)
        + list_sum (map stmt_size orelse)
    | With items body =>
        list_size withitem_size items + list_sum (map stmt_size body)
    | Raise exc cause => opt_size expr_size exc + opt_size expr_size cause
    | Try body handlers orelse finalbody =>
        list_sum (map stmt_size body) + list_sum (map excepthandler_size handlers)
        + list_sum (map stmt_size orelse) + list_sum (map stmt_size finalbody)
    | Assert test msg => expr_size test + opt_size expr_size msg
    | Import _ _ names | ImportFrom _ _ _ names _ => length names
    | Expr value => expr_size value
    | Pass | Break | Continue => 0
    end%nat
with excepthandler_size (h : excepthandler) : nat :=
  match h with
  | ExceptHandler _ type _ body =>
      S (opt_size expr_size type + list_sum (map stmt_size body))
  end.

Definition node_size (n : node) : nat :=
  match n with
  | NMod (Module body) => S (list_size stmt_size body)
  | NStmt s => stmt_size s
  | NExpr e => expr_size e
  | NExceptHandler h => excepthandler_size h
  | NArguments a => arguments_size a
  | NArg a => arg_size a
  | NKeyword k => keyword_size k
  | NAlias _ => 1
  | NWithitem w => withitem_size w
  | NExprContext _ | NBoolop _ | NOperator _ | NUnaryop _ | NCmpop _ => 1
  end%nat.

(** The number of nodes still to visit from a queue. *)
Definition queue_size (todo : list node) : nat := list_sum (map node_size todo).

(** [ast.walk]: the loop
    [todo = deque([node]); while todo: node = todo.popleft();
     todo.extend(iter_child_nodes(node)); yield node],
    one iteration per unit of [fuel]. *)
Fixpoint walk_todo (fuel : nat) (todo : list node) : list node :=
  match fuel, todo with
  | S fuel', n :: todo' => n :: walk_todo fuel' (todo' ++ iter_child_nodes n)
  | _, _ => []
  end.

(** The loop pops one node per iteration and every node of the tree is
    pushed once, so [node_size] iterations empty the queue
    (lemma [walk_todo_length] below). *)
Definition walk (n : node) : list node := walk_todo (node_size n) [n].

(** [ast.get_docstring(node, clean=True)], given the body of a function,
    class or module; [cleandoc] is [inspect.cleandoc]. *)
Definition get_docstring (cleandoc : string -> string) (body : list stmt)
  : option string :=
  match body with
  | Expr (Constant (CStr text)) :: _ => Some (cleandoc text)
  | _ => None
  end.

(** [str(v)] for the value of a [Constant]; only the conversion of an
    [int] can raise. *)
Definition str_constant (max_str_digits : Z) (c : constant) : Py.exn + string :=
  match c with
  | CNone => inr "None"
  | CBool true => inr "True"
  | CBool false => inr "False"
  | CInt n => Py.str_int_limited max_str_digits n
  | CStr s => inr s
  | CEllipsis => inr "Ellipsis"
  end.

End Ast.

(* ===================================================================== *)
(** * types/common.py *)
(* ===================================================================== *)

Inductive LanguageType : Type := PYTHON | TYPESCRIPT | JAVASCRIPT | REACT.

Record FileLocation : Type := mkFileLocation {
  line : Z;
  column : Z;
  end_line : option Z;
  end_column : option Z
}.

(** [FileLocation(line, column)]: the end fields default to [None]. *)
Definition FileLocation_at (l c : Z) : FileLocation :=
  mkFileLocation l c None None.

Record CodeBlock : Type := mkCodeBlock {
  content : string;
  location : FileLocation;
  block_type : string
}.

Record Dependency : Type := mkDependency {
  dep_name : string;
  version : option string;
  is_local : bool;
  import_path : option string;
  used_in : option (list FileLocation)
}.

(** A value of the [metrics] dictionary: an [int] or a [float]. *)
Inductive metric : Type :=
| MInt (n : Z)
| MFloat (x : float).

Record AnalysisResult : Type := mkAnalysisResult {
  file_path : string;
  language : LanguageType;
  blocks : list CodeBlock;
  dependencies : list Dependency;
  errors : list string;
  warnings : list string;
  metrics : gmap string metric
}.

Record AnalysisOptions : Type := mkAnalysisOptions {
  max_file_size : Z;
  ignore_patterns : option (list string);
  max_depth : Z
}.

(** [AnalysisOptions()]: the defaults of the dataclass. *)
Definition default_options : AnalysisOptions :=
  mkAnalysisOptions (1024 * 1024) None 3.

(** [d.update(e)]: the entries of [e] win. *)
Definition dict_update {V} (d e : gmap string V) : gmap string V := e ∪ d.

(* ===================================================================== *)
(** * The file system seen by an analyzer *)
(* ===================================================================== *)

(** What [Path.stat().st_size] and [Path.read_text(encoding='utf-8')] give
    for a path that exists: the text, or the message of the exception
    ([PermissionError], [UnicodeDecodeError], ...) the read raises. *)
Record file : Type := mkFile {
  st_size : Z;
  read_text : string + string
}.

(** [path.exists()] is [is_Some (fs !! str(path))]. *)
Abbreviation filesystem := (gmap string file).

(* ===================================================================== *)
(** * analyzers/base.py: BaseAnalyzer *)
(* ===================================================================== *)

Module Base.

(** The mutable attributes of an analyzer.  The subclasses add
    [_import_cache] and [_component_cache], which no method reads or
    writes. *)
Record analyzer : Type := mkAnalyzer {
  options : AnalysisOptions;
  _file_cache : gmap string string;
  _dependency_cache : gmap string (gset string)
}.

(** [BaseAnalyzer.__init__]. *)
Definition init : analyzer := mkAnalyzer default_options ∅ ∅.

Definition set_file_cache (k v : string) (a : analyzer) : analyzer :=
  mkAnalyzer (options a) (<[k := v]> (_file_cache a)) (_dependency_cache a).

Definition set_dependency_cache (k : string) (v : gset string) (a : analyzer)
  : analyzer :=
  mkAnalyzer (options a) (_file_cache a) (<[k := v]> (_dependency_cache a)).

(** [clear_caches]. *)
Definition clear_caches (a : analyzer) : analyzer := mkAnalyzer (options a) ∅ ∅.

Section Methods.

(** The files on disk while the method runs. *)
Variable fs : filesystem.

(** [self.workspace_path], and [str((workspace_path / p).resolve())] as a
    function of [p]: pathlib and the operating system decide it. *)
Variable resolve : string -> string.

(** [read_file]: [None] is a missing file. *)
Definition read_file (file_path : string) : Py.M analyzer (option string) :=
  fun self =>
    match _file_cache self !! file_path with
    | Some cached => (inr (Some cached), self)
    | None =>
        match fs !! file_path with
        | None => (inr None, self)
        | Some f =>
            if max_file_size (options self) <? st_size f then
              (inl (Py.ValueError
                      ("File " ++ file_path ++ " exceeds maximum size ("
                       ++ Py.str_int (max_file_size (options self)) ++ " bytes)")),
               self)
            else
              match read_text f with
              | inr text => (inr (Some text), set_file_cache file_path text self)
              | inl e =>
                  (inl (Py.ValueError
                          ("Failed to read " ++ file_path ++ ": " ++ e)), self)
              end
        end
    end.

(** [get_dependencies]. *)
Definition get_dependencies (analysis : AnalysisResult) : list Dependency :=
  dependencies analysis.

(** [collect_metrics]. *)
Definition collect_metrics (text : string) (blks : list CodeBlock)
  : gmap string metric :=
  let lines := Py.splitlines text in
  let n_blocks := Z.of_nat (length blks) in
  <[ "total_lines" := MInt (Z.of_nat (length lines)) ]>
  (<[ "code_lines" :=
        MInt (Z.of_nat (length (List.filter (fun l => Py.truthy (Py.strip l)) lines))) ]>
  (<[ "comment_lines" :=
        MInt (Z.of_nat (length (List.filter (fun l => Py.startswith (Py.strip l) "#") lines))) ]>
  (<[ "empty_lines" :=
        MInt (Z.of_nat (length (List.filter (fun l => negb (Py.truthy (Py.strip l))) lines))) ]>
  (<[ "blocks" := MInt n_blocks ]>
  (<[ "avg_block_size" :=
        match blks with
        | [] => MInt 0
        | _ :: _ =>
            MFloat (PrimFloat.div
                      (Py.float_of_int
                         (Py.sum (map (fun b => Z.of_nat (length (Py.splitlines (content b)))) blks)))
                      (Py.float_of_int n_blocks))
        end ]> ∅))))).

(** [validate_file]. *)
Definition validate_file (file_path : string) (self : analyzer) : bool :=
  match fs !! file_path with
  | None => false
  | Some f =>
      if max_file_size (options self) <? st_size f then false
      else
        match ignore_patterns (options self) with
        | Some ((_ :: _) as patterns) =>
            negb (existsb (fun pattern => Py.contains file_path pattern) patterns)
        | _ => true
        end
  end.

(** The abstract method [analyze_file] of the subclass. *)
Variable analyze_file : string -> Py.M analyzer AnalysisResult.

(** The body of the [for dep in analysis.dependencies] loop of
    [analyze_dependencies]; [nested] is the recursive call, absent
    when [depth > 1] is false. *)
Fixpoint dependencies_loop (nested : option (string -> Py.M analyzer (gset string)))
    (deps : list Dependency) (acc : gset string) : Py.M analyzer (gset string) :=
  match deps with
  | [] => Py.ret acc
  | dep :: rest =>
      if is_local dep && Py.truthy_opt (import_path dep) then
        let dep_path := resolve (default "" (import_path dep)) in
        if bool_decide (is_Some (fs !! dep_path)) then
          let acc := acc ∪ {[ dep_path ]} in
          match nested with
          | Some rec =>
              do nested_deps <- rec dep_path ;;
              dependencies_loop nested rest (acc ∪ nested_deps)
          | None => dependencies_loop nested rest acc
          end
        else dependencies_loop nested rest acc
      else dependencies_loop nested rest acc
  end.

(** [analyze_dependencies] with [depth] counted as a natural number:
    [n = 0] is [depth < 1], and in [n = S n'] the test [depth > 1] is
    [n' <> 0] and the recursive call gets [depth - 1 = n'].  The calls
    nest at most [depth] deep; [analyze_dependencies_frames] below adds
    the recursion limit of the interpreter. *)
Fixpoint analyze_dependencies_nat (n : nat) (file_path : string)
  : Py.M analyzer (gset string) :=
  match n with
  | O => Py.ret ∅
  | S n' =>
      fun self =>
        match _dependency_cache self !! file_path with
        | Some cached => (inr cached, self)
        | None =>
            (do analysis <- analyze_file file_path ;;
             do deps <- dependencies_loop
                          match n' with
                          | O => None
                          | S _ => Some (analyze_dependencies_nat n')
                          end
                          (dependencies analysis) ∅ ;;
             do _u <- Py.modify (set_dependency_cache file_path deps) ;;
             Py.ret deps) self
        end
  end.

(** [analyze_dependencies(file_path, depth)], on a stack that holds the
    calls the method makes: see [analyze_dependencies_within] for the
    recursion limit. *)
Definition analyze_dependencies (file_path : string) (depth : Z)
  : Py.M analyzer (gset string) :=
  analyze_dependencies_nat (Z.to_nat depth) file_path.

(** The [RecursionError] of a call for which the interpreter has no frame
    left. *)
Definition recursion_error : Py.exn :=
  Py.RecursionError "maximum recursion depth exceeded".

(** [analyze_dependencies] under the recursion limit of the interpreter.
    The memo is written after the loop, so on a chain or a cycle of
    imports the calls nest until [depth] is used up.  [frames] is the
    number of nested calls of the method for which the stack has room
    when the outermost one is made (each with what its own callees need):
    a recursive call beyond that raises [RecursionError], which nothing
    between it and the caller handles. *)
Fixpoint analyze_dependencies_frames (n frames : nat) (file_path : string)
  : Py.M analyzer (gset string) :=
  match n with
  | O => Py.ret ∅
  | S n' =>
      fun self =>
        match _dependency_cache self !! file_path with
        | Some cached => (inr cached, self)
        | None =>
            (do analysis <- analyze_file file_path ;;
             do deps <- dependencies_loop
                          match n' with
                          | O => None
                          | S _ =>
                              Some match frames with
                                   | O => fun _ => Py.raise recursion_error
                                   | S frames' => analyze_dependencies_frames n' frames'
                                   end
                          end
                          (dependencies analysis) ∅ ;;
             do _u <- Py.modify (set_dependency_cache file_path deps) ;;
             Py.ret deps) self
        end
  end.

Definition analyze_dependencies_within (frames : nat) (file_path : string) (depth : Z)
  : Py.M analyzer (gset string) :=
  analyze_dependencies_frames (Z.to_nat depth) frames file_path.

End Methods.

(** [extract_code_blocks]: the placeholder of the base class. *)
Definition extract_code_blocks (text : string) : list CodeBlock := [].

Section Hashing.

Variable fs : filesystem.

(** [hashlib.md5(content.encode()).hexdigest()] as a function of [content]. *)
Variable md5_hexdigest : string -> string.

(** [get_file_hash]. *)
Definition get_file_hash (file_path : string) : Py.M analyzer string :=
  do text <- read_file fs file_path ;;
  match text with
  | None => Py.raise (Py.ValueError ("Cannot hash nonexistent file: " ++ file_path))
  | Some text => Py.ret (md5_hexdigest text)
  end.

End Hashing.

End Base.

(* ===================================================================== *)
(** * analyzers/python.py: PythonAnalyzer *)
(* ===================================================================== *)

Module Python.

Record PythonFunction : Type := mkPythonFunction {
  fn_name : string;
  fn_args : list string;
  fn_returns : option string;
  fn_decorators : list string;
  fn_docstring : option string;
  fn_is_async : bool;
  fn_complexity : Z
}.

Record PythonClass : Type := mkPythonClass {
  cls_name : string;
  cls_bases : list string;
  cls_methods : list PythonFunction;
  cls_decorators : list string;
  cls_docstring : option string
}.

(** [[f(x) for x in l]] where [f] may raise: the first exception ends it. *)
Fixpoint comprehension {A B} (f : A -> Py.exn + B) (l : list A) : Py.exn + list B :=
  match l with
  | [] => inr []
  | x :: l' =>
      match f x with
      | inl e => inl e
      | inr y =>
          match comprehension f l' with
          | inl e => inl e
          | inr ys => inr (y :: ys)
          end
      end
  end.

Definition expr_class_name (e : Ast.expr) : string :=
  match e with
  | Ast.BoolOp _ _ => "BoolOp"
  | Ast.BinOp _ _ _ => "BinOp"
  | Ast.UnaryOp _ _ => "UnaryOp"
  | Ast.IfExp _ _ _ => "IfExp"
  | Ast.Dict_ _ _ => "Dict"
  | Ast.Set_ _ => "Set"
  | Ast.Compare _ _ _ => "Compare"
  | Ast.Call _ _ _ => "Call"
  | Ast.Constant _ => "Constant"
  | Ast.Attribute _ _ _ => "Attribute"
  | Ast.Name _ _ => "Name"
  | Ast.List_ _ _ => "List"
  end.

(** [node.id]: only a [Name] has the attribute. *)
Definition attr_id (e : Ast.expr) : Py.exn + string :=
  match e with
  | Ast.Name id _ => inr id
  | _ => inl (Py.AttributeError
                ("'" ++ expr_class_name e ++ "' object has no attribute 'id'"))
  end.

(** [_get_decorator_name]. *)
Definition _get_decorator_name (node : Ast.expr) : Py.exn + string :=
  match node with
  | Ast.Name id _ => inr id
  | Ast.Call (Ast.Name id _) _ _ => inr id
  | Ast.Call (Ast.Attribute value attr _) _ _ =>
      match attr_id value with
      | inl e => inl e
      | inr id => inr (id ++ "." ++ attr)
      end
  | _ => inr ""
  end.

(** [_get_return_annotation], given [node.returns]; [str(node.returns.value)]
    raises for an [int] over the digit limit. *)
Definition _get_return_annotation (max_str_digits : Z) (returns : option Ast.expr)
  : Py.exn + option string :=
  match returns with
  | Some (Ast.Name id _) => inr (Some id)
  | Some (Ast.Constant value) =>
      match Ast.str_constant max_str_digits value with
      | inl e => inl e
      | inr s => inr (Some s)
      end
  | _ => inr None
  end.

(** [_get_base_name]. *)
Definition _get_base_name (node : Ast.expr) : Py.exn + string :=
  match node with
  | Ast.Name id _ => inr id
  | Ast.Attribute value attr _ =>
      match attr_id value with
      | inl e => inl e
      | inr id => inr (id ++ "." ++ attr)
      end
  | _ => inr ""
  end.

(** [isinstance(child, (ast.If, ast.While, ast.For, ast.Try,
    ast.ExceptHandler, ast.With, ast.Assert, ast.Raise))]. *)
Definition is_branching (child : Ast.node) : bool :=
  match child with
  | Ast.NStmt (Ast.If _ _ _) | Ast.NStmt (Ast.While _ _ _)
  | Ast.NStmt (Ast.For _ _ _ _) | Ast.NStmt (Ast.Try _ _ _ _)
  | Ast.NExceptHandler _ | Ast.NStmt (Ast.With _ _)
  | Ast.NStmt (Ast.Assert _ _) | Ast.NStmt (Ast.Raise _ _) => true
  | _ => false
  end.

(** One iteration of the loop of [_calculate_complexity]. *)
Definition complexity_step (complexity : Z) (child : Ast.node) : Z :=
  if is_branching child then complexity + 1
  else
    match child with
    | Ast.NExpr (Ast.BoolOp _ values) => complexity + (Z.of_nat (length values) - 1)
    | _ => complexity
    end.

(** [_calculate_complexity]. *)
Definition _calculate_complexity (node : Ast.node) : Z :=
  fold_left complexity_step (Ast.walk node) 1.

(** [[arg.arg for arg in node.args.args]]. *)
Definition arg_names (a : Ast.arguments) : list string :=
  match a with
  | Ast.Arguments _ args _ _ _ _ _ => map (fun x => match x with Ast.Arg n _ => n end) args
  end.

Section WithLibrary.

(** [inspect.cleandoc], which [ast.get_docstring] applies. *)
Variable cleandoc : string -> string.

(** [sys.get_int_max_str_digits()]. *)
Variable max_str_digits : Z.

(** The [PythonFunction] built from a function definition, for a
    [FunctionDef] or [AsyncFunctionDef] node; [None] for any other. *)
Definition function_details (node : Ast.stmt) : option (Py.exn + PythonFunction) :=
  match node with
  | Ast.FunctionDef _ name args body decorator_list returns
  | Ast.AsyncFunctionDef _ name args body decorator_list returns =>
      Some match _get_return_annotation max_str_digits returns with
           | inl e => inl e
           | inr annotation =>
               match comprehension _get_decorator_name decorator_list with
               | inl e => inl e
               | inr decorators =>
                   inr (mkPythonFunction name (arg_names args) annotation decorators
                          (Ast.get_docstring cleandoc body)
                          match node with
                          | Ast.AsyncFunctionDef _ _ _ _ _ _ => true
                          | _ => false
                          end
                          (_calculate_complexity (Ast.NStmt node)))
               end
           end
  | _ => None
  end.

(** The loop of [_analyze_functions] over the nodes still to visit. *)
Fixpoint functions_loop (nodes : list Ast.node) : Py.exn + list PythonFunction :=
  match nodes with
  | [] => inr []
  | Ast.NStmt s :: rest =>
      match function_details s with
      | Some (inl e) => inl e
      | Some (inr f) =>
          match functions_loop rest with
          | inl e => inl e
          | inr fs => inr (f :: fs)
          end
      | None => functions_loop rest
      end
  | _ :: rest => functions_loop rest
  end.

(** [_analyze_functions]. *)
Definition _analyze_functions (tree : Ast.node) : Py.exn + list PythonFunction :=
  functions_loop (Ast.walk tree).

(** The loop [for child in node.body] of [_analyze_classes]. *)
Fixpoint methods_loop (body : list Ast.stmt) : Py.exn + list PythonFunction :=
  match body with
  | [] => inr []
  | child :: rest =>
      match function_details child with
      | Some (inl e) => inl e
      | Some (inr f) =>
          match methods_loop rest with
          | inl e => inl e
          | inr fs => inr (f :: fs)
          end
      | None => methods_loop rest
      end
  end.

(** The [PythonClass] built from a [ClassDef] node. *)
Definition class_details (node : Ast.stmt) : option (Py.exn + PythonClass) :=
  match node with
  | Ast.ClassDef _ name bases _ body decorator_list =>
      Some match comprehension _get_base_name bases with
           | inl e => inl e
           | inr base_names =>
               match methods_loop body with
               | inl e => inl e
               | inr methods =>
                   match comprehension _get_decorator_name decorator_list with
                   | inl e => inl e
                   | inr decorators =>
                       inr (mkPythonClass name base_names methods decorators
                              (Ast.get_docstring cleandoc body))
                   end
               end
           end
  | _ => None
  end.

Fixpoint classes_loop (nodes : list Ast.node) : Py.exn + list PythonClass :=
  match nodes with
  | [] => inr []
  | Ast.NStmt s :: rest =>
      match class_details s with
      | Some (inl e) => inl e
      | Some (inr c) =>
          match classes_loop rest with
          | inl e => inl e
          | inr cs => inr (c :: cs)
          end
      | None => classes_loop rest
      end
  | _ :: rest => classes_loop rest
  end.

(** [_analyze_classes]. *)
Definition _analyze_classes (tree : Ast.node) : Py.exn + list PythonClass :=
  classes_loop (Ast.walk tree).

End WithLibrary.

(** [name.asname or name.name]. *)
Definition alias_local_name (a : Ast.alias) : string :=
  match a with
  | Ast.Alias name asname => if Py.truthy_opt asname then default "" asname else name
  end.

(** The entries one node adds in [_analyze_imports]. *)
Definition imports_of (node : Ast.node) : list (string * string * FileLocation) :=
  match node with
  | Ast.NStmt (Ast.Import lineno col_offset names) =>
      map (fun a => match a with
                    | Ast.Alias name _ =>
                        (name, alias_local_name a, FileLocation_at lineno col_offset)
                    end) names
  | Ast.NStmt (Ast.ImportFrom lineno col_offset module names _) =>
      let module := default "" module in
      map (fun a => match a with
                    | Ast.Alias name _ =>
                        (if Py.truthy module then module ++ "." ++ name else name,
                         alias_local_name a, FileLocation_at lineno col_offset)
                    end) names
  | _ => []
  end.

(** [_analyze_imports]. *)
Definition _analyze_imports (tree : Ast.node) : list (string * string * FileLocation) :=
  flat_map imports_of (Ast.walk tree).

(** The inner loop of [_extract_block_content] over [lines[i+1:]]. *)
Fixpoint block_lines_after (indent : Z) (lines : list string) : list string :=
  match lines with
  | [] => []
  | next_line :: rest =>
      if Py.truthy (Py.strip next_line)
         && (Py.len next_line - Py.len (Py.lstrip next_line) <=? indent)
      then []
      else next_line :: block_lines_after indent rest
  end.

(** [_extract_block_content]. *)
Fixpoint _extract_block_content (lines : list string) (name : string) : option string :=
  match lines with
  | [] => None
  | line :: rest =>
      if Py.contains line ("def " ++ name) || Py.contains line ("class " ++ name) then
        let indent := Py.len line - Py.len (Py.lstrip line) in
        Some (Py.join Py.LF (line :: block_lines_after indent rest))
      else _extract_block_content rest name
  end.

(** One of the two loops of [_create_code_blocks]. *)
Definition blocks_for (lines : list string) (kind : string) (names : list string)
  : list CodeBlock :=
  flat_map (fun name =>
              match _extract_block_content lines name with
              | Some block_content =>
                  if Py.truthy block_content
                  then [mkCodeBlock block_content (FileLocation_at 0 0) kind]
                  else []
              | None => []
              end) names.

(** [_create_code_blocks]. *)
Definition _create_code_blocks (text : string) (functions : list PythonFunction)
    (classes : list PythonClass) : list CodeBlock :=
  let lines := Py.splitlines text in
  blocks_for lines "function" (map fn_name functions)
  ++ blocks_for lines "class" (map cls_name classes).

(** [_collect_python_metrics]; [fs] and [resolve] play no part in
    [collect_metrics]. *)
Definition _collect_python_metrics (tree : Ast.node)
    (functions : list PythonFunction) (classes : list PythonClass)
  : gmap string metric :=
  let metrics := Base.collect_metrics "" [] in
  dict_update metrics
    (<[ "num_functions" := MInt (Z.of_nat (length functions)) ]>
    (<[ "num_classes" := MInt (Z.of_nat (length classes)) ]>
    (<[ "num_methods" :=
          MInt (Py.sum (map (fun c => Z.of_nat (length (cls_methods c))) classes)) ]>
    (<[ "avg_function_complexity" :=
          match functions with
          | [] => MInt 0
          | _ :: _ =>
              MFloat (PrimFloat.div
                        (Py.float_of_int (Py.sum (map fn_complexity functions)))
                        (Py.float_of_int (Z.of_nat (length functions))))
          end ]>
    (<[ "documented_items" :=
          MInt (Z.of_nat (length (List.filter (fun f => Py.truthy_opt (fn_docstring f)) functions))
                + Z.of_nat (length (List.filter (fun c => Py.truthy_opt (cls_docstring c)) classes))) ]>
    (<[ "async_functions" :=
          MInt (Z.of_nat (length (List.filter fn_is_async functions))) ]> ∅)))))).

(** [_build_dependencies]. *)
Definition _build_dependencies (imports : list (string * string * FileLocation))
  : list Dependency :=
  map (fun '(imp_name, _alias, loc) =>
         let local :=
           Py.contains imp_name "."
           && negb (existsb (fun pkg => Py.startswith imp_name pkg)
                      ["django"; "flask"; "fastapi"]) in
         mkDependency imp_name None local
           (if local then Some (Py.replace_char "." "/" imp_name ++ ".py") else None)
           (Some [loc]))
      imports.

(** [isinstance(default, (ast.List, ast.Dict, ast.Set))]. *)
Definition is_mutable_literal (e : Ast.expr) : bool :=
  match e with
  | Ast.List_ _ _ | Ast.Dict_ _ _ | Ast.Set_ _ => true
  | _ => false
  end.

(** The warnings one node adds in [_collect_warnings]. *)
Definition warnings_of (node : Ast.node) : list string :=
  match node with
  | Ast.NExceptHandler (Ast.ExceptHandler lineno type _ _) =>
      match type with
      | None | Some (Ast.Name "Exception" _) =>
          ["Broad exception handler at line " ++ Py.str_int lineno]
      | _ => []
      end
  | Ast.NStmt (Ast.FunctionDef lineno name (Ast.Arguments _ _ _ _ _ _ defaults) _ _ _) =>
      flat_map (fun d =>
                  if is_mutable_literal d
                  then ["Mutable default argument in function " ++ name
                        ++ " at line " ++ Py.str_int lineno]
                  else []) defaults
  | _ => []
  end.

(** [_collect_warnings]. *)
Definition _collect_warnings (tree : Ast.node) : list string :=
  flat_map warnings_of (Ast.walk tree).

Section Analyzer.

Variable fs : filesystem.

(** [ast.parse]: the tree, or the exception it raises ([SyntaxError] and
    its subclasses, or another class such as [ValueError] for a source
    with null bytes and [RecursionError] for one nested too deep). *)
Variable ast_parse : string -> Py.exn + Ast.mod_.

Variable cleandoc : string -> string.
Variable max_str_digits : Z.

(** What follows [tree = ast.parse(content)] in [analyze_file]. *)
Definition analyze_tree (file_path text : string) (tree : Ast.node)
  : Py.exn + AnalysisResult :=
  let imports := _analyze_imports tree in
  match _analyze_functions cleandoc max_str_digits tree with
  | inl e => inl e
  | inr functions =>
      match _analyze_classes cleandoc max_str_digits tree with
      | inl e => inl e
      | inr classes =>
          let blks := _create_code_blocks text functions classes in
          let metrics := _collect_python_metrics tree functions classes in
          let deps := _build_dependencies imports in
          inr (mkAnalysisResult file_path PYTHON blks deps []
                 (_collect_warnings tree) metrics)
      end
  end.

(** [analyze_file]. *)
Definition analyze_file (file_path : string) : Py.M Base.analyzer AnalysisResult :=
  do text <- Base.read_file fs file_path ;;
  if negb (Py.truthy_opt text) then
    Py.raise (Py.ValueError ("Could not read file: " ++ file_path))
  else
    let text := default "" text in
    match ast_parse text with
    | inl (Py.SyntaxError e) =>
        Py.ret (mkAnalysisResult file_path PYTHON [] [] ["Syntax error: " ++ e] [] ∅)
    | inl e => Py.raise e
    | inr tree =>
        match analyze_tree file_path text (Ast.NMod tree) with
        | inl e => Py.raise e
        | inr result => Py.ret result
        end
    end.

End Analyzer.

End Python.

(* ===================================================================== *)
(** * types/web.py and analyzers/web/react.py: ReactAnalyzer *)
(* ===================================================================== *)

Module Web.

Inductive ReactComponentType : Type := FUNCTIONAL | CLASS | HOOK | HOC | PURE.

Inductive ImportType : Type := DEFAULT | NAMED | NAMESPACE | DYNAMIC.

Record ReactComponent : Type := mkReactComponent {
  rc_name : string;
  rc_component_type : ReactComponentType;
  rc_props : list (gmap string string);
  rc_state : option (list (gmap string string));
  rc_hooks : list string;
  rc_jsx_elements : list string;
  rc_code_block : CodeBlock
}.

Record ReactHook : Type := mkReactHook {
  rh_name : string;
  rh_dependencies : list string;
  rh_effect_type : option string;
  rh_code_block : CodeBlock
}.

Record TypeScriptType : Type := mkTypeScriptType {
  ts_name : string;
  ts_definition : string;
  ts_is_interface : bool;
  ts_extends : option (list string);
  ts_implements : option (list string);
  ts_code_block : CodeBlock
}.

(** An instance of [WebAnalysisResult]: the attributes of the base class
    [AnalysisResult] and its own.  [framework] has no default: it is
    [None] until a keyword sets it.  (The classes are modelled as they are
    declared; [dataclass] itself rejects [TypeScriptType], whose field
    [code_block] has no default and follows fields that have one, when
    the module is imported.) *)
Record WebAnalysisResult : Type := mkWebAnalysisResult {
  base : AnalysisResult;
  framework : option string;
  components : list ReactComponent;
  hooks : list ReactHook;
  types : list TypeScriptType;
  styles : gmap string string;
  imports : gmap string ImportType
}.

(** One entry [key=value] of [**kwargs], for the attributes of the class. *)
Inductive kwarg : Type :=
| kw_language (v : LanguageType)
| kw_blocks (v : list CodeBlock)
| kw_dependencies (v : list Dependency)
| kw_errors (v : list string)
| kw_warnings (v : list string)
| kw_metrics (v : gmap string metric)
| kw_framework (v : string)
| kw_components (v : list ReactComponent)
| kw_hooks (v : list ReactHook)
| kw_types (v : list TypeScriptType)
| kw_styles (v : gmap string string)
| kw_imports (v : gmap string ImportType).

Definition with_base (f : AnalysisResult -> AnalysisResult) (self : WebAnalysisResult)
  : WebAnalysisResult :=
  mkWebAnalysisResult (f (base self)) (framework self) (components self)
    (hooks self) (types self) (styles self) (imports self).

(** [setattr(self, key, value)]. *)
Definition setattr (self : WebAnalysisResult) (kw : kwarg) : WebAnalysisResult :=
  match kw with
  | kw_language v =>
      with_base (fun b => mkAnalysisResult (file_path b) v (blocks b) (dependencies b)
                            (errors b) (warnings b) (metrics b)) self
  | kw_blocks v =>
      with_base (fun b => mkAnalysisResult (file_path b) (language b) v (dependencies b)
                            (errors b) (warnings b) (metrics b)) self
  | kw_dependencies v =>
      with_base (fun b => mkAnalysisResult (file_path b) (language b) (blocks b) v
                            (errors b) (warnings b) (metrics b)) self
  | kw_errors v =>
      with_base (fun b => mkAnalysisResult (file_path b) (language b) (blocks b)
                            (dependencies b) v (warnings b) (metrics b)) self
  | kw_warnings v =>
      with_base (fun b => mkAnalysisResult (file_path b) (language b) (blocks b)
                            (dependencies b) (errors b) v (metrics b)) self
  | kw_metrics v =>
      with_base (fun b => mkAnalysisResult (file_path b) (language b) (blocks b)
                            (dependencies b) (errors b) (warnings b) v) self
  | kw_framework v =>
      mkWebAnalysisResult (base self) (Some v) (components self) (hooks self)
        (types self) (styles self) (imports self)
  | kw_components v =>
      mkWebAnalysisResult (base self) (framework self) v (hooks self)
        (types self) (styles self) (imports self)
  | kw_hooks v =>
      mkWebAnalysisResult (base self) (framework self) (components self) v
        (types self) (styles self) (imports self)
  | kw_types v =>
      mkWebAnalysisResult (base self) (framework self) (components self) (hooks self)
        v (styles self) (imports self)
  | kw_styles v =>
      mkWebAnalysisResult (base self) (framework self) (components self) (hooks self)
        (types self) v (imports self)
  | kw_imports v =>
      mkWebAnalysisResult (base self) (framework self) (components self) (hooks self)
        (types self) (styles self) v
  end.

(** [WebAnalysisResult.__init__(self, file_path, **kwargs)]. *)
Definition WebAnalysisResult_init (path : string) (kwargs : list kwarg)
  : WebAnalysisResult :=
  fold_left setattr kwargs
    (mkWebAnalysisResult (mkAnalysisResult path REACT [] [] [] [] ∅)
       None [] [] [] ∅ ∅).

End Web.

Module React.

Import Web.

Record JSImport : Type := mkJSImport {
  js_module : string;
  js_items : list string;
  js_import_type : ImportType;
  js_location : FileLocation
}.

(** The text before and after the first [c] of [s]. *)
Fixpoint partition (c : ascii) (s : string) : option (string * string) :=
  match s with
  | EmptyString => None
  | String a s' =>
      if Ascii.eqb a c then Some (EmptyString, s')
      else match partition c s' with
           | Some (before, after) => Some (String a before, after)
           | None => None
           end
  end.

(** [Path.name] of a POSIX path. *)
Definition path_name (path : string) : string :=
  match partition "/" (String.rev path) with
  | Some (name_rev, _) => String.rev name_rev
  | None => path
  end.

(** [Path.suffix]: [name[i:]] for [i = name.rfind('.')] when
    [0 < i < len(name) - 1], else the empty string. *)
Definition path_suffix (path : string) : string :=
  match partition "." (String.rev (path_name path)) with
  | Some (ext_rev, stem_rev) =>
      if Py.truthy stem_rev && Py.truthy ext_rev
      then "." ++ String.rev ext_rev
      else ""
  | None => ""
  end.

(** [_create_code_blocks]. *)
Definition _create_code_blocks (text : string) (comps : list ReactComponent)
    (hks : list ReactHook) : list CodeBlock :=
  map rc_code_block comps ++ map rh_code_block hks.

(** [_build_dependencies]. *)
Definition _build_dependencies (imps : list JSImport) : list Dependency :=
  map (fun imp =>
         let local :=
           Py.startswith (js_module imp) "." || Py.startswith (js_module imp) "/" in
         mkDependency (js_module imp) None local
           (if local then Some (js_module imp) else None)
           (Some [js_location imp]))
      imps.

(** [_categorize_imports]. *)
Definition _categorize_imports (imps : list JSImport) : gmap string ImportType :=
  fold_left
    (fun categorized imp =>
       fold_left (fun d item => <[ item := js_import_type imp ]> d)
         (js_items imp) categorized)
    imps ∅.

Definition is_FUNCTIONAL (t : ReactComponentType) : bool :=
  match t with FUNCTIONAL => true | _ => false end.

Definition is_CLASS (t : ReactComponentType) : bool :=
  match t with CLASS => true | _ => false end.

(** [_collect_react_metrics]. *)
Definition _collect_react_metrics (text : string) (comps : list ReactComponent)
    (hks : list ReactHook) (tys : list TypeScriptType) : gmap string metric :=
  let metrics := Base.collect_metrics "" [] in
  dict_update metrics
    (<[ "num_components" := MInt (Z.of_nat (length comps)) ]>
    (<[ "num_hooks" := MInt (Z.of_nat (length hks)) ]>
    (<[ "num_types" := MInt (Z.of_nat (length tys)) ]>
    (<[ "functional_components" :=
          MInt (Z.of_nat (length (List.filter (fun c => is_FUNCTIONAL (rc_component_type c)) comps))) ]>
    (<[ "class_components" :=
          MInt (Z.of_nat (length (List.filter (fun c => is_CLASS (rc_component_type c)) comps))) ]>
    (<[ "avg_props_per_component" :=
          match comps with
          | [] => MInt 0
          | _ :: _ =>
              MFloat (PrimFloat.div
                        (Py.float_of_int
                           (Py.sum (map (fun c => Z.of_nat (length (rc_props c))) comps)))
                        (Py.float_of_int (Z.of_nat (length comps))))
          end ]>
    (<[ "components_with_hooks" :=
          MInt (Z.of_nat (length (List.filter
                                    (fun c => match rc_hooks c with [] => false | _ => true end)
                                    comps))) ]> ∅))))))).

Section Analyzer.

Variable fs : filesystem.

(** The passes driven by the [re] library.  [_analyze_components],
    [_analyze_hooks] and [_analyze_types] call [_find_closing_brace],
    whose [stack.pop()] raises [IndexError] on a closing brace met
    before any opening one. *)
Variable _analyze_imports : string -> list JSImport.
Variable _analyze_components : string -> Py.exn + list ReactComponent.
Variable _analyze_hooks : string -> Py.exn + list ReactHook.
Variable _analyze_types : string -> Py.exn + list TypeScriptType.
Variable _analyze_styles : string -> gmap string string.

(** What follows the reading of [content] in [analyze_file]. *)
Definition analyze_content (path text : string) : Py.exn + WebAnalysisResult :=
  let imps := _analyze_imports text in
  match _analyze_components text with
  | inl e => inl e
  | inr comps =>
      match _analyze_hooks text with
      | inl e => inl e
      | inr hks =>
          match
            (if bool_decide (path_suffix path ∈ [".tsx"; ".ts"])
             then _analyze_types text else inr [])
          with
          | inl e => inl e
          | inr tys =>
              let blks := _create_code_blocks text comps hks in
              let deps := _build_dependencies imps in
              let stls := _analyze_styles text in
              let metrics := _collect_react_metrics text comps hks tys in
              inr (WebAnalysisResult_init path
                     [kw_framework "react"; kw_components comps; kw_hooks hks;
                      kw_types tys; kw_styles stls;
                      kw_imports (_categorize_imports imps)])
          end
      end
  end.

(** [analyze_file]. *)
Definition analyze_file (path : string) : Py.M Base.analyzer WebAnalysisResult :=
  do text <- Base.read_file fs path ;;
  if negb (Py.truthy_opt text) then
    Py.raise (Py.ValueError ("Could not read file: " ++ path))
  else
    match analyze_content path (default "" text) with
    | inl e => Py.raise e
    | inr result => Py.ret result
    end.

(** [analyze_file] as the base class calls it: the result seen as an
    [AnalysisResult]. *)
Definition analyze_file_base (path : string) : Py.M Base.analyzer AnalysisResult :=
  do result <- analyze_file path ;; Py.ret (base result).

End Analyzer.

(** [_get_location]. *)
Definition _get_location (text : string) (offset : Z) : FileLocation :=
  let lines := Py.splitlines (Py.slice_to text offset) in
  FileLocation_at (Z.of_nat (length lines))
    (match last lines with Some l => Py.len l | None => 0 end).

(** The loop of [_find_closing_brace] over the characters still to read:
    [i] is the index of the next one, [None] the end of the loop.  The
    head of [stack] is the top of the Python list used as a stack. *)
Fixpoint closing_brace_loop (chars : string) (i : Z) (stack : list ascii)
  : Py.exn + option Z :=
  match chars with
  | EmptyString => inr None
  | String char rest =>
      if Ascii.eqb char "{" then closing_brace_loop rest (i + 1) (char :: stack)
      else if Ascii.eqb char "}" then
        match stack with
        | [] => inl (Py.IndexError "pop from empty list")
        | _ :: [] => inr (Some (i + 1))
        | _ :: stack' => closing_brace_loop rest (i + 1) stack'
        end
      else closing_brace_loop rest (i + 1) stack
  end.

(** [_find_closing_brace]. *)
Definition _find_closing_brace (text : string) (start : Z) : Py.exn + Z :=
  match closing_brace_loop (Py.slice_from text start) start [] with
  | inl e => inl e
  | inr (Some position) => inr position
  | inr None => inr (Py.len text)
  end.

(** [_determine_effect_type]. *)
Definition _determine_effect_type (text : string) : option string :=
  if Py.contains text "componentDidMount" || Py.contains text "[]" then Some "mount"
  else if Py.contains text "componentDidUpdate" then Some "update"
  else if Py.contains text "return"
          && (Py.contains text "cleanup" || Py.contains text "unmount")
  then Some "cleanup"
  else None.

Section Hooks.

(** [(match.start(), match.group())] for the matches of
    [self._hook_pattern.finditer(content)], and [_find_dependencies], both
    driven by the [re] library. *)
Variable hook_matches : string -> list (Z * string).
Variable _find_dependencies : string -> list string.

(** The loop of [_analyze_hooks] over the matches still to visit. *)
Fixpoint hooks_loop (text : string) (matches : list (Z * string))
  : Py.exn + list ReactHook :=
  match matches with
  | [] => inr []
  | (block_start, hook_name) :: rest =>
      match _find_closing_brace text block_start with
      | inl e => inl e
      | inr block_end =>
          let block_content := Py.slice text block_start block_end in
          let hook :=
            mkReactHook hook_name (_find_dependencies block_content)
              (_determine_effect_type block_content)
              (mkCodeBlock block_content (_get_location text block_start) "hook") in
          match hooks_loop text rest with
          | inl e => inl e
          | inr hks => inr (hook :: hks)
          end
      end
  end.

(** [_analyze_hooks]. *)
Definition _analyze_hooks (text : string) : Py.exn + list ReactHook :=
  hooks_loop text (hook_matches text).

End Hooks.

End React.

(* ===================================================================== *)
(** * utils/cache.py: AnalysisCache *)
(* ===================================================================== *)

Module Cache.

(** Modelled from the spec: the class [CacheConfig] of config/settings.py,
    whose Python text is not among the sources (the file holds the TOML
    defaults).  The fields are those cache.py reads and section 6 of the
    specification lists: [enabled], [path], [ttl] in minutes and
    [max_size] in megabytes. *)
Record CacheConfig : Type := mkCacheConfig {
  enabled : bool;
  path : string;
  ttl : Z;
  max_size : Z
}.

(** A row of the table [analysis_cache]. *)
Record row : Type := mkRow {
  file_path : string;
  content_hash : string;
  analysis_data : string;
  timestamp : Z;
  file_size : Z
}.

(** The table, in rowid order.  [file_path] is its primary key. *)
Abbreviation table := (list row).

(** [INSERT OR REPLACE]: the row with the same primary key is deleted and
    the new one gets a fresh rowid. *)
Definition insert_or_replace (r : row) (db : table) : table :=
  List.filter (fun r' => negb (String.eqb (file_path r') (file_path r))) db ++ [r].

(** [SELECT SUM(file_size) FROM analysis_cache], then [or 0]. *)
Definition total_size (db : table) : Z := Py.sum (map file_size db).

(** [ORDER BY timestamp ASC]: a stable insertion sort, so rows of equal
    timestamp stay in rowid order (SQLite leaves their order open). *)
Fixpoint insert_by_timestamp (r : row) (sorted : table) : table :=
  match sorted with
  | [] => [r]
  | r' :: rest =>
      if timestamp r <=? timestamp r' then r :: sorted
      else r' :: insert_by_timestamp r rest
  end.

Definition order_by_timestamp (db : table) : table :=
  fold_right insert_by_timestamp [] db.

(** [int(total_size * 0.2)]; the literal is the double nearest to 0.2. *)
Definition eviction_limit (total : Z) : Z :=
  Py.int_of_float (PrimFloat.mul (Py.float_of_int total) 0x1.999999999999ap-3%float).

(** The rows selected by
    [SELECT file_path FROM analysis_cache ORDER BY timestamp ASC LIMIT ?]. *)
Definition oldest (limit : Z) (db : table) : table :=
  take (Z.to_nat limit) (order_by_timestamp db).

(** [DELETE FROM analysis_cache WHERE file_path IN (...)]. *)
Definition delete_in (victims : list string) (db : table) : table :=
  List.filter (fun r => negb (bool_decide (file_path r ∈ victims))) db.

(** [invalidate]. *)
Definition invalidate (p : string) (db : table) : table :=
  List.filter (fun r => negb (String.eqb (file_path r) p)) db.

Section WithConfig.

Variable config : CacheConfig.

(** [_cleanup_if_needed]. *)
Definition _cleanup_if_needed (db : table) : table :=
  let total := total_size db in
  if max_size config * 1024 * 1024 <? total then
    delete_in (map file_path (oldest (eviction_limit total) db)) db
  else db.

(** The values [json.dumps] accepts, with [json.dumps] and [json.loads]. *)
Variable Json : Type.
Variable dumps : Json -> string.
Variable loads : string -> Json.

(** [time.time() - timestamp <= self.config.ttl * 60]. *)
Definition within_ttl (now : float) (stamp : Z) : bool :=
  PrimFloat.leb (PrimFloat.sub now (Py.float_of_int stamp))
    (Py.float_of_int (ttl config * 60)).

(** [get]; [now] is the value of [time.time()]. *)
Definition get (now : float) (p h : string) (db : table) : option Json :=
  if negb (enabled config) then None
  else
    match List.find (fun r => String.eqb (file_path r) p && String.eqb (content_hash r) h) db with
    | Some r =>
        if within_ttl now (timestamp r) then Some (loads (analysis_data r)) else None
    | None => None
    end.

(** [set]; [now] is the value of [time.time()]. *)
Definition set (now : float) (p h : string) (data : Json) (db : table) : table :=
  if negb (enabled config) then db
  else
    let db := _cleanup_if_needed db in
    insert_or_replace
      (mkRow p h (dumps data) (Py.int_of_float now) (Py.len (dumps data))) db.

End WithConfig.

End Cache.

(* ===================================================================== *)
(** * Vocabulary of the properties *)
(* ===================================================================== *)

Module Props.

(** Every text held in [_file_cache] is the text of the file on disk: true
    of a new analyzer and kept by [read_file] while the files do not
    change. *)
Definition cache_coherent (fs : filesystem) (a : Base.analyzer) : Prop :=
  forall p text, Base._file_cache a !! p = Some text ->
    exists f, fs !! p = Some f /\ read_text f = inr text.

(** The path the loop of [analyze_dependencies] adds for one dependency:
    the dependency is local, has an import path, and the path is on disk. *)
Definition dependency_target (fs : filesystem) (resolve : string -> string)
    (dep : Dependency) : option string :=
  if is_local dep && Py.truthy_opt (import_path dep) then
    let dep_path := resolve (default "" (import_path dep)) in
    if bool_decide (is_Some (fs !! dep_path)) then Some dep_path else None
  else None.

(** The direct dependencies of a result, in the order of the loop. *)
Definition direct_dependencies (fs : filesystem) (resolve : string -> string)
    (r : AnalysisResult) : list string :=
  omap (dependency_target fs resolve) (dependencies r).

(** [analyze_file] succeeds on [x] whenever the invariant [Inv] of the
    analyzer holds, keeps it, leaves the memoized dependency sets alone, and
    the only dependency of [x] that the resolver follows is [y]. *)
Definition imports_only (fs : filesystem) (resolve : string -> string)
    (analyze_file : string -> Py.M Base.analyzer AnalysisResult)
    (Inv : Base.analyzer -> Prop) (x y : string) : Prop :=
  forall a, Inv a ->
    exists a' r, analyze_file x a = (inr r, a') /\ Inv a'
      /\ Base._dependency_cache a' = Base._dependency_cache a
      /\ direct_dependencies fs resolve r = [y].

(** What resolving [self] returns at depth [n] when [self] and [other]
    import each other. *)
Definition cycle_result (other self : string) (n : nat) : gset string :=
  match n with
  | O => ∅
  | S O => {[ other ]}
  | S (S _) => {[ self; other ]}
  end.

(** Resolving [self] at depth [n] returns [cycle_result] from any analyzer
    that has memoized neither path. *)
Definition resolves (fs : filesystem) (resolve : string -> string)
    (analyze_file : string -> Py.M Base.analyzer AnalysisResult)
    (Inv : Base.analyzer -> Prop) (self other : string) (n : nat) : Prop :=
  forall a, Inv a ->
    Base._dependency_cache a !! self = None ->
    Base._dependency_cache a !! other = None ->
    exists a',
      Base.analyze_dependencies_nat fs resolve analyze_file n self a
      = (inr (cycle_result other self n), a') /\ Inv a'.

(** Every memoized dependency set is empty. *)
Definition memo_all_empty (a : Base.analyzer) : Prop :=
  forall p s, Base._dependency_cache a !! p = Some s -> s = ∅.

Definition is_If (n : Ast.node) : bool :=
  match n with Ast.NStmt (Ast.If _ _ _) => true | _ => false end.

Definition is_Try (n : Ast.node) : bool :=
  match n with Ast.NStmt (Ast.Try _ _ _ _) => true | _ => false end.

Definition is_ExceptHandler (n : Ast.node) : bool :=
  match n with Ast.NExceptHandler _ => true | _ => false end.

Definition is_While (n : Ast.node) : bool :=
  match n with Ast.NStmt (Ast.While _ _ _) => true | _ => false end.

Definition is_For (n : Ast.node) : bool :=
  match n with Ast.NStmt (Ast.For _ _ _ _) => true | _ => false end.

Definition is_With (n : Ast.node) : bool :=
  match n with Ast.NStmt (Ast.With _ _) => true | _ => false end.

Definition is_Assert (n : Ast.node) : bool :=
  match n with Ast.NStmt (Ast.Assert _ _) => true | _ => false end.

Definition is_Raise (n : Ast.node) : bool :=
  match n with Ast.NStmt (Ast.Raise _ _) => true | _ => false end.

(** The other constructs the score counts: loops, [with], [assert],
    [raise] and boolean operators. *)
Definition is_other_counted (n : Ast.node) : bool :=
  match n with
  | Ast.NStmt (Ast.While _ _ _) | Ast.NStmt (Ast.For _ _ _ _)
  | Ast.NStmt (Ast.With _ _) | Ast.NStmt (Ast.Assert _ _)
  | Ast.NStmt (Ast.Raise _ _) | Ast.NExpr (Ast.BoolOp _ _) => true
  | _ => false
  end.

(** The number of nodes of a tree that satisfy [P]. *)
Definition count (P : Ast.node -> bool) (tree : Ast.node) : nat :=
  length (List.filter P (Ast.walk tree)).

(** No [FunctionDef] of the tree has a list, dict or set literal among the
    defaults of its parameters. *)
Definition no_mutable_default (n : Ast.node) : bool :=
  match n with
  | Ast.NStmt (Ast.FunctionDef _ _ (Ast.Arguments _ _ _ _ _ _ defaults) _ _ _) =>
      forallb (fun d => negb (Python.is_mutable_literal d)) defaults
  | _ => true
  end.

(** The mantissa of the double nearest to 0.2, which is
    [fifth * 2^-55]; [5 * fifth = 2^55 + 2]. *)
Definition fifth : Z := 7205759403792794.

(** The sum of the byte sizes of the stored entries. *)
Fixpoint stored_bytes (db : Cache.table) : Z :=
  match db with
  | [] => 0
  | r :: db' => Cache.file_size r + stored_bytes db'
  end.

(** The primary key of the cache table is unique. *)
Definition primary_key (db : Cache.table) : Prop :=
  NoDup (map Cache.file_path db).

(** Every member of a memoized dependency set is a path on disk. *)
Definition memo_on_disk (fs : filesystem) (a : Base.analyzer) : Prop :=
  forall p s q, Base._dependency_cache a !! p = Some s -> q ∈ s -> is_Some (fs !! q).

(** [analyze_file] never changes the memoized dependency sets. *)
Definition leaves_memo (analyze_file : string -> Py.M Base.analyzer AnalysisResult)
  : Prop :=
  forall p a r a', analyze_file p a = (r, a') ->
    Base._dependency_cache a' = Base._dependency_cache a.

(** Whatever is memoized for [x] holds [y]. *)
Definition memo_links (x y : string) (a : Base.analyzer) : Prop :=
  forall s, Base._dependency_cache a !! x = Some s -> y ∈ s.

(** [x] imports [y]: every result of [analyze_file] on [x], from an
    analyzer that satisfies [Inv], has [y] among the dependencies that the
    resolver follows (whatever else it has). *)
Definition imports (fs : filesystem) (resolve : string -> string)
    (analyze_file : string -> Py.M Base.analyzer AnalysisResult)
    (Inv : Base.analyzer -> Prop) (x y : string) : Prop :=
  forall a r a', Inv a -> analyze_file x a = (inr r, a') ->
    y ∈ direct_dependencies fs resolve r.

(** [analyze_file] keeps the invariant [Inv], whatever its outcome. *)
Definition keeps (analyze_file : string -> Py.M Base.analyzer AnalysisResult)
    (Inv : Base.analyzer -> Prop) : Prop :=
  forall p a out a', Inv a -> analyze_file p a = (out, a') -> Inv a'.

(** The cached texts are those on disk and the options are the defaults:
    what holds of an analyzer throughout a run while the files do not
    change. *)
Definition settled (fs : filesystem) (a : Base.analyzer) : Prop :=
  cache_coherent fs a /\ Base.options a = default_options.

Definition is_AttributeError (e : Py.exn) : bool :=
  match e with Py.AttributeError _ => true | _ => false end.

(** [len(line) - len(line.lstrip())]: the width of the indentation. *)
Definition indent_of (line : string) : Z := Py.len line - Py.len (Py.lstrip line).

(** [not line.strip()]. *)
Definition is_blank (line : string) : bool := negb (Py.truthy (Py.strip line)).

(** The line holds [def name] or [class name]. *)
Definition declares (name line : string) : bool :=
  Py.contains line ("def " ++ name) || Py.contains line ("class " ++ name).

(** What a node adds to the score besides one per counted statement:
    [len(values) - 1] for a boolean operator. *)
Definition boolop_extra (n : Ast.node) : Z :=
  match n with
  | Ast.NExpr (Ast.BoolOp _ values) => Z.of_nat (length values) - 1
  | _ => 0
  end.

(** The first brace of a text, if it has one. *)
Fixpoint first_brace (s : string) : option ascii :=
  match s with
  | EmptyString => None
  | String c s' =>
      if Ascii.eqb c "{" || Ascii.eqb c "}" then Some c else first_brace s'
  end.

(** The number of occurrences of a character. *)
Fixpoint count_char (c : ascii) (s : string) : nat :=
  match s with
  | EmptyString => O
  | String c' s' => ((if Ascii.eqb c' c then 1 else 0) + count_char c s')%nat
  end.

End Props.

(* ===================================================================== *)
(** * Example inputs *)
(* ===================================================================== *)

Module Examples.

Definition name_ (id : string) : Ast.expr := Ast.Name id Ast.Load.

Definition assign (id : string) (n : Z) : Ast.stmt :=
  Ast.Assign [Ast.Name id Ast.Store] (Ast.Constant (Ast.CInt n)).

(** The ten lines
<<
    def handler(x):
        try:
            if x:
                y = 1
            else:
                y = 2
            return y
        except Exception:
            y = 0
        return y
>>
    and their tree. *)
Definition handler_source : string :=
  Py.join Py.LF
    [ "def handler(x):";
      "    try:";
      "        if x:";
      "            y = 1";
      "        else:";
      "            y = 2";
      "        return y";
      "    except Exception:";
      "        y = 0";
      "    return y";
      "" ].

Definition handler_except : Ast.excepthandler :=
  Ast.ExceptHandler 8 (Some (name_ "Exception")) None [assign "y" 0].

Definition handler_def : Ast.stmt :=
  Ast.FunctionDef 1 "handler"
    (Ast.Arguments [] [Ast.Arg "x" None] None [] [] None [])
    [ Ast.Try
        [ Ast.If (name_ "x") [assign "y" 1] [assign "y" 2];
          Ast.Return (Some (name_ "y")) ]
        [ handler_except ]
        [] [];
      Ast.Return (Some (name_ "y")) ]
    [] None.

(** A workspace [/ws] where [a.py] imports [pkg.b], [pkg/b.py] imports
    [pkg.c] and [pkg/c.py] imports nothing, and where [pkg/m.py] and
    [pkg/n.py] import each other. *)
Definition text_file (text : string) : file :=
  mkFile (Py.len text) (inr text).

(** Three lines: a comment, an empty line and an assignment. *)
Definition notes_source : string :=
  Py.join Py.LF [ "# note"; ""; "x = 1"; "" ].

Definition workspace : filesystem :=
  <[ "/ws/a.py" := text_file "import pkg.b" ]>
  (<[ "/ws/pkg/b.py" := text_file "import pkg.c" ]>
  (<[ "/ws/pkg/c.py" := text_file "x = 1" ]>
  (<[ "/ws/pkg/m.py" := text_file "import pkg.n" ]>
  (<[ "/ws/pkg/n.py" := text_file "import pkg.m" ]>
  (<[ "/ws/handler.py" := text_file handler_source ]>
(<[ "/ws/notes.py" := text_file notes_source ]>
  (<[ "/ws/broken.py" := text_file "def broken(:" ]>
  (<[ "/ws/empty.py" := text_file "" ]>
  (<[ "/ws/App.tsx" := text_file "import Panel from './Panel'" ]>
  (<[ "/ws/Empty.tsx" := text_file "" ]> ∅)))))))))).

Definition resolve (p : string) : string := "/ws/" ++ p.

Definition import_ (module : string) : Ast.mod_ :=
  Ast.Module [Ast.Import 1 0 [Ast.Alias module None]].

(** [ast.parse] on the texts of the workspace. *)
Definition parse (text : string) : Py.exn + Ast.mod_ :=
  if String.eqb text "" then inr (Ast.Module [])
  else if String.eqb text "import pkg.b" then inr (import_ "pkg.b")
  else if String.eqb text "import pkg.c" then inr (import_ "pkg.c")
  else if String.eqb text "import pkg.n" then inr (import_ "pkg.n")
  else if String.eqb text "import pkg.m" then inr (import_ "pkg.m")
  else if String.eqb text "x = 1" then inr (Ast.Module [assign "x" 1])
  else if String.eqb text handler_source then inr (Ast.Module [handler_def])
  else if String.eqb text notes_source then inr (Ast.Module [assign "x" 1])
  else inl (Py.SyntaxError "invalid syntax (<unknown>, line 1)").

Definition cleandoc (text : string) : string := Py.strip text.

(** The default of [sys.get_int_max_str_digits()]. *)
Definition max_str_digits : Z := 4300.

Definition python_analyze_file : string -> Py.M Base.analyzer AnalysisResult :=
  Python.analyze_file workspace parse cleandoc max_str_digits.

(** The passes of the React analyzer on [import Panel from './Panel']:
    one default import, nothing else. *)
Definition react_imports (text : string) : list React.JSImport :=
  if String.eqb text "import Panel from './Panel'"
  then [React.mkJSImport "./Panel" ["Panel"] Web.DEFAULT (FileLocation_at 0 0)]
  else [].

Definition react_analyze_file : string -> Py.M Base.analyzer Web.WebAnalysisResult :=
  React.analyze_file workspace react_imports
    (fun _ => inr []) (fun _ => inr []) (fun _ => inr []) (fun _ => ∅).

Definition react_analyze_file_base : string -> Py.M Base.analyzer AnalysisResult :=
  React.analyze_file_base workspace react_imports
    (fun _ => inr []) (fun _ => inr []) (fun _ => inr []) (fun _ => ∅).

(** Three cached rows of two bytes each, and a configuration with a
    budget of zero megabytes. *)
Definition rows : Cache.table :=
  [ Cache.mkRow "a.py" "h1" "{}" 30 2;
    Cache.mkRow "b.py" "h2" "{}" 10 2;
    Cache.mkRow "c.py" "h3" "{}" 20 2 ].

Definition tight : Cache.CacheConfig := Cache.mkCacheConfig true "~/.cache/claude_helper" 60 0.

(** The configuration of claude_helper.toml. *)
Definition defaults : Cache.CacheConfig :=
  Cache.mkCacheConfig true "~/.cache/claude_helper" 60 100.

(** The workspace with a file of one byte more than the default limit,
    which cannot even be read. *)
Definition oversized : file := mkFile (1024 * 1024 + 1) (inl "permission denied").

Definition workspace_with_big_file : filesystem :=
  <[ "/ws/big.py" := oversized ]> workspace.

(** A stand-in for the MD5 digest. *)
Definition digest (text : string) : string := "md5:" ++ text.

(** An analyzer that ignores [node_modules]. *)
Definition ignoring_node_modules : Base.analyzer :=
  Base.mkAnalyzer (mkAnalysisOptions (1024 * 1024) (Some ["node_modules"]) 3) ∅ ∅.

(** A workspace with a file under [node_modules]. *)
Definition workspace_with_modules : filesystem :=
  <[ "/ws/node_modules/left-pad/index.js" := text_file "module.exports = pad" ]> workspace.

(** The class
<<
    class Stack:
        def push(self, x):
            return x
>>
    and its tree. *)
Definition stack_class : Ast.stmt :=
  Ast.ClassDef 1 "Stack" [] []
    [ Ast.FunctionDef 2 "push"
        (Ast.Arguments [] [Ast.Arg "self" None; Ast.Arg "x" None] None [] [] None [])
        [ Ast.Return (Some (name_ "x")) ]
        [] None ]
    [].

(** The lines of a file that declares [get_stats] before [get]. *)
Definition stats_lines : list string :=
  [ "def get_stats(self):";
    "    return 1";
    "";
    "def get(self):";
    "    return 2" ].

(** The file [class Model(db.orm.Base): pass], whose base is an attribute
    of an attribute, with its tree and a parser that knows it. *)
Definition model_source : string := "class Model(db.orm.Base): pass".

Definition model_base : Ast.expr :=
  Ast.Attribute (Ast.Attribute (name_ "db") "orm" Ast.Load) "Base" Ast.Load.

Definition model_class : Ast.stmt :=
  Ast.ClassDef 1 "Model" [model_base] [] [Ast.Pass] [].

Definition parse_model (text : string) : Py.exn + Ast.mod_ :=
  if String.eqb text model_source then inr (Ast.Module [model_class]) else parse text.

Definition workspace_with_model : filesystem :=
  <[ "/ws/model.py" := text_file model_source ]> workspace.

(** A component that calls a hook without braces of its own; the one
    match of [use[A-Z]\w+] is [useContext], at offset 34. *)
Definition themed_source : string :=
  "function Themed() { const theme = useContext(Theme); return theme; }".

Definition themed_hooks (text : string) : list (Z * string) :=
  if String.eqb text themed_source then [(34, "useContext")] else [].

Definition workspace_with_component : filesystem :=
  <[ "/ws/Themed.jsx" := text_file themed_source ]> workspace.

(** A call of a hook with a block of its own. *)
Definition effect_source : string := "useEffect(() => { run(); }, [])".

(** A cycle inside a larger graph: [pkg/hub.py] imports [pkg.spoke] and
    [pkg.c], and [pkg/spoke.py] imports [pkg.hub]. *)
Definition hub_source : string :=
  Py.join Py.LF [ "import pkg.spoke"; "import pkg.c"; "" ].

Definition hub_tree : Ast.mod_ :=
  Ast.Module [ Ast.Import 1 0 [Ast.Alias "pkg.spoke" None];
               Ast.Import 2 0 [Ast.Alias "pkg.c" None] ].

Definition spoke_source : string := "import pkg.hub".

Definition parse_hub (text : string) : Py.exn + Ast.mod_ :=
  if String.eqb text hub_source then inr hub_tree
  else if String.eqb text spoke_source then inr (import_ "pkg.hub")
  else parse text.

Definition workspace_with_hub : filesystem :=
  <[ "/ws/pkg/hub.py" := text_file hub_source ]>
  (<[ "/ws/pkg/spoke.py" := text_file spoke_source ]> workspace).

Definition hub_analyze_file : string -> Py.M Base.analyzer AnalysisResult :=
  Python.analyze_file workspace_with_hub parse_hub cleandoc max_str_digits.

(** Three cached rows of ten bytes each. *)
Definition wide_rows : Cache.table :=
  [ Cache.mkRow "a.py" "h1" "{........}" 30 10;
    Cache.mkRow "b.py" "h2" "{........}" 10 10;
    Cache.mkRow "c.py" "h3" "{........}" 20 10 ].

(** [def f() -> 0xff...f: pass], the annotation a literal of 4000
    hexadecimal digits, which has 4817 decimal digits. *)
Definition wide_def : Ast.stmt :=
  Ast.FunctionDef 1 "f" (Ast.Arguments [] [] None [] [] None []) [Ast.Pass] []
    (Some (Ast.Constant (Ast.CInt (16 ^ 4000 - 1)))).

End Examples.

(* ===================================================================== *)
(** * Facts about [ast.walk] *)
(* ===================================================================== *)

Section WalkFacts.

Import Ast.

Lemma queue_size_app (l1 l2 : list node) : queue_size (l1 ++ l2) = (queue_size l1 + queue_size l2)%nat.
Proof. unfold queue_size. rewrite map_app, list_sum_app. reflexivity. Qed.

Lemma queue_size_map {A} (g : A -> node) (f : A -> nat) (l : list A) :
  (forall a, node_size (g a) = f a) -> queue_size (map g l) = list_sum (map f l).
Proof.
  intros Hg. unfold queue_size. induction l as [|a l IH]; simpl; [reflexivity|].
  rewrite Hg, IH. reflexivity.
Qed.

Lemma queue_size_map_leaf {A} (g : A -> node) (l : list A) :
  (forall a, node_size (g a) = 1%nat) -> queue_size (map g l) = length l.
Proof.
  intros Hg. unfold queue_size. induction l as [|a l IH]; simpl; [reflexivity|].
  rewrite Hg, IH. reflexivity.
Qed.

Lemma queue_size_opt_node {A} (g : A -> node) (f : A -> nat) (o : option A) :
  (forall a, node_size (g a) = f a) -> queue_size (opt_node g o) = opt_size f o.
Proof. intros Hg. destruct o; unfold queue_size; simpl; rewrite ?Hg; lia. Qed.

Lemma queue_size_opt_nodes {A} (g : A -> node) (f : A -> nat) (l : list (option A)) :
  (forall a, node_size (g a) = f a) ->
  queue_size (opt_nodes g l) = list_sum (map (opt_size f) l).
Proof.
  intros Hg. induction l as [|o l IH]; [reflexivity|].
  unfold opt_nodes in *. simpl. rewrite queue_size_app, IH, (queue_size_opt_node g f o Hg).
  reflexivity.
Qed.

Lemma queue_size_cons (n : node) (l : list node) : queue_size (n :: l) = (node_size n + queue_size l)%nat.
Proof. reflexivity. Qed.

Lemma queue_size_nil : queue_size [] = 0%nat.
Proof. reflexivity. Qed.

Ltac size_of_children :=
  repeat first
    [ rewrite queue_size_app
    | rewrite queue_size_cons
    | rewrite queue_size_nil
    | rewrite (queue_size_map NStmt stmt_size) by reflexivity
    | rewrite (queue_size_map NExpr expr_size) by reflexivity
    | rewrite (queue_size_map NExceptHandler excepthandler_size) by reflexivity
    | rewrite (queue_size_map NArg arg_size) by reflexivity
    | rewrite (queue_size_map NKeyword keyword_size) by reflexivity
    | rewrite (queue_size_map NWithitem withitem_size) by reflexivity
    | rewrite (queue_size_map_leaf NAlias) by reflexivity
    | rewrite (queue_size_map_leaf NCmpop) by reflexivity
    | rewrite (queue_size_opt_node NExpr expr_size) by reflexivity
    | rewrite (queue_size_opt_node NArg arg_size) by reflexivity
    | rewrite (queue_size_opt_nodes NExpr expr_size) by reflexivity ].

(** A node counts for one more than its children. *)
Lemma node_size_children (n : node) :
  node_size n = S (queue_size (iter_child_nodes n)).
Proof.
  destruct n as [[body]|s|e|[ln ty nm body]|[]|[]|[]|a|[]|c|o|o|o|o];
    try destruct s; try destruct e;
    cbn [iter_child_nodes]; size_of_children;
    cbn [node_size stmt_size expr_size excepthandler_size arguments_size
         arg_size keyword_size withitem_size];
    unfold list_size, opt_size; try lia.
Qed.

Lemma node_size_pos (n : node) : (1 <= node_size n)%nat.
Proof. rewrite node_size_children. lia. Qed.

(** With enough fuel the loop visits every queued node and its
    descendants: it stops on the empty queue, not for want of fuel. *)
Lemma walk_todo_length (fuel : nat) : forall todo,
  (queue_size todo <= fuel)%nat -> length (walk_todo fuel todo) = queue_size todo.
Proof.
  induction fuel as [|fuel IH]; intros [|n todo] H; simpl; try reflexivity.
  - rewrite queue_size_cons in H. pose proof (node_size_pos n). lia.
  - rewrite queue_size_cons in *. rewrite IH; rewrite queue_size_app;
      pose proof (node_size_children n); lia.
Qed.

(** Fuel beyond the size of the queue changes nothing. *)
Lemma walk_todo_fuel (f1 : nat) : forall f2 todo,
  (queue_size todo <= f1)%nat -> (queue_size todo <= f2)%nat ->
  walk_todo f1 todo = walk_todo f2 todo.
Proof.
  induction f1 as [|f1 IH]; intros [|f2] [|n todo] H1 H2; simpl; try reflexivity;
    rewrite ?queue_size_cons in *; pose proof (node_size_pos n); try lia.
  f_equal. apply IH; rewrite queue_size_app; pose proof (node_size_children n); lia.
Qed.

Lemma walk_length (n : node) : length (walk n) = node_size n.
Proof.
  unfold walk. rewrite walk_todo_length; rewrite queue_size_cons, queue_size_nil; lia.
Qed.

(** The walk over a node is the node, then the walk over the queue of
    its children. *)
Lemma walk_unfold (n : node) :
  walk n = n :: walk_todo (queue_size (iter_child_nodes n)) (iter_child_nodes n).
Proof.
  unfold walk. rewrite (node_size_children n). reflexivity.
Qed.

(** The walk over a module that holds one statement. *)
Lemma walk_module_one (s : stmt) :
  walk (NMod (Module [s])) = NMod (Module [s]) :: walk (NStmt s).
Proof.
  rewrite walk_unfold. f_equal. unfold walk. cbn [iter_child_nodes map].
  apply walk_todo_fuel; rewrite !queue_size_cons, queue_size_nil; lia.
Qed.

(** Every visited node was in the queue at the start or is a child of a
    visited node. *)
Lemma walk_todo_parent (fuel : nat) : forall (todo : list node) (x : node),
  List.In x (walk_todo fuel todo) ->
  List.In x todo \/ exists y, List.In y (walk_todo fuel todo) /\ List.In x (iter_child_nodes y).
Proof.
  induction fuel as [|fuel IH]; intros [|n todo] x Hx; cbn in Hx; try contradiction.
  destruct Hx as [<-|Hx]; [left; left; reflexivity|].
  destruct (IH _ _ Hx) as [Hq|(y & Hy & Hc)].
  - apply in_app_or in Hq as [Hq|Hq]; [left; right; exact Hq|].
    right. exists n. split; [left; reflexivity|exact Hq].
  - right. exists y. split; [right; exact Hy|exact Hc].
Qed.

(** Only a [try] statement has [except] clauses as children. *)
Lemma handler_parent (h : excepthandler) (y : node) :
  List.In (NExceptHandler h) (iter_child_nodes y) ->
  exists body handlers orelse finalbody, y = NStmt (Try body handlers orelse finalbody).
Proof.
  assert (forall {A} (g : A -> node) (l : list A),
            (forall a, g a <> NExceptHandler h) -> ~ List.In (NExceptHandler h) (map g l)) as Hmap.
  { intros A g l Hg Hin. apply in_map_iff in Hin as (a & Ha & _). exact (Hg a Ha). }
  assert (forall {A} (g : A -> node) (o : option A),
            (forall a, g a <> NExceptHandler h) -> ~ List.In (NExceptHandler h) (opt_node g o)) as Hopt.
  { intros A g [a|] Hg Hin; cbn in Hin; [destruct Hin as [Ha|[]]; exact (Hg a Ha)|exact Hin]. }
  assert (forall {A} (g : A -> node) (l : list (option A)),
            (forall a, g a <> NExceptHandler h) -> ~ List.In (NExceptHandler h) (opt_nodes g l)) as Hopts.
  { intros A g l Hg Hin. unfold opt_nodes in Hin. apply in_flat_map in Hin as (o & _ & Ho).
    exact (Hopt _ g o Hg Ho). }
  intros Hin.
  destruct y as [[body]|s|e|[ln ty nm body]|[]|[]|[]|a|[]|c|o|o|o|o];
    try destruct s; try destruct e; cbn [iter_child_nodes] in Hin;
    try (eexists _, _, _, _; reflexivity);
    exfalso;
    repeat match goal with
      | H : List.In _ (_ ++ _) |- _ => apply in_app_or in H as [H|H]
      | H : List.In _ (_ :: _) |- _ => destruct H as [H|H]; [discriminate H|]
      | H : List.In _ [] |- _ => exact H
      | H : List.In _ (map _ _) |- _ => apply Hmap in H; [exact H|intros ?; discriminate]
      | H : List.In _ (opt_node _ _) |- _ => apply Hopt in H; [exact H|intros ?; discriminate]
      | H : List.In _ (opt_nodes _ _) |- _ => apply Hopts in H; [exact H|intros ?; discriminate]
      end.
Qed.

End WalkFacts.

(* ===================================================================== *)
(** * Reading files *)
(* ===================================================================== *)

Section ReadFile.

Variable fs : filesystem.

Lemma read_file_cached (p text : string) (a : Base.analyzer) :
  Base._file_cache a !! p = Some text ->
  Base.read_file fs p a = (inr (Some text), a).
Proof. intros H. unfold Base.read_file. rewrite H. reflexivity. Qed.

(** The outcome of [read_file] on a path that is not cached. *)
Lemma read_file_uncached (p : string) (a : Base.analyzer) :
  Base._file_cache a !! p = None ->
  Base.read_file fs p a =
    match fs !! p with
    | None => (inr None, a)
    | Some f =>
        if max_file_size (Base.options a) <? st_size f then
          (inl (Py.ValueError
                  ("File " ++ p ++ " exceeds maximum size ("
                   ++ Py.str_int (max_file_size (Base.options a)) ++ " bytes)")), a)
        else
          match read_text f with
          | inr text => (inr (Some text), Base.set_file_cache p text a)
          | inl e => (inl (Py.ValueError ("Failed to read " ++ p ++ ": " ++ e)), a)
          end
    end.
Proof. intros H. unfold Base.read_file. rewrite H. reflexivity. Qed.

(** A text that [read_file] returns from a coherent cache is the text on
    disk. *)
Lemma read_file_text (p text : string) (a a' : Base.analyzer) :
  Props.cache_coherent fs a ->
  Base.read_file fs p a = (inr (Some text), a') ->
  exists f, fs !! p = Some f /\ read_text f = inr text.
Proof.
  intros Hc H. destruct (Base._file_cache a !! p) as [cached|] eqn:Hp.
  - rewrite (read_file_cached _ _ _ Hp) in H. inversion H; subst. eauto.
  - rewrite (read_file_uncached _ _ Hp) in H.
    destruct (fs !! p) as [f|]; [|discriminate].
    destruct (max_file_size (Base.options a) <? st_size f); [discriminate|].
    destruct (read_text f) as [e|t] eqn:Ht; [discriminate|].
    inversion H; subst. eauto.
Qed.

(** [read_file] keeps the cache coherent. *)
Lemma read_file_coherent (p : string) (a a' : Base.analyzer) (r : Py.exn + option string) :
  Props.cache_coherent fs a ->
  Base.read_file fs p a = (r, a') ->
  Props.cache_coherent fs a'.
Proof.
  intros Hc H. destruct (Base._file_cache a !! p) as [cached|] eqn:Hp.
  - rewrite (read_file_cached _ _ _ Hp) in H. inversion H; subst. exact Hc.
  - rewrite (read_file_uncached _ _ Hp) in H.
    destruct (fs !! p) as [f|] eqn:Hf; [|inversion H; subst; exact Hc].
    destruct (max_file_size (Base.options a) <? st_size f);
      [inversion H; subst; exact Hc|].
    destruct (read_text f) as [e|t] eqn:Ht; inversion H; subst; [exact Hc|].
    intros q text. cbn [Base.set_file_cache Base._file_cache].
    destruct (decide (p = q)) as [->|Hne].
    + rewrite lookup_insert_eq. intros [= <-]. eauto.
    + rewrite lookup_insert_ne by exact Hne. apply Hc.
Qed.

Lemma init_coherent : Props.cache_coherent fs Base.init.
Proof. intros p text H. cbn in H. rewrite lookup_empty in H. discriminate. Qed.

(** Reading a zero-byte file under the size limit gives the empty string. *)
Lemma read_file_zero_byte (p : string) (a : Base.analyzer) (f : file) :
  fs !! p = Some f -> st_size f = 0 -> read_text f = inr "" ->
  0 <= max_file_size (Base.options a) ->
  Props.cache_coherent fs a ->
  exists a', Base.read_file fs p a = (inr (Some ""), a').
Proof.
  intros Hf Hsize Htext Hmax Hc.
  destruct (Base._file_cache a !! p) as [cached|] eqn:Hp.
  - destruct (Hc _ _ Hp) as (f' & Hf' & Ht'). rewrite Hf in Hf'. inversion Hf'; subst f'.
    rewrite Htext in Ht'. inversion Ht'; subst cached.
    exists a. apply read_file_cached, Hp.
  - rewrite (read_file_uncached _ _ Hp), Hf, Hsize, Htext.
    destruct (max_file_size (Base.options a) <? 0) eqn:Hlt; [lia|]. eauto.
Qed.

End ReadFile.

(* ===================================================================== *)
(** * Properties of [analyze_file] *)
(* ===================================================================== *)

Section AnalyzeFile.

Variable fs : filesystem.
Variable ast_parse : string -> Py.exn + Ast.mod_.
Variable cleandoc : string -> string.
Variable max_str_digits : Z.
Variable _analyze_imports : string -> list React.JSImport.
Variable _analyze_components : string -> Py.exn + list Web.ReactComponent.
Variable _analyze_hooks : string -> Py.exn + list Web.ReactHook.
Variable _analyze_types : string -> Py.exn + list Web.TypeScriptType.
Variable _analyze_styles : string -> gmap string string.

#[local] Abbreviation python_analyze_file := (Python.analyze_file fs ast_parse cleandoc max_str_digits).
#[local] Abbreviation react_analyze_file :=
  (React.analyze_file fs _analyze_imports _analyze_components _analyze_hooks
     _analyze_types _analyze_styles).

(** The shape of a result of the Python analyzer: the diagnostic of a
    syntax error with nothing else, or a result without errors. *)
Lemma python_result_shape (p : string) (a a' : Base.analyzer) (r : AnalysisResult) :
  python_analyze_file p a = (inr r, a') ->
  (exists msg, r = mkAnalysisResult p PYTHON [] [] ["Syntax error: " ++ msg] [] ∅)
  \/ errors r = [].
Proof.
  unfold Python.analyze_file, Py.bind.
  destruct (Base.read_file fs p a) as [[e|text] a1]; [discriminate|].
  destruct (negb (Py.truthy_opt text)); [discriminate|].
  destruct (ast_parse (default "" text)) as [[]|tree]; try discriminate.
  - intros [= <- <-]. left. eauto.
  - unfold Python.analyze_tree.
    destruct (Python._analyze_functions cleandoc max_str_digits (Ast.NMod tree)); [discriminate|].
    destruct (Python._analyze_classes cleandoc max_str_digits (Ast.NMod tree)); [discriminate|].
    intros [= <- <-]. right. reflexivity.
Qed.

(** The keywords [analyze_file] passes to [WebAnalysisResult] leave the
    attributes of the base class as [__init__] set them. *)
Lemma react_result_base (p : string) (a a' : Base.analyzer) (r : Web.WebAnalysisResult) :
  react_analyze_file p a = (inr r, a') ->
  Web.base r = mkAnalysisResult p REACT [] [] [] [] ∅.
Proof.
  unfold React.analyze_file, Py.bind.
  destruct (Base.read_file fs p a) as [[e|text] a1]; [discriminate|].
  destruct (negb (Py.truthy_opt text)); [discriminate|].
  unfold React.analyze_content.
  destruct (_analyze_components (default "" text)); [discriminate|].
  destruct (_analyze_hooks (default "" text)); [discriminate|].
  destruct (if bool_decide (React.path_suffix p ∈ [".tsx"; ".ts"])
            then _analyze_types (default "" text) else inr []); [discriminate|].
  intros [= <- <-]. reflexivity.
Qed.

(** C1. A result returned by [analyze_file], of the Python analyzer or of
    the React analyzer, whose [errors] list is not empty has an empty
    [blocks] list and an empty [dependencies] list. *)
Theorem C1_errors_exclude_structure (p : string) (a a' : Base.analyzer) (r : AnalysisResult) :
  python_analyze_file p a = (inr r, a')
  \/ React.analyze_file_base fs _analyze_imports _analyze_components _analyze_hooks
       _analyze_types _analyze_styles p a = (inr r, a') ->
  errors r <> [] ->
  blocks r = [] /\ dependencies r = [].
Proof.
  intros [H|H] Herr.
  - destruct (python_result_shape _ _ _ _ H) as [[msg ->]|He]; [split; reflexivity|].
    contradiction.
  - unfold React.analyze_file_base, Py.bind in H.
    destruct (React.analyze_file _ _ _ _ _ _ p a) as [[e|w] a1] eqn:Hw; [discriminate|].
    injection H as <- <-. apply react_result_base in Hw. rewrite Hw. split; reflexivity.
Qed.

(** C2. When the text read from a file has a syntax error, [analyze_file]
    of the Python analyzer raises nothing: it returns a result whose
    [errors] list holds the diagnostic and whose other lists are empty.
    ([ast.parse] accepts the empty text, so such a text is not empty.) *)
Theorem C2_syntax_error_is_data (p text msg : string) (a a' : Base.analyzer) :
  ast_parse "" = inr (Ast.Module []) ->
  Base.read_file fs p a = (inr (Some text), a') ->
  ast_parse text = inl (Py.SyntaxError msg) ->
  python_analyze_file p a
  = (inr (mkAnalysisResult p PYTHON [] [] ["Syntax error: " ++ msg] [] ∅), a').
Proof.
  intros Hempty Hread Hparse.
  unfold Python.analyze_file, Py.bind. rewrite Hread.
  destruct text as [|c text]; [rewrite Hempty in Hparse; discriminate|].
  cbn. rewrite Hparse. reflexivity.
Qed.

(** C10. For a zero-byte file that exists, is readable and is under the
    size limit, [analyze_file] of either analyzer raises
    [ValueError("Could not read file: ...")]: the empty text that
    [read_file] returns fails the test [if not content]. *)
Theorem C10_zero_byte_file_is_rejected (p : string) (a : Base.analyzer) (f : file) :
  fs !! p = Some f -> st_size f = 0 -> read_text f = inr "" ->
  0 <= max_file_size (Base.options a) ->
  Props.cache_coherent fs a ->
  (exists a', python_analyze_file p a
              = (inl (Py.ValueError ("Could not read file: " ++ p)), a'))
  /\ (exists a', react_analyze_file p a
                 = (inl (Py.ValueError ("Could not read file: " ++ p)), a')).
Proof.
  intros Hf Hsize Htext Hmax Hc.
  destruct (read_file_zero_byte fs p a f Hf Hsize Htext Hmax Hc) as [a' Hread].
  split; exists a';
    unfold Python.analyze_file, React.analyze_file, Py.bind;
    rewrite Hread; reflexivity.
Qed.

End AnalyzeFile.

(* ===================================================================== *)
(** * The dependency resolver *)
(* ===================================================================== *)

Section Loop.

Variable fs : filesystem.
Variable resolve : string -> string.

#[local] Abbreviation target := (Props.dependency_target fs resolve).
#[local] Abbreviation loop := (Base.dependencies_loop fs resolve).

(** One iteration of the loop on a dependency that is not followed. *)
Lemma loop_skip nested dep rest acc a :
  target dep = None -> loop nested (dep :: rest) acc a = loop nested rest acc a.
Proof.
  unfold Props.dependency_target. cbn [Base.dependencies_loop].
  destruct (is_local dep && Py.truthy_opt (import_path dep)); [|reflexivity].
  cbv zeta. destruct (bool_decide _); [discriminate|reflexivity].
Qed.

(** One iteration of the loop on a dependency that is followed. *)
Lemma loop_follow nested dep rest acc a q :
  target dep = Some q ->
  loop nested (dep :: rest) acc a =
    match nested with
    | Some rec =>
        (do nested_deps <- rec q ;; loop nested rest (acc ∪ {[ q ]} ∪ nested_deps)) a
    | None => loop nested rest (acc ∪ {[ q ]}) a
    end.
Proof.
  unfold Props.dependency_target. cbn [Base.dependencies_loop].
  destruct (is_local dep && Py.truthy_opt (import_path dep)); [|discriminate].
  cbv zeta. destruct (bool_decide _); [|discriminate].
  intros [= <-]. destruct nested; reflexivity.
Qed.

(** Without recursion the loop adds the direct dependencies and leaves the
    analyzer as it is. *)
Lemma loop_direct deps : forall acc a,
  loop None deps acc a = (inr (acc ∪ list_to_set (omap target deps)), a).
Proof.
  induction deps as [|dep rest IH]; intros acc a.
  - cbn [Base.dependencies_loop omap list_omap list_to_set]. unfold Py.ret.
    f_equal. f_equal. set_solver.
  - cbn [omap list_omap]. destruct (target dep) as [q|] eqn:Hq.
    + rewrite (loop_follow _ _ _ _ _ _ Hq), IH. f_equal. f_equal.
      cbn [list_to_set]. set_solver.
    + rewrite (loop_skip _ _ _ _ _ Hq), IH. reflexivity.
Qed.

(** With a single dependency to follow, the loop makes one recursive
    call. *)
Lemma loop_single rec deps q : forall acc a,
  omap target deps = [q] ->
  loop (Some rec) deps acc a
  = (do nested_deps <- rec q ;; Py.ret (acc ∪ {[ q ]} ∪ nested_deps)) a.
Proof.
  induction deps as [|dep rest IH]; intros acc a H; [discriminate|].
  cbn [omap list_omap] in H. destruct (target dep) as [q'|] eqn:Hq.
  - injection H as -> Hrest. rewrite (loop_follow _ _ _ _ _ _ Hq).
    unfold Py.bind. destruct (rec q a) as [[e|nested] a1]; [reflexivity|].
    clear IH. revert Hrest. generalize (acc ∪ {[q]} ∪ nested). clear.
    induction rest as [|dep rest IH]; intros acc Hrest; [reflexivity|].
    cbn [omap list_omap] in Hrest. destruct (target dep) eqn:Hq; [discriminate|].
    rewrite (loop_skip _ _ _ _ _ Hq). apply IH, Hrest.
  - rewrite (loop_skip _ _ _ _ _ Hq). apply IH, H.
Qed.

End Loop.

Section Resolver.

Variable fs : filesystem.
Variable resolve : string -> string.
Variable analyze_file : string -> Py.M Base.analyzer AnalysisResult.

(** [depth < 1]: the empty set, whatever the analyzer holds. *)
Lemma resolve_depth_below_one (p : string) (depth : Z) (a : Base.analyzer) :
  depth < 1 ->
  Base.analyze_dependencies fs resolve analyze_file p depth a = (inr ∅, a).
Proof.
  intros H. unfold Base.analyze_dependencies.
  replace (Z.to_nat depth) with O by lia. reflexivity.
Qed.

(** A memoized path: the memoized set, whatever [depth >= 1] is. *)
Lemma resolve_memoized (p : string) (depth : Z) (a : Base.analyzer) (s : gset string) :
  1 <= depth -> Base._dependency_cache a !! p = Some s ->
  Base.analyze_dependencies fs resolve analyze_file p depth a = (inr s, a).
Proof.
  intros H Hs. unfold Base.analyze_dependencies.
  destruct (Z.to_nat depth) as [|n] eqn:Hn; [lia|].
  cbn [Base.analyze_dependencies_nat]. rewrite Hs. reflexivity.
Qed.

(** [depth = 1] on a path that is not memoized: exactly the direct
    dependencies of the analysis, which are then memoized. *)
Lemma resolve_depth_one (p : string) (a a1 : Base.analyzer) (r : AnalysisResult) :
  Base._dependency_cache a !! p = None ->
  analyze_file p a = (inr r, a1) ->
  Base.analyze_dependencies fs resolve analyze_file p 1 a
  = (inr (list_to_set (Props.direct_dependencies fs resolve r)),
     Base.set_dependency_cache p
       (list_to_set (Props.direct_dependencies fs resolve r)) a1).
Proof.
  intros Hmemo Hr. unfold Base.analyze_dependencies. change (Z.to_nat 1) with 1%nat.
  cbn [Base.analyze_dependencies_nat]. rewrite Hmemo. unfold Py.bind at 1. rewrite Hr.
  unfold Py.bind at 1. rewrite loop_direct. unfold Props.direct_dependencies.
  cbn. rewrite (left_id_L ∅ (∪)). reflexivity.
Qed.

(** An exception of [analyze_file] goes through [analyze_dependencies]. *)
Lemma resolve_raises (p : string) (depth : Z) (a a1 : Base.analyzer) (e : Py.exn) :
  1 <= depth -> Base._dependency_cache a !! p = None ->
  analyze_file p a = (inl e, a1) ->
  Base.analyze_dependencies fs resolve analyze_file p depth a = (inl e, a1).
Proof.
  intros H Hmemo He. unfold Base.analyze_dependencies.
  destruct (Z.to_nat depth) as [|n] eqn:Hn; [lia|].
  cbn [Base.analyze_dependencies_nat]. rewrite Hmemo. unfold Py.bind at 1.
  rewrite He. reflexivity.
Qed.

(** A result without dependencies resolves to the empty set. *)
Lemma resolve_no_dependencies (p : string) (depth : Z) (a a1 : Base.analyzer)
    (r : AnalysisResult) :
  1 <= depth -> Base._dependency_cache a !! p = None ->
  analyze_file p a = (inr r, a1) -> dependencies r = [] ->
  Base.analyze_dependencies fs resolve analyze_file p depth a
  = (inr ∅, Base.set_dependency_cache p ∅ a1).
Proof.
  intros H Hmemo Hr Hd. unfold Base.analyze_dependencies.
  destruct (Z.to_nat depth) as [|n] eqn:Hn; [lia|].
  cbn [Base.analyze_dependencies_nat]. rewrite Hmemo. unfold Py.bind at 1.
  rewrite Hr, Hd. reflexivity.
Qed.

End Resolver.

(** ** Two files that import each other *)

Section Cycle.

Variable fs : filesystem.
Variable resolve : string -> string.
Variable analyze_file : string -> Py.M Base.analyzer AnalysisResult.

(** An invariant of the analyzer that [analyze_file] keeps and that does
    not depend on the memoized dependency sets. *)
Variable Inv : Base.analyzer -> Prop.

Hypothesis Inv_memo :
  forall a k v, Inv a -> Inv (Base.set_dependency_cache k v a).

#[local] Abbreviation imports_only := (Props.imports_only fs resolve analyze_file Inv).
#[local] Abbreviation resolves := (Props.resolves fs resolve analyze_file Inv).
#[local] Abbreviation cycle_result := Props.cycle_result.

Lemma resolves_step (x y : string) (n : nat) :
  imports_only x y -> resolves y x n -> resolves x y (S n).
Proof.
  intros Hx IH a Ha Hmx Hmy.
  destruct (Hx a Ha) as (a1 & r & Hr & Ha1 & Hmemo & Hd).
  cbn [Base.analyze_dependencies_nat]. rewrite Hmx. unfold Py.bind at 1. rewrite Hr.
  destruct n as [|n].
  - unfold Py.bind at 1. rewrite loop_direct.
    fold (Props.direct_dependencies fs resolve r). rewrite Hd.
    exists (Base.set_dependency_cache x (cycle_result y x 1) a1).
    split; [|apply Inv_memo, Ha1].
    cbn [Py.bind Py.modify Py.ret Props.cycle_result list_to_set].
    assert (∅ ∪ ({[ y ]} ∪ ∅) = ({[ y ]} : gset string)) as -> by set_solver.
    reflexivity.
  - unfold Py.bind at 1. rewrite (loop_single _ _ _ _ y) by exact Hd.
    destruct (IH a1 Ha1) as (a2 & Hrec & Ha2); [congruence..|].
    unfold Py.bind at 1. rewrite Hrec.
    exists (Base.set_dependency_cache x (cycle_result y x (S (S n))) a2).
    split; [|apply Inv_memo, Ha2].
    cbn [Py.bind Py.modify Py.ret].
    assert (∅ ∪ {[ y ]} ∪ cycle_result x y (S n) = cycle_result y x (S (S n))) as ->
      by (destruct n; cbn [Props.cycle_result]; set_solver).
    reflexivity.
Qed.

Lemma resolves_both (A B : string) (n : nat) :
  imports_only A B -> imports_only B A -> resolves A B n /\ resolves B A n.
Proof.
  intros HA HB. induction n as [|n [IHA IHB]].
  - split; intros a Ha _ _; exists a; split; [reflexivity|exact Ha|reflexivity|exact Ha].
  - split; apply resolves_step; assumption.
Qed.

(** Two files whose only followed import is the other: resolving [A]
    returns the empty set below depth 1, [{B}] at depth 1 and [{A, B}] at
    every greater depth. *)
Lemma cycle_of_two_files (A B : string) (depth : Z) (a : Base.analyzer) :
  imports_only A B -> imports_only B A -> A <> B ->
  Inv a ->
  Base._dependency_cache a !! A = None ->
  Base._dependency_cache a !! B = None ->
  exists (s : gset string) (a' : Base.analyzer),
    Base.analyze_dependencies fs resolve analyze_file A depth a = (inr s, a')
    /\ s = (if depth <? 1 then ∅ else if depth =? 1 then {[ B ]} else {[ A; B ]})
    /\ (size s <= 2)%nat.
Proof.
  intros HA HB Hne Ha HmA HmB.
  destruct (resolves_both A B (Z.to_nat depth) HA HB) as [Hres _].
  destruct (Hres a Ha HmA HmB) as (a' & Hrun & _).
  exists (cycle_result B A (Z.to_nat depth)), a'. split; [exact Hrun|].
  assert (cycle_result B A (Z.to_nat depth)
          = (if depth <? 1 then ∅ else if depth =? 1 then {[ B ]} else {[ A; B ]})) as ->.
  { destruct (depth <? 1) eqn:H1; [replace (Z.to_nat depth) with O by lia; reflexivity|].
    destruct (depth =? 1) eqn:H2.
    - replace depth with 1 by lia. reflexivity.
    - destruct (Z.to_nat depth) as [|[|n]] eqn:Hn; [lia|lia|reflexivity]. }
  split; [reflexivity|].
  destruct (depth <? 1); [rewrite size_empty; lia|].
  destruct (depth =? 1); [rewrite size_singleton; lia|].
  rewrite size_union by set_solver. rewrite !size_singleton. lia.
Qed.

End Cycle.

(** ** Resolution over the results of the React analyzer *)

Section ReactResolver.

Variable fs : filesystem.
Variable resolve : string -> string.
Variable _analyze_imports : string -> list React.JSImport.
Variable _analyze_components : string -> Py.exn + list Web.ReactComponent.
Variable _analyze_hooks : string -> Py.exn + list Web.ReactHook.
Variable _analyze_types : string -> Py.exn + list Web.TypeScriptType.
Variable _analyze_styles : string -> gmap string string.

#[local] Abbreviation react_analyze_file :=
  (React.analyze_file fs _analyze_imports _analyze_components _analyze_hooks
     _analyze_types _analyze_styles).
#[local] Abbreviation react_analyze_file_base :=
  (React.analyze_file_base fs _analyze_imports _analyze_components _analyze_hooks
     _analyze_types _analyze_styles).

(** [analyze_file] never touches the memoized dependency sets. *)
Lemma react_analyze_file_memo (p : string) (a a' : Base.analyzer)
    (r : Py.exn + Web.WebAnalysisResult) :
  react_analyze_file p a = (r, a') ->
  Base._dependency_cache a' = Base._dependency_cache a.
Proof.
  unfold React.analyze_file, Py.bind, Base.read_file.
  destruct (Base._file_cache a !! p).
  - cbn. destruct (React.analyze_content _ _ _ _ _ _ _);
      destruct (negb (Py.truthy s)); intros [= <- <-]; reflexivity.
  - destruct (fs !! p) as [f|].
    + destruct (max_file_size (Base.options a) <? st_size f); [intros [= <- <-]; reflexivity|].
      destruct (read_text f) as [e|text]; [intros [= <- <-]; reflexivity|].
      cbn. destruct (React.analyze_content _ _ _ _ _ _ _);
        destruct (negb (Py.truthy text)); intros [= <- <-]; reflexivity.
    + cbn. intros [= <- <-]. reflexivity.
Qed.

Lemma memo_all_empty_insert (p : string) (a : Base.analyzer) :
  Props.memo_all_empty a -> Props.memo_all_empty (Base.set_dependency_cache p ∅ a).
Proof.
  intros H q s. cbn. destruct (decide (p = q)) as [->|Hne].
  - rewrite lookup_insert_eq. congruence.
  - rewrite lookup_insert_ne by exact Hne. apply H.
Qed.

(** C9. Whenever [analyze_file] of the React analyzer returns a result,
    its [blocks] and [dependencies] lists are empty, so are the
    dependencies extracted from it, and resolving the file at any depth
    returns the empty set; when [analyze_file] raises, resolving returns the
    empty set (below depth 1 or from the memo) or raises the same
    exception.  The memo holds empty sets only, as it does in a new
    analyzer and after every resolution. *)
Theorem C9_react_results_have_no_structure (p : string) (depth : Z) (a : Base.analyzer) :
  Props.memo_all_empty a ->
  match react_analyze_file p a with
  | (inr r, _) =>
      blocks (Web.base r) = [] /\ dependencies (Web.base r) = []
      /\ Base.get_dependencies (Web.base r) = []
      /\ exists a', Base.analyze_dependencies fs resolve react_analyze_file_base p depth a
                    = (inr ∅, a')
                    /\ Props.memo_all_empty a'
  | (inl e, a1) =>
      Base.analyze_dependencies fs resolve react_analyze_file_base p depth a = (inr ∅, a)
      \/ Base.analyze_dependencies fs resolve react_analyze_file_base p depth a = (inl e, a1)
  end.
Proof.
  intros Hmemo.
  destruct (react_analyze_file p a) as [[e|r] a1] eqn:Hr.
  - destruct (Z.lt_ge_cases depth 1) as [Hd|Hd];
      [left; apply resolve_depth_below_one, Hd|].
    destruct (Base._dependency_cache a !! p) as [s|] eqn:Hp.
    + left. rewrite (Hmemo _ _ Hp) in Hp. apply resolve_memoized; assumption.
    + right. apply resolve_raises; [exact Hd|exact Hp|].
      unfold React.analyze_file_base, Py.bind. rewrite Hr. reflexivity.
  - pose proof (react_result_base _ _ _ _ _ _ _ _ _ _ Hr) as Hbase.
    rewrite Hbase. cbn [blocks dependencies Base.get_dependencies].
    repeat split.
    destruct (Z.lt_ge_cases depth 1) as [Hd|Hd];
      [exists a; split; [apply resolve_depth_below_one, Hd|exact Hmemo]|].
    destruct (Base._dependency_cache a !! p) as [s|] eqn:Hp.
    + exists a. rewrite (Hmemo _ _ Hp) in Hp.
      split; [apply resolve_memoized; assumption|exact Hmemo].
    + exists (Base.set_dependency_cache p ∅ a1). split.
      * apply resolve_no_dependencies with (r := Web.base r); try assumption.
        -- unfold React.analyze_file_base, Py.bind. rewrite Hr. reflexivity.
        -- rewrite Hbase. reflexivity.
      * apply memo_all_empty_insert. intros q s.
        rewrite (react_analyze_file_memo _ _ _ _ Hr). apply Hmemo.
Qed.

End ReactResolver.

(** ** The memo of the resolver ignores the depth *)

(** C5. In the workspace where [a.py] imports [pkg.b] and [pkg/b.py]
    imports [pkg.c]: a new Python analyzer resolves [a.py] to the empty set
    at depths 0 and -1 and to its one direct dependency at depth 1; once
    the same analyzer has resolved [a.py] at depth 2, resolving it at depth
    1 returns the memoized set, with the transitive dependency
    [pkg/c.py]. *)
Theorem C5_memo_ignores_depth :
  let resolve_a depth :=
    Base.analyze_dependencies Examples.workspace Examples.resolve
      Examples.python_analyze_file "/ws/a.py" depth in
  fst (resolve_a 0 Base.init) = inr ∅
  /\ fst (resolve_a (-1) Base.init) = inr ∅
  /\ fst (resolve_a 1 Base.init) = inr {[ "/ws/pkg/b.py" ]}
  /\ fst (resolve_a 1 (snd (resolve_a 2 Base.init)))
     = inr {[ "/ws/pkg/b.py"; "/ws/pkg/c.py" ]}.
Proof. cbv zeta. repeat apply conj; vm_compute; reflexivity. Qed.

(* ===================================================================== *)
(** * Complexity scores and warnings of the Python analyzer *)
(* ===================================================================== *)

Section Complexity.

#[local] Abbreviation tally P l := (length (List.filter P l)).

(** The score of a tree without loops, [with], [assert], [raise] and
    boolean operators: one, plus one for each [if], each [try] and each
    [except] clause. *)
Lemma complexity_fold (l : list Ast.node) : forall c : Z,
  tally Props.is_other_counted l = O ->
  fold_left Python.complexity_step l c
  = c + Z.of_nat (tally Props.is_If l + tally Props.is_Try l
                  + tally Props.is_ExceptHandler l).
Proof.
  induction l as [|n l IH]; intros c H; [cbn; lia|].
  cbn [fold_left]. cbn [List.filter] in *.
  destruct n as [m|s|e|h| | | | | | | | | | ]; try destruct s; try destruct e;
    cbn in H; try discriminate; rewrite (IH _ H);
    cbn [Props.is_If Props.is_Try Props.is_ExceptHandler Python.complexity_step
         Python.is_branching length]; lia.
Qed.

Lemma complexity_by_census (tree : Ast.node) :
  Props.count Props.is_other_counted tree = O ->
  Python._calculate_complexity tree
  = 1 + Z.of_nat (Props.count Props.is_If tree + Props.count Props.is_Try tree
                  + Props.count Props.is_ExceptHandler tree).
Proof. intros H. apply complexity_fold, H. Qed.

(** A tree rooted at a statement that holds an [except] clause holds the
    [try] statement of the clause. *)
Lemma except_clause_has_try (s : Ast.stmt) :
  (1 <= Props.count Props.is_ExceptHandler (Ast.NStmt s))%nat ->
  (1 <= Props.count Props.is_Try (Ast.NStmt s))%nat.
Proof.
  unfold Props.count. intros H.
  destruct (List.filter Props.is_ExceptHandler (Ast.walk (Ast.NStmt s))) as [|x l] eqn:Hf;
    [cbn in H; lia|].
  assert (In x (List.filter Props.is_ExceptHandler (Ast.walk (Ast.NStmt s)))) as Hx
    by (rewrite Hf; left; reflexivity).
  apply filter_In in Hx as [Hx Hh]. destruct x; try discriminate.
  apply walk_todo_parent in Hx as [[Hx|[]]|(y & Hy & Hc)]; [discriminate|].
  apply handler_parent in Hc as (b & hs & o & f & ->).
  assert (In (Ast.NStmt (Ast.Try b hs o f))
            (List.filter Props.is_Try (Ast.walk (Ast.NStmt s)))) as Hin
    by (apply filter_In; split; [exact Hy|reflexivity]).
  destruct (List.filter Props.is_Try (Ast.walk (Ast.NStmt s))); [contradiction|cbn; lia].
Qed.

(** So a declaration with an [if] and an [except] clause, and no loop,
    [with], [assert], [raise] or boolean operator, never scores below 4. *)
Lemma if_and_except_score_at_least_four (s : Ast.stmt) :
  (1 <= Props.count Props.is_If (Ast.NStmt s))%nat ->
  (1 <= Props.count Props.is_ExceptHandler (Ast.NStmt s))%nat ->
  Props.count Props.is_other_counted (Ast.NStmt s) = O ->
  4 <= Python._calculate_complexity (Ast.NStmt s).
Proof.
  intros Hif Hh Hother. pose proof (except_clause_has_try s Hh).
  rewrite complexity_by_census by exact Hother. lia.
Qed.

(** Without mutable defaults, the warnings are those of the [except]
    clauses. *)
Lemma warnings_of_handlers (l : list Ast.node) :
  forallb Props.no_mutable_default l = true ->
  flat_map Python.warnings_of l
  = flat_map Python.warnings_of (List.filter Props.is_ExceptHandler l).
Proof.
  induction l as [|n l IH]; [reflexivity|].
  cbn [forallb]. intros [Hn Hl]%andb_prop. cbn [flat_map List.filter].
  rewrite (IH Hl).
  destruct n as [m|s|e|h| | | | | | | | | | ]; try reflexivity.
  destruct s as [ln nm [po ar va ko kd kw defaults] bd dl rt| | | | | | | | | | | | | | | | | ];
    try reflexivity.
  cbn [Props.is_ExceptHandler Python.warnings_of]. cbn in Hn.
  replace (flat_map _ defaults) with (@nil string); [reflexivity|].
  clear -Hn. induction defaults as [|d ds IHd]; [reflexivity|].
  cbn in Hn. apply andb_prop in Hn as [Hd Hds]. cbn [flat_map].
  destruct (Python.is_mutable_literal d); [discriminate|]. apply IHd, Hds.
Qed.

(** C3, as the code has it.  A function definition with exactly one
    [if], exactly one [try] whose only handler is [except Exception:], and
    no loop, [with], [assert], [raise] or boolean operator gets the score
    4: one, plus one for the [if], one for the [try] and one for the
    [except].  When no function of it has a mutable default, the file
    that holds this definition alone gets exactly one warning, for the
    broad handler at its line. *)
Theorem C3_if_try_except_scores_four (fd : Ast.stmt) (lineno : Z)
    (ctx : Ast.expr_context) (name : option string) (body : list Ast.stmt) :
  Props.count Props.is_If (Ast.NStmt fd) = 1%nat ->
  Props.count Props.is_Try (Ast.NStmt fd) = 1%nat ->
  List.filter Props.is_ExceptHandler (Ast.walk (Ast.NStmt fd))
  = [Ast.NExceptHandler
       (Ast.ExceptHandler lineno (Some (Ast.Name "Exception" ctx)) name body)] ->
  Props.count Props.is_other_counted (Ast.NStmt fd) = O ->
  forallb Props.no_mutable_default (Ast.walk (Ast.NStmt fd)) = true ->
  Python._calculate_complexity (Ast.NStmt fd) = 4
  /\ (forall cleandoc max_str_digits f,
        Python.function_details cleandoc max_str_digits fd = Some (inr f) ->
        Python.fn_complexity f = 4)
  /\ Python._collect_warnings (Ast.NMod (Ast.Module [fd]))
     = ["Broad exception handler at line " ++ Py.str_int lineno]
  /\ (forall cleandoc max_str_digits p text r,
        Python.analyze_tree cleandoc max_str_digits p text (Ast.NMod (Ast.Module [fd])) = inr r ->
        warnings r = ["Broad exception handler at line " ++ Py.str_int lineno]).
Proof.
  intros Hif Htry Hh Hother Hdefaults.
  assert (Python._calculate_complexity (Ast.NStmt fd) = 4) as Hscore.
  { rewrite complexity_by_census by exact Hother.
    unfold Props.count in *. rewrite Hif, Htry, Hh. reflexivity. }
  assert (Python._collect_warnings (Ast.NMod (Ast.Module [fd]))
          = ["Broad exception handler at line " ++ Py.str_int lineno]) as Hwarn.
  { unfold Python._collect_warnings. rewrite walk_module_one.
    cbn [flat_map Python.warnings_of app].
    rewrite (warnings_of_handlers _ Hdefaults), Hh. reflexivity. }
  split; [exact Hscore|]. split; [|split; [exact Hwarn|]].
  - intros cleandoc max_str_digits f Hf.
    destruct fd; try discriminate; cbn [Python.function_details] in Hf;
      destruct (Python._get_return_annotation _ _); try discriminate;
      destruct (Python.comprehension _ _); inversion Hf; subst; exact Hscore.
  - intros cleandoc max_str_digits p text r Hr. unfold Python.analyze_tree in Hr.
    destruct (Python._analyze_functions _ _); [discriminate|].
    destruct (Python._analyze_classes _ _); [discriminate|].
    inversion Hr; subst. exact Hwarn.
Qed.

End Complexity.

(* ===================================================================== *)
(** * Metrics of the Python analyzer *)
(* ===================================================================== *)

Section Metrics.

(** [collect_metrics("", [])]: every count is zero. *)
Lemma collect_metrics_of_nothing :
  Base.collect_metrics "" []
  = <[ "total_lines" := MInt 0 ]>
    (<[ "code_lines" := MInt 0 ]>
    (<[ "comment_lines" := MInt 0 ]>
    (<[ "empty_lines" := MInt 0 ]>
    (<[ "blocks" := MInt 0 ]>
    (<[ "avg_block_size" := MInt 0 ]> ∅))))).
Proof. reflexivity. Qed.

(** The line counts that [_collect_python_metrics] reports are those of the
    empty text: the Python-specific entries have other keys. *)
Lemma python_line_counts (tree : Ast.node) (functions : list Python.PythonFunction)
    (classes : list Python.PythonClass) (key : string) :
  key ∈ ["total_lines"; "code_lines"; "comment_lines"; "empty_lines"] ->
  Python._collect_python_metrics tree functions classes !! key = Some (MInt 0).
Proof.
  intros Hkey. unfold Python._collect_python_metrics, dict_update.
  rewrite collect_metrics_of_nothing.
  rewrite !elem_of_cons, elem_of_nil in Hkey.
  destruct Hkey as [->|[->|[->|[->|[]]]]];
    rewrite lookup_union_r by (rewrite !lookup_insert_ne by discriminate; apply lookup_empty);
    rewrite ?lookup_insert_ne by discriminate; apply lookup_insert_eq.
Qed.

(** Every result of a file that parses reports zero for the four line
    counts. *)
Lemma python_metrics_ignore_content (fs : filesystem)
    (ast_parse : string -> Py.exn + Ast.mod_) (cleandoc : string -> string)
    (max_str_digits : Z)
    (p : string) (a a' : Base.analyzer) (r : AnalysisResult) (key : string) :
  Python.analyze_file fs ast_parse cleandoc max_str_digits p a = (inr r, a') ->
  errors r = [] ->
  key ∈ ["total_lines"; "code_lines"; "comment_lines"; "empty_lines"] ->
  metrics r !! key = Some (MInt 0).
Proof.
  unfold Python.analyze_file, Py.bind.
  destruct (Base.read_file fs p a) as [[e|text] a1]; [discriminate|].
  destruct (negb (Py.truthy_opt text)); [discriminate|].
  destruct (ast_parse (default "" text)) as [[]|tree]; try discriminate.
  - intros [= <- <-]. discriminate.
  - unfold Python.analyze_tree.
    destruct (Python._analyze_functions cleandoc max_str_digits (Ast.NMod tree)); [discriminate|].
    destruct (Python._analyze_classes cleandoc max_str_digits (Ast.NMod tree)); [discriminate|].
    intros [= <- <-] _ Hkey. apply python_line_counts, Hkey.
Qed.

(** C8 fails on the code.  The file [notes.py] has three lines, one of
    them a comment and one empty; it parses, and the metrics of its result
    report zero total, code, comment and empty lines, where
    [collect_metrics] on the text of the file counts 3, 2, 1 and 1. *)
Theorem C8_line_counts_are_zero :
  exists r a',
    Examples.python_analyze_file "/ws/notes.py" Base.init = (inr r, a')
    /\ errors r = []
    /\ map (fun key => metrics r !! key)
         ["total_lines"; "code_lines"; "comment_lines"; "empty_lines"]
       = [Some (MInt 0); Some (MInt 0); Some (MInt 0); Some (MInt 0)]
    /\ map (fun key => Base.collect_metrics Examples.notes_source [] !! key)
         ["total_lines"; "code_lines"; "comment_lines"; "empty_lines"]
       = [Some (MInt 3); Some (MInt 2); Some (MInt 1); Some (MInt 1)].
Proof.
  eexists _, _. split; [vm_compute; reflexivity|]. vm_compute. repeat split.
Qed.

End Metrics.

(* ===================================================================== *)
(** * The rounding of [total_size * 0.2] *)
(* ===================================================================== *)

Section FloatRounding.

Lemma digits2_pos_log2 (p : positive) : Zpos (digits2_pos p) = Z.log2 (Zpos p) + 1.
Proof.
  assert (forall q, digits2_pos q = Pos.size q) as Hsize
    by (induction q as [q IH|q IH|]; cbn; rewrite ?IH; reflexivity).
  rewrite Hsize. destruct p; cbn; lia.
Qed.

Lemma digits2_pos_bounds (p : positive) (d : Z) :
  2 ^ (d - 1) <= Zpos p < 2 ^ d -> 1 <= d -> Zpos (digits2_pos p) = d.
Proof.
  intros H Hd. rewrite digits2_pos_log2.
  rewrite (Z.log2_unique (Zpos p) (d - 1)); [lia|lia|].
  replace (Z.succ (d - 1)) with d by lia. exact H.
Qed.

Lemma shr_1_m (mrs : shr_record) :
  0 <= shr_m mrs -> shr_m (shr_1 mrs) = shr_m mrs / 2 /\ 0 <= shr_m (shr_1 mrs).
Proof.
  destruct mrs as [m r s]. cbn [shr_m]. intros Hm.
  destruct m as [|[p|p|]|p]; cbn [shr_1 shr_m]; try lia.
  all: split; [|lia].
  all: first [reflexivity | apply Z.div_unique with 1; lia | apply Z.div_unique with 0; lia].
Qed.

Lemma iter_shr_m (p : positive) : forall mrs : shr_record,
  0 <= shr_m mrs ->
  shr_m (SpecFloat.iter_pos shr_1 p mrs) = shr_m mrs / 2 ^ Zpos p
  /\ 0 <= shr_m (SpecFloat.iter_pos shr_1 p mrs).
Proof.
  induction p as [p IH|p IH|]; intros mrs Hm; cbn [SpecFloat.iter_pos].
  - destruct (shr_1_m mrs Hm) as [H1 H1'].
    destruct (IH _ H1') as [H2 H2']. destruct (IH _ H2') as [H3 H3'].
    split; [|exact H3']. rewrite H3, H2, H1.
    rewrite !Z.div_div by lia. f_equal.
    rewrite Pos2Z.inj_xI. rewrite <- !Z.pow_add_r, <- (Z.pow_1_r 2) at 1 by lia.
    rewrite <- Z.pow_add_r by lia. f_equal. lia.
  - destruct (IH _ Hm) as [H2 H2']. destruct (IH _ H2') as [H3 H3'].
    split; [|exact H3']. rewrite H3, H2.
    rewrite !Z.div_div by lia. f_equal.
    rewrite Pos2Z.inj_xO. rewrite <- Z.pow_add_r by lia. f_equal. lia.
  - destruct (shr_1_m mrs Hm) as [H1 H1']. split; [|exact H1']. rewrite H1. reflexivity.
Qed.

Lemma round_nearest_even_cases (m : Z) (l : SpecFloat.location) :
  round_nearest_even m l = m \/ round_nearest_even m l = m + 1.
Proof. destruct l as [|[]]; cbn; auto. destruct (Z.even m); auto. Qed.

Lemma pos_iter_xO (d : positive) : forall p : positive,
  Zpos (Pos.iter xO p d) = Zpos p * 2 ^ Zpos d.
Proof.
  induction d as [|d IH] using Pos.peano_ind; intros p.
  - cbn. lia.
  - rewrite Pos.iter_succ, Pos2Z.inj_xO, IH, Pos2Z.inj_succ, Z.pow_succ_r by lia. lia.
Qed.

Lemma fexp_normal (d e : Z) : -1021 <= d + e -> fexp prec emax (d + e) - e = d - 53.
Proof. intros H. unfold fexp, emin, prec, emax. lia. Qed.

Lemma binary_round_aux_normal (sx : bool) (m : positive) (e : Z) :
  2 ^ 52 <= Zpos m < 2 ^ 53 -> -1074 <= e <= 971 ->
  binary_round_aux prec emax sx (Zpos m) e loc_Exact = S754_finite sx m e.
Proof.
  intros Hm He. unfold binary_round_aux, shr_fexp. cbn [Zdigits2 shr_record_of_loc].
  rewrite (digits2_pos_bounds m 53) by (cbn; lia).
  rewrite fexp_normal by lia. change (53 - 53) with 0.
  cbn [shr shr_m loc_of_shr_record round_nearest_even Zdigits2].
  rewrite (digits2_pos_bounds m 53) by (cbn; lia).
  rewrite fexp_normal by lia. change (53 - 53) with 0. cbn [shr shr_m].
  unfold emax, prec. destruct (e <=? 1024 - 53) eqn:Hle; [reflexivity|lia].
Qed.

Lemma div_pow2_bounds (M dg : Z) :
  53 < dg -> 2 ^ (dg - 1) <= M < 2 ^ dg ->
  2 ^ 52 <= M / 2 ^ (dg - 53) < 2 ^ 53.
Proof.
  intros Hdg HM.
  assert (0 < 2 ^ (dg - 53)) as Hpos by (apply Z.pow_pos_nonneg; lia).
  assert (2 ^ (dg - 1) = 2 ^ 52 * 2 ^ (dg - 53)) as Hlo
    by (rewrite <- Z.pow_add_r by lia; f_equal; lia).
  assert (2 ^ dg = 2 ^ 53 * 2 ^ (dg - 53)) as Hhi
    by (rewrite <- Z.pow_add_r by lia; f_equal; lia).
  split.
  - apply Z.div_le_lower_bound; [exact Hpos|]. rewrite Z.mul_comm, <- Hlo. lia.
  - apply Z.div_lt_upper_bound; [exact Hpos|]. rewrite Z.mul_comm, <- Hhi. lia.
Qed.

Lemma binary_round_aux_wide (M : positive) (E dg : Z) :
  53 < dg -> 2 ^ (dg - 1) <= Zpos M < 2 ^ dg ->
  -1021 <= dg + E -> E + (dg - 53) + 1 <= 971 ->
  exists (m3 : positive) (e3 : Z),
    binary_round_aux prec emax false (Zpos M) E loc_Exact = S754_finite false m3 e3
    /\ ((e3 = E + (dg - 53)
         /\ (Zpos m3 = Zpos M / 2 ^ (dg - 53) \/ Zpos m3 = Zpos M / 2 ^ (dg - 53) + 1))
        \/ (e3 = E + (dg - 53) + 1 /\ Zpos m3 = 2 ^ 52
            /\ Zpos M / 2 ^ (dg - 53) + 1 = 2 ^ 53)).
Proof.
  intros Hdg HM Hlo Hhi.
  pose proof (div_pow2_bounds (Zpos M) dg Hdg HM) as HM1.
  unfold binary_round_aux, shr_fexp. cbn [Zdigits2 shr_record_of_loc].
  rewrite (digits2_pos_bounds M dg) by (try exact HM; lia).
  rewrite fexp_normal by lia.
  destruct (dg - 53) as [|pd|pd] eqn:Hpd; try lia. cbn [shr].
  destruct (iter_shr_m pd {| shr_m := Zpos M; shr_r := false; shr_s := false |})
    as [Hm1 _]; [cbn; lia|]. cbn [shr_m] in Hm1.
  set (mrs' := SpecFloat.iter_pos shr_1 pd {| shr_m := Zpos M; shr_r := false; shr_s := false |}) in *.
  set (M1 := Zpos M / 2 ^ Zpos pd) in *.
  destruct (round_nearest_even_cases (shr_m mrs') (loc_of_shr_record mrs')) as [HM2|HM2];
    rewrite HM2, Hm1.
  - destruct M1 as [|m1|m1] eqn:HM1'; try lia. cbn [Zdigits2].
    rewrite (digits2_pos_bounds m1 53) by (cbn; lia).
    rewrite fexp_normal by lia. change (53 - 53) with 0. cbn [shr shr_m].
    unfold emax, prec. destruct (E + Zpos pd <=? 1024 - 53) eqn:Hle; [|lia].
    exists m1, (E + Zpos pd). split; [reflexivity|]. left. auto.
  - destruct (Z.eq_dec (M1 + 1) (2 ^ 53)) as [Htop|Htop].
    + rewrite Htop. change (Zdigits2 (2 ^ 53)) with 54.
      rewrite fexp_normal by lia. change (54 - 53) with 1.
      change (2 ^ 53) with 9007199254740992 at 1. cbn [shr SpecFloat.iter_pos shr_1 shr_m].
      unfold emax, prec. destruct (E + Zpos pd + 1 <=? 1024 - 53) eqn:Hle; [|lia].
      eexists _, _. split; [reflexivity|]. right. split; [reflexivity|].
      split; reflexivity.
    + destruct (M1 + 1) as [|m2|m2] eqn:HM2'; try lia. cbn [Zdigits2].
      rewrite (digits2_pos_bounds m2 53) by (cbn; lia).
      rewrite fexp_normal by lia. change (53 - 53) with 0. cbn [shr shr_m].
      unfold emax, prec. destruct (E + Zpos pd <=? 1024 - 53) eqn:Hle; [|lia].
      exists m2, (E + Zpos pd). split; [reflexivity|]. left. auto.
Qed.

Lemma fifth_arith (n W D A M2 : Z) :
  1 <= n < 2 ^ 50 -> 8 <= W -> 0 < D <= 2 ^ 53 -> 0 < A -> D * A = 2 ^ 55 * W ->
  M2 = n * W * Props.fifth / D \/ M2 = n * W * Props.fifth / D + 1 ->
  M2 / A = n / 5.
Proof.
  intros Hn HW HD HA HDA HM2.
  pose proof (Z.div_mod n 5 ltac:(lia)) as Hdiv.
  pose proof (Z.mod_pos_bound n 5 ltac:(lia)) as Hmod.
  set (a := n / 5) in *. set (P := n * W * Props.fifth) in *.
  change (2 ^ 50) with 1125899906842624 in *.
  change (2 ^ 53) with 9007199254740992 in *.
  change (2 ^ 55) with 36028797018963968 in *.
  assert (a * 36028797018963968 <= n * Props.fifth) as Hlow by (unfold Props.fifth; lia).
  assert (n * Props.fifth + 6755399441055744 <= (a + 1) * 36028797018963968) as Hhigh
    by (unfold Props.fifth; lia).
  assert (D * (a * A) <= P) as HlowP.
  { replace (D * (a * A)) with (a * 36028797018963968 * W)
      by (transitivity (a * (D * A)); [rewrite HDA|]; ring).
    unfold P. replace (n * W * Props.fifth) with (n * Props.fifth * W) by ring.
    apply Z.mul_le_mono_nonneg_r; lia. }
  assert (P + D < D * ((a + 1) * A)) as HhighP.
  { replace (D * ((a + 1) * A)) with ((a + 1) * 36028797018963968 * W)
      by (transitivity ((a + 1) * (D * A)); [rewrite HDA|]; ring).
    unfold P. replace (n * W * Props.fifth) with (n * Props.fifth * W) by ring.
    assert ((n * Props.fifth + 6755399441055744) * W <= (a + 1) * 36028797018963968 * W)
      by (apply Z.mul_le_mono_nonneg_r; lia).
    assert (6755399441055744 * 8 <= 6755399441055744 * W)
      by (apply Z.mul_le_mono_nonneg_l; lia).
    lia. }
  assert (a * A <= P / D) as H1 by (apply Z.div_le_lower_bound; lia).
  assert (P / D < (a + 1) * A - 1) as H2.
  { apply Z.div_lt_upper_bound; [lia|]. lia. }
  symmetry. apply Z.div_unique with (M2 - a * A); lia.
Qed.

Lemma of_uint63_normal (n : Z) :
  1 <= n < 2 ^ 52 ->
  Prim2SF (of_uint63 (Uint63.of_Z n))
  = S754_finite false (Z.to_pos (n * 2 ^ (52 - Z.log2 n))) (Z.log2 n - 52).
Proof.
  intros Hn. rewrite of_uint63_spec, Uint63.of_Z_spec.
  rewrite Z.mod_small by (change wB with (2 ^ 63); change (2 ^ 52) with 4503599627370496 in Hn;
                          change (2 ^ 63) with 9223372036854775808; lia).
  pose proof (Z.log2_spec n ltac:(lia)) as Hlog.
  pose proof (Z.log2_nonneg n) as Hk.
  assert (Z.log2 n < 52) as Hk'.
  { apply Z.log2_lt_pow2; lia. }
  set (k := Z.log2 n) in *.
  destruct n as [|p|p]; try lia. cbn [binary_normalize]. unfold binary_round.
  rewrite (digits2_pos_bounds p (k + 1)) by (replace (k + 1 - 1) with k by lia;
                                             replace (k + 1) with (Z.succ k) by lia; lia).
  replace (fexp prec emax (k + 1 + 0)) with (k - 52) by (unfold fexp, emin, prec, emax; lia).
  unfold shl_align. replace (k - 52 - 0) with (k - 52) by lia.
  destruct (k - 52) as [|d|d] eqn:Hd; try lia.
  assert (Zpos (Pos.iter xO p d) = Zpos p * 2 ^ (52 - k)) as Hm
    by (rewrite pos_iter_xO; f_equal; f_equal; lia).
  assert (2 ^ 52 <= Zpos p * 2 ^ (52 - k) < 2 ^ 53) as Hbounds.
  { assert (2 ^ 52 = 2 ^ k * 2 ^ (52 - k)) as ->
      by (rewrite <- Z.pow_add_r by lia; f_equal; lia).
    assert (2 ^ 53 = 2 ^ Z.succ k * 2 ^ (52 - k)) as ->
      by (rewrite <- Z.pow_add_r by lia; f_equal; lia).
    assert (0 < 2 ^ (52 - k)) by (apply Z.pow_pos_nonneg; lia).
    split; [apply Z.mul_le_mono_nonneg_r; lia|apply Z.mul_lt_mono_pos_r; lia]. }
  rewrite binary_round_aux_normal by (rewrite ?Hm; lia).
  f_equal. rewrite <- Hm. reflexivity.
Qed.

(** [int(n * 0.2)] is [n // 5] for every byte count below [2^50]: the
    double nearest to 0.2 exceeds a fifth by a part in [2^54], the product
    is rounded to 53 bits, and neither moves the integer part. *)
Lemma eviction_limit_is_a_fifth (n : Z) :
  0 <= n < 2 ^ 50 -> Cache.eviction_limit n = n / 5.
Proof.
  intros Hn. destruct (Z.eq_dec n 0) as [->|Hne]; [vm_compute; reflexivity|].
  assert (1 <= n < 2 ^ 50) as Hn1 by lia. clear Hn Hne.
  unfold Cache.eviction_limit, Py.int_of_float, Py.float_of_int.
  destruct (n <? 0) eqn:Hneg; [lia|]. clear Hneg.
  rewrite FloatAxioms.mul_spec, of_uint63_normal
    by (change (2 ^ 50) with 1125899906842624 in Hn1; change (2 ^ 52) with 4503599627370496; lia).
  replace (Prim2SF 0x1.999999999999ap-3%float) with (S754_finite false 7205759403792794%positive (-55))
    by (vm_compute; reflexivity).
  pose proof (Z.log2_spec n ltac:(lia)) as Hlog.
  pose proof (Z.log2_nonneg n) as Hk.
  assert (Z.log2 n < 50) as Hk' by (apply Z.log2_lt_pow2; lia).
  set (k := Z.log2 n) in *.
  set (W := 2 ^ (52 - k)).
  assert (8 <= W) as HW.
  { unfold W. change 8 with (2 ^ 3). apply Z.pow_le_mono_r; lia. }
  assert (2 ^ 52 <= n * W < 2 ^ 53) as Hm.
  { unfold W.
    assert (2 ^ 52 = 2 ^ k * 2 ^ (52 - k)) as ->
      by (rewrite <- Z.pow_add_r by lia; f_equal; lia).
    assert (2 ^ 53 = 2 ^ Z.succ k * 2 ^ (52 - k)) as ->
      by (rewrite <- Z.pow_add_r by lia; f_equal; lia).
    assert (0 < 2 ^ (52 - k)) by (apply Z.pow_pos_nonneg; lia).
    split; [apply Z.mul_le_mono_nonneg_r; lia|apply Z.mul_lt_mono_pos_r; lia]. }
  unfold SF64mul, SFmul. cbn [xorb].
  assert (Zpos (Z.to_pos (n * W) * 7205759403792794) = n * W * Props.fifth) as HP
    by (rewrite Pos2Z.inj_mul, Z2Pos.id by lia; reflexivity).
  rewrite HP.
  assert (0 < n * W * Props.fifth) as HPpos by (unfold Props.fifth; lia).
  destruct (n * W * Props.fifth) as [|P|P] eqn:HPeq; try lia.
  destruct (Z_lt_le_dec (Zpos P) (2 ^ 105)) as [Hsmall|Hbig].
  - destruct (binary_round_aux_wide P (k - 52 + -55) 105) as (m3 & e3 & -> & Hres);
      [lia|split; [|exact Hsmall]|lia|lia|].
    { rewrite <- HPeq. change (2 ^ (105 - 1)) with (2 ^ 52 * 2 ^ 52). unfold Props.fifth.
      change (2 ^ 52) with 4503599627370496 in *. lia. }
    rewrite <- HPeq in Hres. change (105 - 53) with 52 in Hres.
    destruct Hres as [(-> & Hm3)|(-> & Hm3 & Htop)].
    + destruct (0 <=? k - 52 + -55 + 52) eqn:He; [lia|].
      rewrite Z.shiftr_div_pow2 by lia.
      apply (fifth_arith n W (2 ^ 52) _ _ Hn1 HW); try exact Hm3.
      * change (2 ^ 52) with 4503599627370496. change (2 ^ 53) with 9007199254740992. lia.
      * apply Z.pow_pos_nonneg; lia.
      * unfold W. rewrite <- !Z.pow_add_r by lia. f_equal. lia.
    + destruct (0 <=? k - 52 + -55 + 52 + 1) eqn:He; [lia|].
      rewrite Z.shiftr_div_pow2 by lia. rewrite Hm3.
      rewrite <- (fifth_arith n W (2 ^ 52) (2 ^ (- (k - 52 + -55 + 52))) (2 ^ 53) Hn1 HW).
      * replace (- (k - 52 + -55 + 52)) with (- (k - 52 + -55 + 52 + 1) + 1) by lia.
        rewrite Z.pow_add_r by lia. change (2 ^ 53) with (2 ^ 52 * 2 ^ 1).
        rewrite Z.div_mul_cancel_r; [reflexivity| |]; apply Z.pow_nonzero; lia.
      * change (2 ^ 52) with 4503599627370496. change (2 ^ 53) with 9007199254740992. lia.
      * apply Z.pow_pos_nonneg; lia.
      * unfold W. rewrite <- !Z.pow_add_r by lia. f_equal. lia.
      * right. symmetry. exact Htop.
  - destruct (binary_round_aux_wide P (k - 52 + -55) 106) as (m3 & e3 & -> & Hres);
      [lia|split; [exact Hbig|]|lia|lia|].
    { rewrite <- HPeq. change (2 ^ 106) with (2 ^ 53 * 2 ^ 53). unfold Props.fifth.
      change (2 ^ 53) with 9007199254740992 in *. lia. }
    rewrite <- HPeq in Hres. change (106 - 53) with 53 in Hres.
    destruct Hres as [(-> & Hm3)|(-> & Hm3 & Htop)].
    + destruct (0 <=? k - 52 + -55 + 53) eqn:He; [lia|].
      rewrite Z.shiftr_div_pow2 by lia.
      apply (fifth_arith n W (2 ^ 53) _ _ Hn1 HW); try exact Hm3.
      * change (2 ^ 53) with 9007199254740992. lia.
      * apply Z.pow_pos_nonneg; lia.
      * unfold W. rewrite <- !Z.pow_add_r by lia. f_equal. lia.
    + destruct (0 <=? k - 52 + -55 + 53 + 1) eqn:He; [lia|].
      rewrite Z.shiftr_div_pow2 by lia. rewrite Hm3.
      rewrite <- (fifth_arith n W (2 ^ 53) (2 ^ (- (k - 52 + -55 + 53))) (2 ^ 53) Hn1 HW).
      * replace (- (k - 52 + -55 + 53)) with (- (k - 52 + -55 + 53 + 1) + 1) by lia.
        rewrite Z.pow_add_r by lia. change (2 ^ 53) with (2 ^ 52 * 2 ^ 1).
        rewrite Z.div_mul_cancel_r; [reflexivity| |]; apply Z.pow_nonzero; lia.
      * change (2 ^ 53) with 9007199254740992. lia.
      * apply Z.pow_pos_nonneg; lia.
      * unfold W. rewrite <- !Z.pow_add_r by lia. f_equal. lia.
      * right. symmetry. exact Htop.
Qed.

End FloatRounding.

(* ===================================================================== *)
(** * The analysis cache *)
(* ===================================================================== *)

Section CacheTable.

Import Cache.

#[local] Abbreviation older := (fun r r' : row => timestamp r <= timestamp r').

Lemma filter_permutation {A} (f : A -> bool) (l l' : list A) :
  Permutation l l' -> Permutation (List.filter f l) (List.filter f l').
Proof.
  induction 1 as [|x l l' _ IH|x y l|l l' l'' _ IH1 _ IH2]; cbn.
  - constructor.
  - destruct (f x); [constructor|]; exact IH.
  - destruct (f x), (f y); try reflexivity. constructor.
  - etransitivity; eassumption.
Qed.

Lemma filter_all {A} (f : A -> bool) (l : list A) :
  (forall x, In x l -> f x = true) -> List.filter f l = l.
Proof.
  induction l as [|x l IH]; intros H; [reflexivity|]. cbn.
  rewrite (H x) by (left; reflexivity). f_equal. apply IH. intros y Hy. apply H. right. exact Hy.
Qed.

Lemma filter_none {A} (f : A -> bool) (l : list A) :
  (forall x, In x l -> f x = false) -> List.filter f l = [].
Proof.
  induction l as [|x l IH]; intros H; [reflexivity|]. cbn.
  rewrite (H x) by (left; reflexivity). apply IH. intros y Hy. apply H. right. exact Hy.
Qed.

Lemma insert_by_timestamp_perm (r : row) (l : table) :
  Permutation (insert_by_timestamp r l) (r :: l).
Proof.
  induction l as [|r' l IH]; cbn; [reflexivity|].
  destruct (timestamp r <=? timestamp r'); [reflexivity|].
  rewrite IH. apply perm_swap.
Qed.

Lemma order_by_timestamp_perm (db : table) : Permutation (order_by_timestamp db) db.
Proof.
  induction db as [|r db IH]; cbn; [reflexivity|].
  rewrite insert_by_timestamp_perm. constructor. exact IH.
Qed.

Lemma insert_by_timestamp_sorted (r : row) (l : table) :
  StronglySorted older l -> StronglySorted older (insert_by_timestamp r l).
Proof.
  induction 1 as [|r' l Hs IH Hall]; cbn; [repeat constructor|].
  destruct (timestamp r <=? timestamp r') eqn:Hle.
  - constructor; [constructor; assumption|].
    constructor; [lia|]. eapply Forall_impl; [exact Hall|]. cbn. intros; lia.
  - constructor; [exact IH|].
    rewrite insert_by_timestamp_perm. constructor; [lia|exact Hall].
Qed.

Lemma order_by_timestamp_sorted (db : table) : StronglySorted older (order_by_timestamp db).
Proof.
  induction db as [|r db IH]; cbn; [constructor|]. apply insert_by_timestamp_sorted, IH.
Qed.

Lemma eviction_limit_105_megabytes :
  eviction_limit (105 * 1024 * 1024) = 22020096.
Proof. vm_compute. reflexivity. Qed.

(** In a sorted table every row of a prefix is at most as recent as every
    row after it. *)
Lemma sorted_prefix_older (l : table) : forall (k : nat) (v s : row),
  StronglySorted older l -> In v (take k l) -> In s (drop k l) ->
  timestamp v <= timestamp s.
Proof.
  induction l as [|r l IH]; intros [|k] v s Hs Hv Hd; cbn in *; try contradiction.
  apply StronglySorted_inv in Hs as [Hs Hall]. destruct Hv as [<-|Hv].
  - rewrite Forall_forall in Hall. apply Hall. apply list_elem_of_In.
    rewrite <- (take_drop k l). apply in_or_app. right. exact Hd.
  - eapply IH; eauto.
Qed.

End CacheTable.

Section CacheOperations.

Import Cache.

Variable config : CacheConfig.
Variable Json : Type.
Variable dumps : Json -> string.
Variable loads : string -> Json.

(** The rows that [_cleanup_if_needed] deletes and those it keeps, when the
    primary key is unique: the [k] oldest rows and the others. *)
Lemma delete_oldest (db : table) (k : nat) :
  Props.primary_key db ->
  let victims := take k (order_by_timestamp db) in
  let kept := delete_in (map file_path victims) db in
  Permutation db (victims ++ kept)%list
  /\ (forall v s, In v victims -> In s kept -> timestamp v <= timestamp s).
Proof.
  intros Hpk victims kept.
  pose proof (order_by_timestamp_perm db) as Hperm.
  pose proof (order_by_timestamp_sorted db) as Hsorted.
  set (sorted := order_by_timestamp db) in *.
  set (rest := drop k sorted).
  assert (Hsplit : sorted = (victims ++ rest)%list) by (symmetry; apply take_drop).
  assert (Hnd : NoDup (map file_path (victims ++ rest)%list)).
  { rewrite <- Hsplit. unfold Props.primary_key in Hpk.
    assert (Permutation (map file_path db) (map file_path sorted)) as Hmap
      by (apply Permutation_map; symmetry; exact Hperm).
    rewrite <- Hmap. exact Hpk. }
  rewrite map_app in Hnd. apply NoDup_app in Hnd as (Hndv & Hdisj & Hndr).
  set (keep := fun r : row => negb (bool_decide (file_path r ∈ map file_path victims))).
  assert (Hkv : List.filter keep victims = []).
  { apply filter_none. intros x Hx. unfold keep.
    rewrite bool_decide_eq_true_2; [reflexivity|].
    apply list_elem_of_In, in_map, Hx. }
  assert (Hkr : List.filter keep rest = rest).
  { apply filter_all. intros x Hx. unfold keep.
    rewrite bool_decide_eq_false_2; [reflexivity|].
    intros Hin. apply (Hdisj (file_path x)); [exact Hin|].
    apply list_elem_of_In, in_map, Hx. }
  assert (Hkept : Permutation kept rest).
  { unfold kept, delete_in. fold keep.
    rewrite (filter_permutation keep db sorted) by (symmetry; exact Hperm).
    rewrite Hsplit, List.filter_app, Hkv, Hkr. reflexivity. }
  split.
  - rewrite Hkept, <- Hsplit. symmetry. exact Hperm.
  - intros v s Hv Hs. apply (sorted_prefix_older sorted k v s Hsorted Hv).
    apply (Permutation_in _ Hkept), Hs.
Qed.

(** The total that [SELECT SUM(file_size)] gives is the sum of the byte
    sizes of the stored entries. *)
Lemma total_size_stored_bytes (db : table) : total_size db = Props.stored_bytes db.
Proof.
  unfold total_size. induction db as [|r db IH]; [reflexivity|].
  cbn [map Py.sum fold_right Props.stored_bytes]. unfold Py.sum in IH. rewrite IH.
  reflexivity.
Qed.

(** C7. [set] runs the eviction check on the table before it inserts (a
    disabled cache does neither), so the new row is never among the rows
    the check deletes.  When the byte sizes of the stored rows add up to
    more than [max_size] megabytes, the check deletes the oldest rows by
    timestamp: every deleted row is at most as recent as every row kept,
    and the number of deleted rows is a fifth of the stored bytes (rounded
    down) read as a count of rows, capped at the number of rows.  Within
    the budget nothing is deleted.  The sizes are taken to add up to less
    than [2^50] bytes, where [int(total_size * 0.2)] in binary64 is the
    integer fifth. *)
Theorem C7_eviction_before_insert (now : float) (p h : string) (data : Json) (db : table) :
  Props.primary_key db ->
  0 <= Props.stored_bytes db < 2 ^ 50 ->
  let new_row := mkRow p h (dumps data) (Py.int_of_float now) (Py.len (dumps data)) in
  let kept := _cleanup_if_needed config db in
  set config Json dumps now p h data db
  = (if enabled config then insert_or_replace new_row kept else db)
  /\ (enabled config = true -> In new_row (set config Json dumps now p h data db))
  /\ (max_size config * 1024 * 1024 < Props.stored_bytes db ->
      exists victims,
        Permutation db (victims ++ kept)%list
        /\ length victims = Nat.min (Z.to_nat (Props.stored_bytes db / 5)) (length db)
        /\ (forall v s, In v victims -> In s kept -> timestamp v <= timestamp s))
  /\ (Props.stored_bytes db <= max_size config * 1024 * 1024 -> kept = db).
Proof.
  intros Hpk Hbytes new_row kept.
  assert (set config Json dumps now p h data db
          = (if enabled config then insert_or_replace new_row kept else db)) as Hset
    by (unfold set; destruct (enabled config); reflexivity).
  split; [exact Hset|]. split; [|split].
  - intros Hon. rewrite Hset, Hon. unfold insert_or_replace.
    apply in_or_app. right. left. reflexivity.
  - intros Hover. unfold kept, _cleanup_if_needed.
    rewrite total_size_stored_bytes.
    destruct (max_size config * 1024 * 1024 <? Props.stored_bytes db) eqn:Hlt; [|lia].
    rewrite (eviction_limit_is_a_fifth _ Hbytes).
    exists (oldest (Props.stored_bytes db / 5) db). split; [|split].
    + apply (delete_oldest db (Z.to_nat (Props.stored_bytes db / 5)) Hpk).
    + unfold oldest. rewrite length_take.
      rewrite (Permutation_length (order_by_timestamp_perm db)). reflexivity.
    + apply (delete_oldest db (Z.to_nat (Props.stored_bytes db / 5)) Hpk).
  - intros Hunder. unfold kept, _cleanup_if_needed. rewrite total_size_stored_bytes.
    destruct (max_size config * 1024 * 1024 <? Props.stored_bytes db) eqn:Hlt;
      [lia|reflexivity].
Qed.

Lemma find_append {A} (f : A -> bool) (l1 l2 : list A) :
  List.find f (l1 ++ l2)
  = match List.find f l1 with Some x => Some x | None => List.find f l2 end.
Proof.
  induction l1 as [|x l1 IH]; [reflexivity|]. cbn. destruct (f x); [reflexivity|exact IH].
Qed.

(** A row of another path is not the row [get] looks for. *)
Lemma find_other_paths (p h : string) (db : table) :
  List.find (fun r => String.eqb (file_path r) p && String.eqb (content_hash r) h)
    (List.filter (fun r' => negb (String.eqb (file_path r') p)) db) = None.
Proof.
  induction db as [|r db IH]; [reflexivity|]. cbn.
  destruct (String.eqb (file_path r) p) eqn:Hp; cbn; [exact IH|].
  rewrite Hp. exact IH.
Qed.

(** C4. With the cache enabled, [get(p, h)] after [set(p, h, data)]
    returns the data as [json.loads] reads back what [json.dumps] wrote,
    whenever the time-to-live test passes for the stored timestamp; the
    eviction that [set] runs comes before the insertion and so never
    removes the new row. *)
Theorem C4_cache_round_trip (now now' : float) (p h : string) (data : Json) (db : table) :
  enabled config = true ->
  within_ttl config now' (Py.int_of_float now) = true ->
  get config Json loads now' p h (set config Json dumps now p h data db)
  = Some (loads (dumps data))
  /\ (loads (dumps data) = data ->
      get config Json loads now' p h (set config Json dumps now p h data db) = Some data).
Proof.
  intros Hon Hfresh.
  assert (get config Json loads now' p h (set config Json dumps now p h data db)
          = Some (loads (dumps data))) as Hget.
  { unfold get, set. rewrite Hon. cbn [negb]. unfold insert_or_replace.
    cbn [file_path]. rewrite find_append, find_other_paths.
    cbn [List.find file_path content_hash]. rewrite !String.eqb_refl.
    cbn [andb timestamp analysis_data]. rewrite Hfresh. reflexivity. }
  split; [exact Hget|]. intros Hrt. rewrite Hget, Hrt. reflexivity.
Qed.

End CacheOperations.

(* ===================================================================== *)
(** * The properties on the example inputs *)
(* ===================================================================== *)

Section PythonRuns.

Variable fs : filesystem.
Variable ast_parse : string -> Py.exn + Ast.mod_.
Variable cleandoc : string -> string.
Variable max_str_digits : Z.

(** [analyze_file] on a file that is on disk, under the size limit,
    readable, not empty and that parses: the result of [analyze_tree],
    from any analyzer with a coherent cache, which stays coherent; the
    options and the memoized dependency sets are left alone. *)
Lemma python_analyze_file_runs (p text : string) (f : file) (tree : Ast.mod_)
    (r : AnalysisResult) (a : Base.analyzer) :
  fs !! p = Some f ->
  st_size f <= max_file_size (Base.options a) ->
  read_text f = inr text ->
  Py.truthy text = true ->
  ast_parse text = inr tree ->
  Python.analyze_tree cleandoc max_str_digits p text (Ast.NMod tree) = inr r ->
  Props.cache_coherent fs a ->
  exists a',
    Python.analyze_file fs ast_parse cleandoc max_str_digits p a = (inr r, a')
    /\ Props.cache_coherent fs a'
    /\ Base.options a' = Base.options a
    /\ Base._dependency_cache a' = Base._dependency_cache a.
Proof.
  intros Hf Hsize Htext Hne Hparse Htree Hc.
  assert (exists a', Base.read_file fs p a = (inr (Some text), a')
                     /\ Base.options a' = Base.options a
                     /\ Base._dependency_cache a' = Base._dependency_cache a)
    as (a' & Hread & Ho & Hm).
  { destruct (Base._file_cache a !! p) as [cached|] eqn:Hp.
    - destruct (Hc _ _ Hp) as (f' & Hf' & Ht'). rewrite Hf in Hf'.
      injection Hf' as <-. rewrite Htext in Ht'. injection Ht' as <-.
      exists a. rewrite (read_file_cached fs _ _ _ Hp). repeat split.
    - rewrite (read_file_uncached fs _ _ Hp), Hf, Htext.
      destruct (max_file_size (Base.options a) <? st_size f) eqn:Hlt; [lia|].
      eexists. repeat split. }
  exists a'. split; [|split; [eapply read_file_coherent; eassumption|split; assumption]].
  unfold Python.analyze_file, Py.bind. rewrite Hread.
  cbn [Py.truthy_opt]. rewrite Hne. cbn [negb]. cbn [default from_option id].
  rewrite Hparse, Htree. reflexivity.
Qed.

End PythonRuns.

Section Witnesses.

Import Examples.

(** C1 on [broken.py]: the result carries the diagnostic and no structure. *)
Lemma C1_witness :
  exists r a',
    python_analyze_file "/ws/broken.py" Base.init = (inr r, a')
    /\ errors r <> [] /\ blocks r = [] /\ dependencies r = [].
Proof.
  eexists _, _. split; [vm_compute; reflexivity|]. split; [discriminate|].
  eapply (C1_errors_exclude_structure workspace parse cleandoc max_str_digits react_imports
            (fun _ => inr []) (fun _ => inr []) (fun _ => inr []) (fun _ => ∅)
            "/ws/broken.py" Base.init);
    [left; vm_compute; reflexivity|discriminate].
Defined.

(** C2 on [broken.py], whose text [def broken(:] has a syntax error. *)
Lemma C2_witness :
  exists a',
    python_analyze_file "/ws/broken.py" Base.init
    = (inr (mkAnalysisResult "/ws/broken.py" PYTHON [] []
              ["Syntax error: invalid syntax (<unknown>, line 1)"] [] ∅), a').
Proof.
  eexists.
  apply (C2_syntax_error_is_data workspace parse cleandoc max_str_digits "/ws/broken.py" "def broken(:");
    [reflexivity|vm_compute; reflexivity|reflexivity].
Defined.

(** C3 on the ten-line function [handler]. *)
Lemma C3_witness :
  Python._calculate_complexity (Ast.NStmt handler_def) = 4
  /\ Python._collect_warnings (Ast.NMod (Ast.Module [handler_def]))
     = ["Broad exception handler at line 8"].
Proof.
  destruct (C3_if_try_except_scores_four handler_def 8 Ast.Load None [assign "y" 0])
    as (Hscore & _ & Hwarn & _); [vm_compute; reflexivity..|].
  split; [exact Hscore|exact Hwarn].
Defined.

(** The claim C3 fails on [handler]: one [if], one [except Exception:]
    clause, no loop, [with], [assert], [raise] or boolean operator, and
    the score is 4, not 3, because the [try] statement counts too. *)
Lemma C3_counterexample :
  Props.count Props.is_If (Ast.NStmt handler_def) = 1%nat
  /\ List.filter Props.is_ExceptHandler (Ast.walk (Ast.NStmt handler_def))
     = [Ast.NExceptHandler handler_except]
  /\ Props.count Props.is_other_counted (Ast.NStmt handler_def) = O
  /\ Python._calculate_complexity (Ast.NStmt handler_def) = 4
  /\ Python._calculate_complexity (Ast.NStmt handler_def) <> 3.
Proof. vm_compute. repeat split. discriminate. Qed.

(** C4 on the rows of the example, three quarters of a second apart. *)
Lemma C4_witness :
  Cache.get defaults string id 0x1.954fc40500000p+30%float "a.py" "h9"
    (Cache.set defaults string id 0x1.954fc40200000p+30%float "a.py" "h9" "{}" rows)
  = Some "{}".
Proof.
  destruct (C4_cache_round_trip defaults string id id
              0x1.954fc40200000p+30%float 0x1.954fc40500000p+30%float
              "a.py" "h9" "{}" rows) as [Hget _];
    [reflexivity|vm_compute; reflexivity|exact Hget].
Defined.

(** C7 on three rows of two bytes and a budget of zero: a fifth of six
    bytes is one row, and the oldest row is deleted. *)
Lemma C7_witness :
  exists victims,
    Permutation rows (victims ++ Cache._cleanup_if_needed tight rows)%list
    /\ length victims = 1%nat
    /\ (forall v s, In v victims -> In s (Cache._cleanup_if_needed tight rows) ->
        Cache.timestamp v <= Cache.timestamp s).
Proof.
  assert (Props.primary_key rows) as Hpk
    by (apply (bool_decide_unpack _); vm_compute; exact I).
  destruct (C7_eviction_before_insert tight string id 0x1.954fc40200000p+30%float
              "d.py" "h4" "{}" rows Hpk) as (_ & _ & Hevict & _);
    [split; [discriminate|reflexivity]|].
  destruct Hevict as (victims & Hperm & Hlen & Hold); [reflexivity|].
  exists victims. split; [exact Hperm|]. split; [exact Hlen|exact Hold].
Defined.

(** C9 on [App.tsx]: the import of [./Panel] gives a local dependency,
    which the result does not hold. *)
Lemma C9_witness :
  exists r a1,
    react_analyze_file "/ws/App.tsx" Base.init = (inr r, a1)
    /\ length (React._build_dependencies (react_imports "import Panel from './Panel'")) = 1%nat
    /\ blocks (Web.base r) = [] /\ dependencies (Web.base r) = []
    /\ Base.get_dependencies (Web.base r) = []
    /\ exists a', Base.analyze_dependencies workspace resolve react_analyze_file_base
                    "/ws/App.tsx" 3 Base.init = (inr ∅, a').
Proof.
  assert (Props.memo_all_empty Base.init) as Hmemo
    by (intros p s H; cbn in H; rewrite lookup_empty in H; discriminate).
  pose proof (C9_react_results_have_no_structure workspace resolve react_imports
                (fun _ => inr []) (fun _ => inr []) (fun _ => inr []) (fun _ => ∅)
                "/ws/App.tsx" 3 Base.init Hmemo) as H.
  fold react_analyze_file react_analyze_file_base in H.
  destruct (react_analyze_file "/ws/App.tsx" Base.init) as [[e|r] a1] eqn:Hrun;
    [vm_compute in Hrun; discriminate|].
  destruct H as (Hb & Hd & Hg & a' & Hres & _).
  exists r, a1. repeat split; try assumption. exists a'. exact Hres.
Defined.

(** C10 on the zero-byte file [empty.py]. *)
Lemma C10_witness :
  (exists a', python_analyze_file "/ws/empty.py" Base.init
              = (inl (Py.ValueError "Could not read file: /ws/empty.py"), a'))
  /\ (exists a', react_analyze_file "/ws/empty.py" Base.init
                 = (inl (Py.ValueError "Could not read file: /ws/empty.py"), a')).
Proof.
  apply (C10_zero_byte_file_is_rejected workspace parse cleandoc max_str_digits react_imports
           (fun _ => inr []) (fun _ => inr []) (fun _ => inr []) (fun _ => ∅)
           "/ws/empty.py" Base.init (text_file ""));
    [vm_compute; reflexivity|reflexivity|reflexivity|discriminate|apply init_coherent].
Defined.

End Witnesses.


(* ===================================================================== *)
(** * Further properties of the base analyzer *)
(* ===================================================================== *)

Section BaseReading.

Variable fs : filesystem.

(** After a call of [read_file] the cache holds the path exactly when the
    call returned a text, which is the one it holds; nothing else of the
    analyzer changes. *)
Lemma read_file_frame (p : string) (a a' : Base.analyzer) (r : Py.exn + option string) :
  Base.read_file fs p a = (r, a') ->
  Base.options a' = Base.options a
  /\ Base._dependency_cache a' = Base._dependency_cache a
  /\ (forall q, q <> p -> Base._file_cache a' !! q = Base._file_cache a !! q)
  /\ Base._file_cache a' !! p = match r with inr (Some text) => Some text | _ => None end.
Proof.
  intros H. destruct (Base._file_cache a !! p) as [cached|] eqn:Hp.
  - rewrite (read_file_cached fs _ _ _ Hp) in H. injection H as <- <-. auto.
  - rewrite (read_file_uncached fs _ _ Hp) in H.
    destruct (fs !! p) as [f|]; [|injection H as <- <-; auto].
    destruct (max_file_size (Base.options a) <? st_size f); [injection H as <- <-; auto|].
    destruct (read_text f) as [e|text]; injection H as <- <-; [auto|].
    cbn. repeat split.
    + intros q Hq. apply lookup_insert_ne. congruence.
    + apply lookup_insert_eq.
Qed.

(** X3. [read_file] changes the analyzer in one way only: it caches the
    text it returns.  After any call the cache holds the path exactly when
    the call returned a text; the options, the memoized dependency sets
    and the cached texts of other paths stay as they were. *)
Theorem read_file_caches_only_what_it_returns (p : string) (a : Base.analyzer) :
  let '(r, a') := Base.read_file fs p a in
  Base.options a' = Base.options a
  /\ Base._dependency_cache a' = Base._dependency_cache a
  /\ (forall q, q <> p -> Base._file_cache a' !! q = Base._file_cache a !! q)
  /\ Base._file_cache a' !! p = match r with inr (Some text) => Some text | _ => None end.
Proof.
  destruct (Base.read_file fs p a) as [r a'] eqn:H. exact (read_file_frame p a a' r H).
Qed.

(** A text that was read is served from the cache afterwards. *)
Lemma read_file_again (fs' : filesystem) (p text : string) (a a' : Base.analyzer) :
  Base.read_file fs p a = (inr (Some text), a') ->
  Base.read_file fs' p a' = (inr (Some text), a').
Proof.
  intros H. apply read_file_cached.
  destruct (read_file_frame p a a' _ H) as (_ & _ & _ & Hp). exact Hp.
Qed.

(** X1. Once [read_file] has returned the text of a file, the same
    analyzer returns that text for the path from then on, whatever
    happens to the file on disk, and is left unchanged by the later
    reads. *)
Theorem read_file_serves_cached_text (fs' : filesystem) (p text : string)
    (a a' : Base.analyzer) :
  Base.read_file fs p a = (inr (Some text), a') ->
  Base.read_file fs' p a' = (inr (Some text), a').
Proof. exact (read_file_again fs' p text a a'). Qed.

(** X4. A path that [validate_file] accepts is on disk and within the
    size limit, so [read_file] on it (when it is not cached yet) neither
    returns [None] nor reports the size: it returns the text and caches
    it, or wraps the error of the read in a [ValueError]. *)
Theorem validated_file_is_read (p : string) (a : Base.analyzer) :
  Base.validate_file fs p a = true ->
  Base._file_cache a !! p = None ->
  exists f,
    fs !! p = Some f
    /\ st_size f <= max_file_size (Base.options a)
    /\ Base.read_file fs p a
       = match read_text f with
         | inr text => (inr (Some text), Base.set_file_cache p text a)
         | inl e => (inl (Py.ValueError ("Failed to read " ++ p ++ ": " ++ e)), a)
         end.
Proof.
  unfold Base.validate_file. intros Hv Hp. rewrite (read_file_uncached fs _ _ Hp).
  destruct (fs !! p) as [f|]; [|discriminate]. exists f.
  destruct (max_file_size (Base.options a) <? st_size f) eqn:Hlt; [discriminate|].
  split; [reflexivity|]. split; [lia|reflexivity].
Qed.

Lemma contains_empty (s : string) : Py.contains s "" = true.
Proof. destruct s; reflexivity. Qed.

(** X5. The ignore patterns are substrings, not globs: a path that
    contains one of them anywhere is rejected by [validate_file], and an
    empty pattern rejects every path. *)
Theorem ignore_patterns_match_substrings (p pattern : string) (patterns : list string)
    (a : Base.analyzer) :
  ignore_patterns (Base.options a) = Some patterns ->
  In pattern patterns ->
  Py.contains p pattern = true \/ pattern = "" ->
  Base.validate_file fs p a = false.
Proof.
  intros Ho Hin Hc. unfold Base.validate_file. rewrite Ho.
  destruct (fs !! p) as [f|]; [|reflexivity].
  destruct (max_file_size (Base.options a) <? st_size f); [reflexivity|].
  destruct patterns as [|x l]; [contradiction|].
  apply negb_false_iff. apply (proj2 (existsb_exists _ (x :: l))).
  exists pattern. split; [exact Hin|].
  destruct Hc as [Hc| ->]; [exact Hc|apply contains_empty].
Qed.

End BaseReading.

Section BaseHashing.

Variable fs : filesystem.
Variable md5_hexdigest : string -> string.

(** X6. The fingerprint of a file is stable for the lifetime of an
    analyzer: once [get_file_hash] has returned a hash for a path, it
    returns the same hash again, even after the file changed on disk or
    was deleted. *)
Theorem get_file_hash_is_stable (fs' : filesystem) (p h : string) (a a' : Base.analyzer) :
  Base.get_file_hash fs md5_hexdigest p a = (inr h, a') ->
  Base.get_file_hash fs' md5_hexdigest p a' = (inr h, a').
Proof.
  unfold Base.get_file_hash, Py.bind.
  destruct (Base.read_file fs p a) as [[e|[text|]] a1] eqn:Hr; try discriminate.
  intros [= <- <-]. rewrite (read_file_again fs fs' _ _ _ _ Hr). reflexivity.
Qed.

(** X7. [get_file_hash] tells a missing file from an empty one: for a
    path that is not on disk it raises [ValueError], and for a zero-byte
    file it returns the digest of the empty text (where [analyze_file]
    raises). *)
Theorem get_file_hash_of_missing_and_empty_files (p : string) (a : Base.analyzer) :
  Props.cache_coherent fs a ->
  0 <= max_file_size (Base.options a) ->
  (fs !! p = None ->
   Base.get_file_hash fs md5_hexdigest p a
   = (inl (Py.ValueError ("Cannot hash nonexistent file: " ++ p)), a))
  /\ (forall f, fs !! p = Some f -> st_size f = 0 -> read_text f = inr "" ->
      exists a', Base.get_file_hash fs md5_hexdigest p a = (inr (md5_hexdigest ""), a')).
Proof.
  intros Hc Hmax. split.
  - intros Hmiss. unfold Base.get_file_hash, Py.bind.
    destruct (Base._file_cache a !! p) as [cached|] eqn:Hp.
    + destruct (Hc _ _ Hp) as (f & Hf & _). congruence.
    + rewrite (read_file_uncached fs _ _ Hp), Hmiss. reflexivity.
  - intros f Hf Hsize Htext.
    destruct (read_file_zero_byte fs p a f Hf Hsize Htext Hmax Hc) as [a' Hread].
    exists a'. unfold Base.get_file_hash, Py.bind. rewrite Hread. reflexivity.
Qed.

End BaseHashing.

Section BaseMetrics.

Lemma filter_split_length {A} (f : A -> bool) (l : list A) :
  (length (List.filter f l) + length (List.filter (fun x => negb (f x)) l))%nat = length l.
Proof. induction l as [|x l IH]; cbn; [reflexivity|]. destruct (f x); cbn; lia. Qed.

Lemma filter_length_le_of_imp {A} (f g : A -> bool) (l : list A) :
  (forall x, f x = true -> g x = true) ->
  (length (List.filter f l) <= length (List.filter g l))%nat.
Proof.
  intros H. induction l as [|x l IH]; cbn; [lia|].
  destruct (f x) eqn:Hf; [rewrite (H x Hf); cbn; lia|]. destruct (g x); cbn; lia.
Qed.

Lemma startswith_truthy (s p : string) :
  Py.truthy p = true -> Py.startswith s p = true -> Py.truthy s = true.
Proof. destruct p; [discriminate|]. destruct s; [discriminate|reflexivity]. Qed.

(** X8. The line counts of [collect_metrics] partition the lines of the
    text by blankness: [total_lines = code_lines + empty_lines].  Comment
    lines are counted among the code lines, so
    [comment_lines <= code_lines]. *)
Theorem collect_metrics_line_counts (text : string) (blks : list CodeBlock) :
  exists total code comment empty : Z,
    Base.collect_metrics text blks !! "total_lines" = Some (MInt total)
    /\ Base.collect_metrics text blks !! "code_lines" = Some (MInt code)
    /\ Base.collect_metrics text blks !! "comment_lines" = Some (MInt comment)
    /\ Base.collect_metrics text blks !! "empty_lines" = Some (MInt empty)
    /\ total = Z.of_nat (length (Py.splitlines text))
    /\ total = code + empty
    /\ 0 <= comment <= code.
Proof.
  unfold Base.collect_metrics. cbv zeta. do 4 eexists.
  split; [apply lookup_insert_eq|].
  split; [rewrite lookup_insert_ne by discriminate; apply lookup_insert_eq|].
  split; [rewrite !lookup_insert_ne by discriminate; apply lookup_insert_eq|].
  split; [rewrite !lookup_insert_ne by discriminate; apply lookup_insert_eq|].
  split; [reflexivity|].
  pose proof (filter_split_length (fun l => Py.truthy (Py.strip l)) (Py.splitlines text)).
  pose proof (filter_length_le_of_imp (fun l => Py.startswith (Py.strip l) "#")
                (fun l => Py.truthy (Py.strip l)) (Py.splitlines text)
                (fun l => startswith_truthy (Py.strip l) "#" eq_refl)).
  lia.
Qed.

End BaseMetrics.

Section BaseResolver.

Variable fs : filesystem.
Variable resolve : string -> string.
Variable analyze_file : string -> Py.M Base.analyzer AnalysisResult.

#[local] Abbreviation resolve_deps := (Base.analyze_dependencies fs resolve analyze_file).

(** A successful resolution at depth 1 or more leaves its result memoized
    for the path. *)
Lemma resolution_is_memoized (n : nat) (p : string) (a a' : Base.analyzer) (s : gset string) :
  Base.analyze_dependencies_nat fs resolve analyze_file (S n) p a = (inr s, a') ->
  Base._dependency_cache a' !! p = Some s.
Proof.
  cbn [Base.analyze_dependencies_nat].
  destruct (Base._dependency_cache a !! p) as [cached|] eqn:Hp.
  - intros [= <- <-]. exact Hp.
  - unfold Py.bind at 1. destruct (analyze_file p a) as [[e|r] a1]; [discriminate|].
    unfold Py.bind at 1.
    destruct (Base.dependencies_loop _ _ _ _ _ a1) as [[e|deps] a2]; [discriminate|].
    cbn. intros [= <- <-]. cbn. apply lookup_insert_eq.
Qed.

(** X10. Resolution is memoized per path: after [analyze_dependencies]
    has returned a set for a path at some depth of 1 or more, every later
    call for the path, at any depth of 1 or more, returns that same set
    without analysing anything, and leaves the analyzer as it is. *)
Theorem analyze_dependencies_repeats_its_answer (p : string) (depth depth' : Z)
    (a a' : Base.analyzer) (s : gset string) :
  1 <= depth -> 1 <= depth' ->
  resolve_deps p depth a = (inr s, a') ->
  resolve_deps p depth' a' = (inr s, a').
Proof.
  intros Hd Hd' H. apply resolve_memoized; [exact Hd'|].
  unfold Base.analyze_dependencies in H.
  destruct (Z.to_nat depth) as [|n] eqn:Hn; [lia|].
  exact (resolution_is_memoized n p a a' s H).
Qed.

(** X9. [clear_caches] undoes the memo: right after it, resolving a path
    at depth 1 analyses the file again and returns exactly its direct
    dependencies, whatever had been memoized; the options are kept, and
    the emptied file cache is coherent with any state of the disk. *)
Theorem clear_caches_resets_resolution (p : string) (a a1 : Base.analyzer)
    (r : AnalysisResult) :
  analyze_file p (Base.clear_caches a) = (inr r, a1) ->
  resolve_deps p 1 (Base.clear_caches a)
  = (inr (list_to_set (Props.direct_dependencies fs resolve r)),
     Base.set_dependency_cache p
       (list_to_set (Props.direct_dependencies fs resolve r)) a1)
  /\ Base.options (Base.clear_caches a) = Base.options a
  /\ Props.cache_coherent fs (Base.clear_caches a).
Proof.
  intros Hr. split; [|split].
  - apply resolve_depth_one; [apply lookup_empty|exact Hr].
  - reflexivity.
  - intros q text H. cbn in H. rewrite lookup_empty in H. discriminate.
Qed.

(** The loop keeps the accumulated set and the memo on disk, when the
    recursive call does. *)
Lemma loop_on_disk (nested : option (string -> Py.M Base.analyzer (gset string)))
    (deps : list Dependency) : forall (acc : gset string) (a a' : Base.analyzer)
    (out : Py.exn + gset string),
  (forall rec, nested = Some rec ->
     forall q b b' o, Props.memo_on_disk fs b -> rec q b = (o, b') ->
       Props.memo_on_disk fs b'
       /\ forall s, o = inr s -> forall x, x ∈ s -> is_Some (fs !! x)) ->
  (forall x, x ∈ acc -> is_Some (fs !! x)) ->
  Props.memo_on_disk fs a ->
  Base.dependencies_loop fs resolve nested deps acc a = (out, a') ->
  Props.memo_on_disk fs a'
  /\ forall s, out = inr s -> forall x, x ∈ s -> is_Some (fs !! x).
Proof.
  induction deps as [|dep rest IH]; intros acc a a' out Hrec Hacc Hm H.
  - cbn in H. injection H as <- <-. split; [exact Hm|]. intros s [= <-]. exact Hacc.
  - destruct (Props.dependency_target fs resolve dep) as [q|] eqn:Hq.
    + rewrite (loop_follow _ _ _ _ _ _ _ _ Hq) in H.
      assert (is_Some (fs !! q)) as Hdisk.
      { unfold Props.dependency_target in Hq.
        destruct (is_local dep && Py.truthy_opt (import_path dep)); [|discriminate].
        cbv zeta in Hq. destruct (bool_decide _) eqn:Hb; [|discriminate].
        injection Hq as <-. exact (bool_decide_eq_true_1 _ Hb). }
      destruct nested as [rec|].
      * unfold Py.bind in H. destruct (rec q a) as [[e|nd] a1] eqn:Hcall.
        -- injection H as <- <-.
           destruct (Hrec rec eq_refl q a a1 _ Hm Hcall) as [Hm1 _].
           split; [exact Hm1|discriminate].
        -- destruct (Hrec rec eq_refl q a a1 _ Hm Hcall) as [Hm1 Hs1].
           apply (IH _ _ _ _ Hrec) with (3 := H); [|exact Hm1].
           intros x Hx. apply elem_of_union in Hx as [Hx|Hx]; [|exact (Hs1 nd eq_refl x Hx)].
           apply elem_of_union in Hx as [Hx|Hx]; [exact (Hacc x Hx)|].
           apply elem_of_singleton in Hx as ->. exact Hdisk.
      * apply (IH _ _ _ _ Hrec) with (3 := H); [|exact Hm].
        intros x Hx. apply elem_of_union in Hx as [Hx|Hx]; [exact (Hacc x Hx)|].
        apply elem_of_singleton in Hx as ->. exact Hdisk.
    + rewrite (loop_skip _ _ _ _ _ _ _ Hq) in H. exact (IH _ _ _ _ Hrec Hacc Hm H).
Qed.

Lemma resolution_on_disk (n : nat) : forall (p : string) (a a' : Base.analyzer)
    (out : Py.exn + gset string),
  Props.leaves_memo analyze_file ->
  Props.memo_on_disk fs a ->
  Base.analyze_dependencies_nat fs resolve analyze_file n p a = (out, a') ->
  Props.memo_on_disk fs a'
  /\ forall s, out = inr s -> forall x, x ∈ s -> is_Some (fs !! x).
Proof.
  induction n as [|n IH]; intros p a a' out Hleaves Hm H.
  - cbn in H. injection H as <- <-. split; [exact Hm|].
    intros s [= <-] x Hx. exfalso. exact (not_elem_of_empty x Hx).
  - cbn [Base.analyze_dependencies_nat] in H.
    destruct (Base._dependency_cache a !! p) as [cached|] eqn:Hp.
    + injection H as <- <-. split; [exact Hm|]. intros s [= <-] x Hx. exact (Hm _ _ _ Hp Hx).
    + unfold Py.bind at 1 in H. destruct (analyze_file p a) as [[e|r] a1] eqn:Hr.
      * injection H as <- <-. split; [|discriminate].
        intros q s x. rewrite (Hleaves _ _ _ _ Hr). apply Hm.
      * unfold Py.bind at 1 in H.
        destruct (Base.dependencies_loop fs resolve _ (dependencies r) ∅ a1)
          as [[e|deps] a2] eqn:Hloop.
        -- injection H as <- <-.
           eapply loop_on_disk in Hloop as [Hm2 _]; [split; [exact Hm2|discriminate]| | |].
           ++ intros rec Hrec q b b' o Hb Hcall. destruct n; [discriminate|].
              injection Hrec as <-. exact (IH _ _ _ _ Hleaves Hb Hcall).
           ++ intros x Hx. exfalso. exact (not_elem_of_empty x Hx).
           ++ intros q s x. rewrite (Hleaves _ _ _ _ Hr). apply Hm.
        -- cbn in H. injection H as <- <-.
           eapply loop_on_disk in Hloop as [Hm2 Hs2].
           ++ split; [|intros s [= <-]; exact (Hs2 deps eq_refl)].
              intros q s x. cbn. destruct (decide (p = q)) as [->|Hne].
              ** rewrite lookup_insert_eq. intros [= <-]. exact (Hs2 deps eq_refl x).
              ** rewrite lookup_insert_ne by exact Hne. apply Hm2.
           ++ intros rec Hrec q b b' o Hb Hcall. destruct n; [discriminate|].
              injection Hrec as <-. exact (IH _ _ _ _ Hleaves Hb Hcall).
           ++ intros x Hx. exfalso. exact (not_elem_of_empty x Hx).
           ++ intros q s x. rewrite (Hleaves _ _ _ _ Hr). apply Hm.
Qed.

(** X11. Every path that [analyze_dependencies] returns is a file on
    disk, at every depth and for every import graph, cycles included,
    and so is every member of every set it memoizes: unresolvable imports
    are dropped silently.  This holds from any analyzer whose memo has the
    property (a new one, or one left by earlier resolutions), for an
    [analyze_file] that leaves the memo alone. *)
Theorem resolved_dependencies_are_on_disk (p : string) (depth : Z)
    (a a' : Base.analyzer) (s : gset string) :
  Props.leaves_memo analyze_file ->
  Props.memo_on_disk fs a ->
  resolve_deps p depth a = (inr s, a') ->
  (forall q, q ∈ s -> is_Some (fs !! q)) /\ Props.memo_on_disk fs a'.
Proof.
  intros Hleaves Hm H.
  destruct (resolution_on_disk _ _ _ _ _ Hleaves Hm H) as [Hm' Hs].
  split; [exact (Hs s eq_refl)|exact Hm'].
Qed.

End BaseResolver.

(* ===================================================================== *)
(** * Further properties of the Python analyzer *)
(* ===================================================================== *)

Section PythonFrame.

Variable fs : filesystem.
Variable ast_parse : string -> Py.exn + Ast.mod_.
Variable cleandoc : string -> string.
Variable max_str_digits : Z.

#[local] Abbreviation py_analyze_file := (Python.analyze_file fs ast_parse cleandoc max_str_digits).

(** [analyze_file] changes the analyzer as its call of [read_file] does. *)
Lemma python_analyze_file_state (p : string) (a a' : Base.analyzer)
    (out : Py.exn + AnalysisResult) :
  py_analyze_file p a = (out, a') ->
  exists r, Base.read_file fs p a = (r, a').
Proof.
  unfold Python.analyze_file, Py.bind.
  destruct (Base.read_file fs p a) as [[e|text] a1]; [intros [= <- <-]; eauto|].
  destruct (negb (Py.truthy_opt text)); [intros [= <- <-]; eauto|].
  destruct (ast_parse (default "" text)) as [[]|tree];
    try (intros [= <- <-]; eauto).
  destruct (Python.analyze_tree cleandoc max_str_digits p (default "" text) (Ast.NMod tree));
    intros [= <- <-]; eauto.
Qed.

Lemma python_leaves_memo : Props.leaves_memo py_analyze_file.
Proof.
  intros p a r a' H. destruct (python_analyze_file_state p a a' r H) as [rr Hr].
  destruct (read_file_frame fs p a a' rr Hr) as (_ & Hm & _). exact Hm.
Qed.

End PythonFrame.

(* ===================================================================== *)
(** * Cycles of imports and the recursion limit *)
(* ===================================================================== *)

Section Frames.

Variable fs : filesystem.
Variable resolve : string -> string.
Variable analyze_file : string -> Py.M Base.analyzer AnalysisResult.

#[local] Abbreviation loop := (Base.dependencies_loop fs resolve).
#[local] Abbreviation run := (Base.analyze_dependencies_nat fs resolve analyze_file).
#[local] Abbreviation run_within := (Base.analyze_dependencies_frames fs resolve analyze_file).

(** The loop under the limit does what the loop does, or stops on the
    [RecursionError] of a recursive call. *)
Lemma loop_simulates (overflows : Prop)
    (nested limited : option (string -> Py.M Base.analyzer (gset string)))
    (deps : list Dependency) : forall (acc : gset string) (a a' : Base.analyzer)
    (out : Py.exn + gset string),
  match limited, nested with
  | Some rec', Some rec =>
      forall q b o b', rec' q b = (o, b') ->
        rec q b = (o, b') \/ (o = inl Base.recursion_error /\ overflows)
  | None, None => True
  | _, _ => False
  end ->
  loop limited deps acc a = (out, a') ->
  loop nested deps acc a = (out, a') \/ (out = inl Base.recursion_error /\ overflows).
Proof.
  induction deps as [|dep rest IH]; intros acc a a' out Hrec H; [left; exact H|].
  destruct (Props.dependency_target fs resolve dep) as [q|] eqn:Hq.
  - rewrite (loop_follow fs resolve limited _ _ _ _ _ Hq) in H.
    rewrite (loop_follow fs resolve nested _ _ _ _ _ Hq).
    destruct limited as [rec'|], nested as [rec|]; try contradiction.
    + unfold Py.bind in *. destruct (rec' q a) as [[e|nd] a1] eqn:Hcall.
      * injection H as <- <-. destruct (Hrec _ _ _ _ Hcall) as [Hu|Ho].
        -- left. rewrite Hu. reflexivity.
        -- right. destruct Ho as [[= ->] Ho]. auto.
      * destruct (Hrec _ _ _ _ Hcall) as [Hu|[Ho _]]; [|discriminate].
        rewrite Hu. exact (IH _ _ _ _ Hrec H).
    + exact (IH _ _ _ _ Hrec H).
  - rewrite (loop_skip fs resolve limited _ _ _ _ Hq) in H.
    rewrite (loop_skip fs resolve nested _ _ _ _ Hq). exact (IH _ _ _ _ Hrec H).
Qed.

(** A call under the limit does what the call does, or raises the
    [RecursionError] of a [depth] that the stack does not hold. *)
Lemma within_frames_simulates (n : nat) : forall (frames : nat) (p : string)
    (a a' : Base.analyzer) (out : Py.exn + gset string),
  run_within n frames p a = (out, a') ->
  run n p a = (out, a') \/ (out = inl Base.recursion_error /\ (S frames < n)%nat).
Proof.
  induction n as [|n IH]; intros frames p a a' out H; [left; exact H|].
  cbn [Base.analyze_dependencies_frames Base.analyze_dependencies_nat] in *.
  destruct (Base._dependency_cache a !! p); [left; exact H|].
  unfold Py.bind at 1 in H. unfold Py.bind at 1.
  destruct (analyze_file p a) as [[e|r] a1]; [left; exact H|].
  unfold Py.bind at 1 in H. unfold Py.bind at 1.
  destruct (loop _ (dependencies r) ∅ a1) as [[e|deps] a2] eqn:Hloop in H.
  - injection H as <- <-.
    apply (loop_simulates (S frames < S n)%nat
             match n with O => None | S _ => Some (run n) end) in Hloop
      as [Hu|Ho]; [rewrite Hu; left; reflexivity|right; exact Ho|].
    destruct n as [|n]; [exact I|]. intros q b o b' Hcall.
    destruct frames as [|frames].
    + injection Hcall as <- <-. right. split; [reflexivity|lia].
    + destruct (IH _ _ _ _ _ Hcall) as [Hu|[Ho Hlt]]; [left; exact Hu|right].
      split; [exact Ho|lia].
  - apply (loop_simulates (S frames < S n)%nat
             match n with O => None | S _ => Some (run n) end) in Hloop
      as [Hu|[Ho _]]; [rewrite Hu; left; exact H|discriminate|].
    destruct n as [|n]; [exact I|]. intros q b o b' Hcall.
    destruct frames as [|frames].
    + injection Hcall as <- <-. right. split; [reflexivity|lia].
    + destruct (IH _ _ _ _ _ Hcall) as [Hu|[Ho Hlt]]; [left; exact Hu|right].
      split; [exact Ho|lia].
Qed.

(** The recursion nests at most [depth] calls: on a stack that holds them
    the limit plays no part. *)
Lemma within_frames_enough (n frames : nat) (p : string) (a : Base.analyzer) :
  (n <= S frames)%nat -> run_within n frames p a = run n p a.
Proof.
  intros Hn. destruct (run_within n frames p a) as [out a'] eqn:H.
  destruct (within_frames_simulates _ _ _ _ _ _ H) as [Hu|[_ Hlt]]; [|lia].
  symmetry. exact Hu.
Qed.

(** The only exceptions of the loop are those of the recursive calls. *)
Lemma loop_raises (nested : option (string -> Py.M Base.analyzer (gset string)))
    (deps : list Dependency) : forall (acc : gset string) (a a' : Base.analyzer)
    (e : Py.exn),
  loop nested deps acc a = (inl e, a') ->
  exists rec q b b', nested = Some rec /\ rec q b = (inl e, b').
Proof.
  induction deps as [|dep rest IH]; intros acc a a' e H; [discriminate|].
  destruct (Props.dependency_target fs resolve dep) as [q|] eqn:Hq.
  - rewrite (loop_follow _ _ _ _ _ _ _ _ Hq) in H. destruct nested as [rec|].
    + unfold Py.bind in H. destruct (rec q a) as [[e0|nd] a1] eqn:Hcall.
      * injection H as <- <-. eauto 6.
      * exact (IH _ _ _ _ H).
    + exact (IH _ _ _ _ H).
  - rewrite (loop_skip _ _ _ _ _ _ _ Hq) in H. exact (IH _ _ _ _ H).
Qed.

(** The only exceptions of the resolution are those of [analyze_file]. *)
Lemma resolution_raises (n : nat) : forall (p : string) (a a' : Base.analyzer)
    (e : Py.exn),
  run n p a = (inl e, a') -> exists q b b', analyze_file q b = (inl e, b').
Proof.
  induction n as [|n IH]; intros p a a' e H; [discriminate|].
  cbn [Base.analyze_dependencies_nat] in H.
  destruct (Base._dependency_cache a !! p); [discriminate|].
  unfold Py.bind at 1 in H.
  destruct (analyze_file p a) as [[e0|r] a1] eqn:Hr; [injection H as <- <-; eauto|].
  unfold Py.bind at 1 in H.
  destruct (loop _ (dependencies r) ∅ a1) as [[e0|deps] a2] eqn:Hloop; [|discriminate].
  injection H as <- <-.
  destruct (loop_raises _ _ _ _ _ _ Hloop) as (rec & q & b & b' & Hrec & Hcall).
  destruct n as [|n]; [discriminate|]. injection Hrec as <-. exact (IH _ _ _ _ Hcall).
Qed.

End Frames.

Section CycleInGraph.

Variable fs : filesystem.
Variable resolve : string -> string.
Variable analyze_file : string -> Py.M Base.analyzer AnalysisResult.
Variable Inv : Base.analyzer -> Prop.
Variable A B : string.

Hypothesis Inv_kept : Props.keeps analyze_file Inv.
Hypothesis memo_left : Props.leaves_memo analyze_file.
Hypothesis Inv_memo : forall a k v, Inv a -> Inv (Base.set_dependency_cache k v a).
Hypothesis A_imports_B : Props.imports fs resolve analyze_file Inv A B.
Hypothesis B_imports_A : Props.imports fs resolve analyze_file Inv B A.

#[local] Abbreviation loop := (Base.dependencies_loop fs resolve).
#[local] Abbreviation run := (Base.analyze_dependencies_nat fs resolve analyze_file).
#[local] Abbreviation target := (Props.dependency_target fs resolve).

(** The memo agrees with the cycle: a set memoized for one of the two
    files holds the other. *)
#[local] Abbreviation linked a := (Props.memo_links A B a /\ Props.memo_links B A a).

(** A set returned for one of the two files holds the other. *)
#[local] Abbreviation closes q o :=
  (forall s : gset string, o = inr s -> (q = A -> B ∈ s) /\ (q = B -> A ∈ s)).

Lemma cycle_loop (nested : option (string -> Py.M Base.analyzer (gset string)))
    (deps : list Dependency) : forall (acc : gset string) (a a' : Base.analyzer)
    (out : Py.exn + gset string),
  (forall rec, nested = Some rec ->
     forall q b o b', Inv b -> linked b -> rec q b = (o, b') ->
       Inv b' /\ linked b' /\ closes q o) ->
  Inv a -> linked a ->
  loop nested deps acc a = (out, a') ->
  Inv a' /\ linked a'
  /\ forall s, out = inr s ->
       acc ⊆ s
       /\ forall q, q ∈ omap target deps ->
            q ∈ s /\ (is_Some nested -> (q = A -> B ∈ s) /\ (q = B -> A ∈ s)).
Proof.
  induction deps as [|dep rest IH]; intros acc a a' out Hrec Ha Hl H.
  - cbn in H. injection H as <- <-. split; [exact Ha|]. split; [exact Hl|].
    intros s [= <-]. split; [reflexivity|]. intros q Hq. cbn in Hq.
    apply elem_of_nil in Hq. contradiction.
  - cbn [omap list_omap]. destruct (target dep) as [q|] eqn:Hq.
    + rewrite (loop_follow _ _ _ _ _ _ _ _ Hq) in H. destruct nested as [rec|].
      * unfold Py.bind in H. destruct (rec q a) as [[e|nd] a1] eqn:Hcall.
        -- injection H as <- <-.
           destruct (Hrec rec eq_refl _ _ _ _ Ha Hl Hcall) as (Ha1 & Hl1 & _).
           split; [exact Ha1|]. split; [exact Hl1|]. discriminate.
        -- destruct (Hrec rec eq_refl _ _ _ _ Ha Hl Hcall) as (Ha1 & Hl1 & Hc).
           destruct (IH _ _ _ _ Hrec Ha1 Hl1 H) as (Ha' & Hl' & Hs).
           split; [exact Ha'|]. split; [exact Hl'|].
           intros s Hout. destruct (Hs s Hout) as [Hacc Hrest].
           destruct (Hc nd eq_refl) as [HcA HcB].
           split; [clear - Hacc; set_solver|]. intros q' Hq'.
           apply elem_of_cons in Hq' as [->|Hq']; [|exact (Hrest q' Hq')].
           split; [clear - Hacc; set_solver|]. intros _.
           split; intros Heq; [apply HcA in Heq|apply HcB in Heq];
             clear - Hacc Heq; set_solver.
      * destruct (IH _ _ _ _ Hrec Ha Hl H) as (Ha' & Hl' & Hs).
        split; [exact Ha'|]. split; [exact Hl'|].
        intros s Hout. destruct (Hs s Hout) as [Hacc Hrest].
        split; [clear - Hacc; set_solver|]. intros q' Hq'.
        apply elem_of_cons in Hq' as [->|Hq']; [|exact (Hrest q' Hq')].
        split; [clear - Hacc; set_solver|]. intros [? [=]].
    + rewrite (loop_skip _ _ _ _ _ _ _ Hq) in H. exact (IH _ _ _ _ Hrec Ha Hl H).
Qed.

Lemma cycle_resolution (n : nat) : forall (p : string) (a a' : Base.analyzer)
    (out : Py.exn + gset string),
  Inv a -> linked a -> run n p a = (out, a') ->
  Inv a' /\ linked a' /\ ((1 <= n)%nat -> closes p out).
Proof.
  induction n as [|n IH]; intros p a a' out Ha Hl H.
  - cbn in H. injection H as <- <-. split; [exact Ha|]. split; [exact Hl|]. lia.
  - cbn [Base.analyze_dependencies_nat] in H.
    destruct (Base._dependency_cache a !! p) as [cached|] eqn:Hp.
    + injection H as <- <-. split; [exact Ha|]. split; [exact Hl|].
      intros _ s [= <-]. destruct Hl as [HlA HlB].
      split; intros ->; [exact (HlA _ Hp)|exact (HlB _ Hp)].
    + unfold Py.bind at 1 in H. destruct (analyze_file p a) as [[e|r] a1] eqn:Hr.
      * injection H as <- <-. split; [exact (Inv_kept _ _ _ _ Ha Hr)|].
        split; [|discriminate]. unfold Props.memo_links.
        rewrite (memo_left _ _ _ _ Hr). exact Hl.
      * assert (Inv a1) as Ha1 by exact (Inv_kept _ _ _ _ Ha Hr).
        assert (linked a1) as Hl1
          by (unfold Props.memo_links; rewrite (memo_left _ _ _ _ Hr); exact Hl).
        unfold Py.bind at 1 in H.
        destruct (loop _ (dependencies r) ∅ a1) as [[e|deps] a2] eqn:Hloop.
        -- injection H as <- <-.
           apply cycle_loop in Hloop as (Ha2 & Hl2 & _); [auto using conj|..]; try assumption.
           { split; [exact Ha2|]. split; [exact Hl2|]. discriminate. }
           intros rec Hrec q b o b' Hb Hlb Hcall. destruct n as [|n]; [discriminate|].
           injection Hrec as <-. destruct (IH _ _ _ _ Hb Hlb Hcall) as (H1 & H2 & H3).
           split; [exact H1|]. split; [exact H2|]. apply H3. lia.
        -- cbn in H. injection H as <- <-.
           apply cycle_loop in Hloop as (Ha2 & Hl2 & Hs); try assumption.
           2:{ intros rec Hrec q b o b' Hb Hlb Hcall. destruct n as [|n]; [discriminate|].
               injection Hrec as <-. destruct (IH _ _ _ _ Hb Hlb Hcall) as (H1 & H2 & H3).
               split; [exact H1|]. split; [exact H2|]. apply H3. lia. }
           destruct (Hs deps eq_refl) as [_ Htargets].
           assert ((p = A -> B ∈ deps) /\ (p = B -> A ∈ deps)) as [HpA HpB].
           { split; intros ->.
             - apply Htargets. exact (A_imports_B _ _ _ Ha Hr).
             - apply Htargets. exact (B_imports_A _ _ _ Ha Hr). }
           split; [apply Inv_memo, Ha2|]. split.
           ++ destruct Hl2 as [HlA HlB]. split; intros s; cbn.
              ** destruct (decide (p = A)) as [->|Hne].
                 --- rewrite lookup_insert_eq. intros [= <-]. apply HpA. reflexivity.
                 --- rewrite lookup_insert_ne by exact Hne. apply HlA.
              ** destruct (decide (p = B)) as [->|Hne].
                 --- rewrite lookup_insert_eq. intros [= <-]. apply HpB. reflexivity.
                 --- rewrite lookup_insert_ne by exact Hne. apply HlB.
           ++ intros _ s [= <-]. split; assumption.
Qed.

(** At depth 2 or more the resolution of [A] comes back to [A]. *)
Lemma cycle_comes_back (n : nat) (a a' : Base.analyzer) (s : gset string) :
  Inv a -> linked a -> Base._dependency_cache a !! A = None ->
  run (S (S n)) A a = (inr s, a') -> A ∈ s /\ B ∈ s.
Proof.
  intros Ha Hl Hp H.
  cbn [Base.analyze_dependencies_nat] in H. rewrite Hp in H.
  unfold Py.bind at 1 in H. destruct (analyze_file A a) as [[e|r] a1] eqn:Hr;
    [discriminate|].
  assert (Inv a1) as Ha1 by exact (Inv_kept _ _ _ _ Ha Hr).
  assert (linked a1) as Hl1
    by (unfold Props.memo_links; rewrite (memo_left _ _ _ _ Hr); exact Hl).
  unfold Py.bind at 1 in H.
  destruct (loop _ (dependencies r) ∅ a1) as [[e|deps] a2] eqn:Hloop; [discriminate|].
  cbn in H. injection H as <- <-.
  apply cycle_loop in Hloop as (_ & _ & Hs); try assumption.
  - destruct (Hs deps eq_refl) as [_ Htargets].
    destruct (Htargets B (A_imports_B _ _ _ Ha Hr)) as [HB Hback].
    split; [|exact HB]. apply Hback; [eexists; reflexivity|reflexivity].
  - intros rec [= <-] q b o b' Hb Hlb Hcall.
    destruct (cycle_resolution (S n) q b b' o Hb Hlb Hcall) as (H1 & H2 & H3).
    split; [exact H1|]. split; [exact H2|]. apply H3. lia.
Qed.

End CycleInGraph.

Section CyclicImports.

Variable fs : filesystem.
Variable resolve : string -> string.
Variable analyze_file : string -> Py.M Base.analyzer AnalysisResult.

(** An invariant of the analyzer, such as the coherence of the file cache
    with the disk. *)
Variable Inv : Base.analyzer -> Prop.


End CyclicImports.

Section PythonSettled.

Variable fs : filesystem.
Variable ast_parse : string -> Py.exn + Ast.mod_.
Variable cleandoc : string -> string.
Variable max_str_digits : Z.

#[local] Abbreviation py_analyze_file :=
  (Python.analyze_file fs ast_parse cleandoc max_str_digits).

(** [analyze_file] keeps the file cache coherent and the options as they
    are, whatever its outcome. *)
Lemma python_keeps_settled : Props.keeps py_analyze_file (Props.settled fs).
Proof.
  intros p a out a' [Hc Ho] H.
  destruct (python_analyze_file_state fs ast_parse cleandoc max_str_digits p a a' out H)
    as [r Hr].
  split; [exact (read_file_coherent fs p a a' r Hc Hr)|].
  destruct (read_file_frame fs p a a' r Hr) as (Ho' & _). congruence.
Qed.

Lemma settled_memo (a : Base.analyzer) (k : string) (v : gset string) :
  Props.settled fs a -> Props.settled fs (Base.set_dependency_cache k v a).
Proof. intros [Hc Ho]. split; [exact Hc|exact Ho]. Qed.

Lemma settled_init : Props.settled fs Base.init.
Proof. split; [apply init_coherent|reflexivity]. Qed.

(** A file of the workspace whose analysis has [q] among the dependencies
    that the resolver follows imports [q]. *)
Lemma python_file_imports (resolve : string -> string) (p q text : string)
    (tree : Ast.mod_) (r : AnalysisResult) :
  fs !! p = Some (mkFile (Py.len text) (inr text)) ->
  Py.len text <= 1024 * 1024 ->
  Py.truthy text = true ->
  ast_parse text = inr tree ->
  Python.analyze_tree cleandoc max_str_digits p text (Ast.NMod tree) = inr r ->
  q ∈ Props.direct_dependencies fs resolve r ->
  Props.imports fs resolve py_analyze_file (Props.settled fs) p q.
Proof.
  intros Hfile Hsize Htext Hparse Htree Hq a r' a' [Hc Ho] Hrun.
  destruct (python_analyze_file_runs fs ast_parse cleandoc max_str_digits p text
              (mkFile (Py.len text) (inr text)) tree r a)
    as (a'' & Hrun' & _); try assumption; try reflexivity.
  { rewrite Ho. exact Hsize. }
  rewrite Hrun' in Hrun. injection Hrun as <- _. exact Hq.
Qed.

End PythonSettled.

Section PythonRepeat.

Variable ast_parse : string -> Py.exn + Ast.mod_.
Variable cleandoc : string -> string.
Variable max_str_digits : Z.

(** X20. An analyzer analyses each file once: when a call of
    [analyze_file] has cached the text of the path, every later call for
    the path on the same analyzer has the same outcome (the same result or
    the same exception) and changes nothing, even if the file on disk has
    changed or is gone. *)
Theorem analyze_file_is_frozen_by_the_cache (fs fs' : filesystem) (p : string)
    (a a' : Base.analyzer) (out : Py.exn + AnalysisResult) :
  Python.analyze_file fs ast_parse cleandoc max_str_digits p a = (out, a') ->
  is_Some (Base._file_cache a' !! p) ->
  Python.analyze_file fs' ast_parse cleandoc max_str_digits p a' = (out, a').
Proof.
  intros H [cached Hc].
  destruct (python_analyze_file_state fs ast_parse cleandoc max_str_digits p a a' out H) as [r Hr].
  destruct (read_file_frame fs p a a' r Hr) as (_ & _ & _ & Hp).
  rewrite Hc in Hp. destruct r as [e|[text|]]; try discriminate. injection Hp as <-.
  revert H. unfold Python.analyze_file, Py.bind.
  rewrite Hr, (read_file_again fs fs' p cached a a' Hr). exact (fun H => H).
Qed.

End PythonRepeat.

Section Oversized.

Variable fs : filesystem.
Variable resolve : string -> string.
Variable md5_hexdigest : string -> string.
Variable ast_parse : string -> Py.exn + Ast.mod_.
Variable cleandoc : string -> string.
Variable max_str_digits : Z.
Variable _analyze_imports : string -> list React.JSImport.
Variable _analyze_components : string -> Py.exn + list Web.ReactComponent.
Variable _analyze_hooks : string -> Py.exn + list Web.ReactHook.
Variable _analyze_types : string -> Py.exn + list Web.TypeScriptType.
Variable _analyze_styles : string -> gmap string string.

(** X2. A file larger than [max_file_size], even by one byte, fails every
    operation that reads it, before its content is touched: [read_file],
    [get_file_hash], [analyze_file] of both analyzers and
    [analyze_dependencies] all raise the same [ValueError] that names the
    limit, whatever the read itself would have given, and leave the
    analyzer unchanged (nothing is cached, so the check is repeated at
    each call). *)
Theorem oversized_file_fails_every_operation (p : string) (f : file) (a : Base.analyzer)
    (depth : Z) :
  fs !! p = Some f ->
  max_file_size (Base.options a) < st_size f ->
  Base._file_cache a !! p = None ->
  Base._dependency_cache a !! p = None ->
  1 <= depth ->
  let e := Py.ValueError
             ("File " ++ p ++ " exceeds maximum size ("
              ++ Py.str_int (max_file_size (Base.options a)) ++ " bytes)") in
  Base.read_file fs p a = (inl e, a)
  /\ Base.get_file_hash fs md5_hexdigest p a = (inl e, a)
  /\ Python.analyze_file fs ast_parse cleandoc max_str_digits p a = (inl e, a)
  /\ React.analyze_file fs _analyze_imports _analyze_components _analyze_hooks
       _analyze_types _analyze_styles p a = (inl e, a)
  /\ Base.analyze_dependencies fs resolve (Python.analyze_file fs ast_parse cleandoc max_str_digits)
       p depth a = (inl e, a).
Proof.
  intros Hf Hsize Hp Hm Hd e.
  assert (Base.read_file fs p a = (inl e, a)) as Hread.
  { rewrite (read_file_uncached fs _ _ Hp), Hf.
    destruct (max_file_size (Base.options a) <? st_size f) eqn:Hlt; [reflexivity|lia]. }
  assert (Python.analyze_file fs ast_parse cleandoc max_str_digits p a = (inl e, a)) as Hpy
    by (unfold Python.analyze_file, Py.bind; rewrite Hread; reflexivity).
  repeat split.
  - exact Hread.
  - unfold Base.get_file_hash, Py.bind. rewrite Hread. reflexivity.
  - exact Hpy.
  - unfold React.analyze_file, Py.bind. rewrite Hread. reflexivity.
  - apply resolve_raises; assumption.
Qed.

End Oversized.



Section WalkClosure.

Lemma walk_todo_visits (fuel : nat) : forall (todo : list Ast.node) (n : Ast.node),
  (Ast.queue_size todo <= fuel)%nat -> In n todo -> In n (Ast.walk_todo fuel todo).
Proof.
  induction fuel as [|fuel IH]; intros [|n0 todo] n Hsize Hin; try contradiction.
  - rewrite queue_size_cons in Hsize. pose proof (node_size_pos n0). lia.
  - cbn. destruct Hin as [->|Hin]; [left; reflexivity|]. right.
    apply IH; [|apply in_or_app; left; exact Hin].
    rewrite queue_size_cons in Hsize. rewrite queue_size_app.
    pose proof (node_size_children n0). lia.
Qed.

Lemma walk_todo_children (fuel : nat) : forall (todo : list Ast.node) (n c : Ast.node),
  (Ast.queue_size todo <= fuel)%nat -> In n (Ast.walk_todo fuel todo) ->
  In c (Ast.iter_child_nodes n) -> In c (Ast.walk_todo fuel todo).
Proof.
  induction fuel as [|fuel IH]; intros [|n0 todo] n c Hsize Hin Hc; try contradiction.
  assert (Ast.queue_size (todo ++ Ast.iter_child_nodes n0) <= fuel)%nat as Hnext.
  { rewrite queue_size_cons in Hsize. rewrite queue_size_app.
    pose proof (node_size_children n0). lia. }
  cbn in *. right. destruct Hin as [->|Hin].
  - apply walk_todo_visits; [exact Hnext|]. apply in_or_app. right. exact Hc.
  - exact (IH _ n c Hnext Hin Hc).
Qed.

(** [ast.walk] yields every child of a node it yields. *)
Lemma walk_children (tree n c : Ast.node) :
  In n (Ast.walk tree) -> In c (Ast.iter_child_nodes n) -> In c (Ast.walk tree).
Proof.
  apply walk_todo_children. rewrite queue_size_cons, queue_size_nil. lia.
Qed.

End WalkClosure.

Section PythonStructure.

Variable cleandoc : string -> string.
Variable max_str_digits : Z.

Lemma functions_loop_complete (nodes : list Ast.node) : forall (s : Ast.stmt)
    (f : Python.PythonFunction) (found : list Python.PythonFunction),
  In (Ast.NStmt s) nodes -> Python.function_details cleandoc max_str_digits s = Some (inr f) ->
  Python.functions_loop cleandoc max_str_digits nodes = inr found -> In f found.
Proof.
  induction nodes as [|n nodes IH]; intros s f found Hin Hs Hloop; [contradiction|].
  destruct Hin as [->|Hin].
  - cbn in Hloop. rewrite Hs in Hloop.
    destruct (Python.functions_loop cleandoc max_str_digits nodes); [discriminate|].
    injection Hloop as <-. left. reflexivity.
  - destruct n; cbn in Hloop; try exact (IH _ _ _ Hin Hs Hloop).
    destruct (Python.function_details cleandoc max_str_digits s0) as [[e|f0]|];
      [discriminate| |exact (IH _ _ _ Hin Hs Hloop)].
    destruct (Python.functions_loop cleandoc max_str_digits nodes) as [e|found0] eqn:Hrest;
      [discriminate|].
    injection Hloop as <-. right. exact (IH _ _ _ Hin Hs eq_refl).
Qed.

Lemma methods_loop_sound (body : list Ast.stmt) : forall (methods : list Python.PythonFunction)
    (m : Python.PythonFunction),
  Python.methods_loop cleandoc max_str_digits body = inr methods -> In m methods ->
  exists s, In s body /\ Python.function_details cleandoc max_str_digits s = Some (inr m).
Proof.
  induction body as [|s body IH]; intros methods m Hloop Hin; cbn in Hloop.
  - injection Hloop as <-. contradiction.
  - destruct (Python.function_details cleandoc max_str_digits s) as [[e|f]|] eqn:Hs; [discriminate| |].
    + destruct (Python.methods_loop cleandoc max_str_digits body) as [e|rest]; [discriminate|].
      injection Hloop as <-. destruct Hin as [<-|Hin].
      * exists s. split; [left; reflexivity|exact Hs].
      * destruct (IH _ _ eq_refl Hin) as (s' & Hs' & Hd). exists s'. split; [right|]; assumption.
    + destruct (IH _ _ Hloop Hin) as (s' & Hs' & Hd). exists s'. split; [right|]; assumption.
Qed.

Lemma classes_loop_sound (nodes : list Ast.node) : forall (classes : list Python.PythonClass)
    (c : Python.PythonClass),
  Python.classes_loop cleandoc max_str_digits nodes = inr classes -> In c classes ->
  exists s, In (Ast.NStmt s) nodes /\ Python.class_details cleandoc max_str_digits s = Some (inr c).
Proof.
  induction nodes as [|n nodes IH]; intros classes c Hloop Hin; cbn in Hloop.
  - injection Hloop as <-. contradiction.
  - assert (forall s, In (Ast.NStmt s) nodes -> In (Ast.NStmt s) (n :: nodes)) as Hright
      by (intros; right; assumption).
    destruct n; try (destruct (IH _ _ Hloop Hin) as (s' & Hs' & Hd); eauto; fail).
    destruct (Python.class_details cleandoc max_str_digits s) as [[e|c0]|] eqn:Hs; [discriminate| |].
    + destruct (Python.classes_loop cleandoc max_str_digits nodes) as [e|rest]; [discriminate|].
      injection Hloop as <-. destruct Hin as [<-|Hin].
      * exists s. split; [left; reflexivity|exact Hs].
      * destruct (IH _ _ eq_refl Hin) as (s' & Hs' & Hd); eauto.
    + destruct (IH _ _ Hloop Hin) as (s' & Hs' & Hd); eauto.
Qed.

(** X12. Every method that [_analyze_classes] lists under a class is
    also in the list of [_analyze_functions]: [ast.walk] visits the body
    of every class it visits, so the functions of a file include the
    methods of its classes. *)
Theorem methods_are_also_functions (tree : Ast.node)
    (functions : list Python.PythonFunction) (classes : list Python.PythonClass)
    (c : Python.PythonClass) (m : Python.PythonFunction) :
  Python._analyze_functions cleandoc max_str_digits tree = inr functions ->
  Python._analyze_classes cleandoc max_str_digits tree = inr classes ->
  In c classes -> In m (Python.cls_methods c) -> In m functions.
Proof.
  unfold Python._analyze_functions, Python._analyze_classes.
  intros Hf Hc Hclass Hm.
  destruct (classes_loop_sound _ _ _ Hc Hclass) as (s & Hs & Hd).
  destruct s; try discriminate. cbn in Hd.
  destruct (Python.comprehension Python._get_base_name bases); [discriminate|].
  destruct (Python.methods_loop cleandoc max_str_digits body) as [e|methods] eqn:Hmethods; [discriminate|].
  destruct (Python.comprehension Python._get_decorator_name decorator_list);
    [discriminate|].
  injection Hd as <-. cbn in Hm.
  destruct (methods_loop_sound _ _ _ Hmethods Hm) as (child & Hchild & Hdetails).
  apply (functions_loop_complete (Ast.walk tree) child m functions); [|exact Hdetails|exact Hf].
  apply (walk_children tree _ _ Hs). cbn.
  apply in_or_app. right. apply in_or_app. right. apply in_or_app. left.
  apply in_map. exact Hchild.
Qed.

End PythonStructure.

Section PythonExceptions.

Variable cleandoc : string -> string.
Variable max_str_digits : Z.

(** What the analysis of a parsed tree can raise: an [AttributeError], or
    the [ValueError] of the digit limit. *)
#[local] Abbreviation known_error out :=
  (match out with
   | inl e => Props.is_AttributeError e = true \/ e = Py.digit_limit_error max_str_digits
   | inr _ => True
   end).

#[local] Abbreviation attribute_error out :=
  (match out with inl e => Props.is_AttributeError e = true | inr _ => True end).

Lemma attr_id_error (e : Ast.expr) : attribute_error (Python.attr_id e).
Proof. destruct e; cbn; auto. Qed.

Lemma get_base_name_error (e : Ast.expr) : attribute_error (Python._get_base_name e).
Proof.
  destruct e; cbn; auto. pose proof (attr_id_error e) as H.
  destruct (Python.attr_id e); cbn in *; auto.
Qed.

Lemma get_decorator_name_error (e : Ast.expr) :
  attribute_error (Python._get_decorator_name e).
Proof.
  destruct e as [| | | | | | |func| | | |]; cbn; auto.
  destruct func as [| | | | | | | | |value| |]; cbn; auto.
  pose proof (attr_id_error value) as H. destruct (Python.attr_id value); cbn in *; auto.
Qed.

Lemma get_return_annotation_error (returns : option Ast.expr) :
  match Python._get_return_annotation max_str_digits returns with
  | inl e => e = Py.digit_limit_error max_str_digits
  | inr _ => True
  end.
Proof.
  destruct returns as [[]|]; cbn; auto.
  destruct value as [|[]| | |]; cbn; auto.
  unfold Py.str_int_limited. destruct (_ && _); cbn; auto.
Qed.

Lemma comprehension_error {A B} (f : A -> Py.exn + B) (l : list A) :
  (forall x, attribute_error (f x)) -> attribute_error (Python.comprehension f l).
Proof.
  intros Hf. induction l as [|x l IH]; cbn; [exact I|].
  pose proof (Hf x) as Hx. destruct (f x); [exact Hx|].
  destruct (Python.comprehension f l); [exact IH|exact I].
Qed.

Lemma comprehension_fails {A B} (f : A -> Py.exn + B) (l : list A) (x : A) (e : Py.exn) :
  In x l -> f x = inl e -> exists e', Python.comprehension f l = inl e'.
Proof.
  intros Hin Hx. induction l as [|y l IH]; [contradiction|]. cbn.
  destruct Hin as [->|Hin]; [rewrite Hx; eauto|].
  destruct (f y); [eauto|]. destruct (IH Hin) as [e' ->]. eauto.
Qed.

Lemma function_details_error (s : Ast.stmt) :
  match Python.function_details cleandoc max_str_digits s with
  | Some out => known_error out
  | None => True
  end.
Proof.
  destruct s; cbn [Python.function_details]; auto;
    pose proof (get_return_annotation_error returns) as Hr;
    destruct (Python._get_return_annotation max_str_digits returns); auto;
    pose proof (comprehension_error _ decorator_list get_decorator_name_error) as H;
    destruct (Python.comprehension Python._get_decorator_name decorator_list); auto.
Qed.

Lemma functions_loop_error (l : list Ast.node) :
  known_error (Python.functions_loop cleandoc max_str_digits l).
Proof.
  induction l as [|n l IH]; cbn; [exact I|].
  destruct n; try exact IH.
  pose proof (function_details_error s) as H.
  destruct (Python.function_details cleandoc max_str_digits s) as [[e|f]|];
    [exact H| |exact IH].
  destruct (Python.functions_loop cleandoc max_str_digits l); [exact IH|exact I].
Qed.

(** When the loop of [_analyze_functions] returns, no function definition
    among the nodes fails. *)
Lemma functions_loop_returns (l : list Ast.node) (found : list Python.PythonFunction)
    (s : Ast.stmt) (e : Py.exn) :
  Python.functions_loop cleandoc max_str_digits l = inr found ->
  In (Ast.NStmt s) l ->
  Python.function_details cleandoc max_str_digits s <> Some (inl e).
Proof.
  revert found. induction l as [|n l IH]; intros found Hloop Hin; [contradiction|].
  cbn in Hloop. destruct Hin as [->|Hin].
  - destruct (Python.function_details cleandoc max_str_digits s) as [[e0|f]|];
      [discriminate|discriminate|discriminate].
  - destruct n; try exact (IH _ Hloop Hin).
    destruct (Python.function_details cleandoc max_str_digits s0) as [[e0|f]|];
      [discriminate| |exact (IH _ Hloop Hin)].
    destruct (Python.functions_loop cleandoc max_str_digits l) as [e0|rest];
      [discriminate|]. exact (IH _ eq_refl Hin).
Qed.

Lemma methods_loop_error (l : list Ast.stmt) :
  known_error (Python.methods_loop cleandoc max_str_digits l).
Proof.
  induction l as [|s l IH]; cbn; [exact I|].
  pose proof (function_details_error s) as H.
  destruct (Python.function_details cleandoc max_str_digits s) as [[e|f]|];
    [exact H| |exact IH].
  destruct (Python.methods_loop cleandoc max_str_digits l); [exact IH|exact I].
Qed.

(** The loop over the body of a class returns when none of its function
    definitions fails. *)
Lemma methods_loop_returns (body : list Ast.stmt) :
  (forall child e, In child body ->
     Python.function_details cleandoc max_str_digits child <> Some (inl e)) ->
  exists methods, Python.methods_loop cleandoc max_str_digits body = inr methods.
Proof.
  induction body as [|s body IH]; intros Hok; cbn; [eauto|].
  destruct IH as [methods Hm]; [intros child e Hin; apply Hok; right; exact Hin|].
  destruct (Python.function_details cleandoc max_str_digits s) as [[e|f]|] eqn:Hs.
  - exfalso. exact (Hok s e (or_introl eq_refl) Hs).
  - rewrite Hm. eauto.
  - eauto.
Qed.

Lemma class_details_error (s : Ast.stmt) :
  match Python.class_details cleandoc max_str_digits s with
  | Some out => known_error out
  | None => True
  end.
Proof.
  destruct s; cbn; auto.
  pose proof (comprehension_error _ bases get_base_name_error) as Hb.
  destruct (Python.comprehension Python._get_base_name bases); [auto|].
  pose proof (methods_loop_error body) as Hm.
  destruct (Python.methods_loop cleandoc max_str_digits body); [exact Hm|].
  pose proof (comprehension_error _ decorator_list get_decorator_name_error) as Hd.
  destruct (Python.comprehension Python._get_decorator_name decorator_list); auto.
Qed.

(** A class whose methods do not fail can only fail with an
    [AttributeError], of a base or of a decorator. *)
Lemma class_details_attribute_error (s : Ast.stmt) :
  (forall lineno name bases keywords body decorator_list child e,
     s = Ast.ClassDef lineno name bases keywords body decorator_list ->
     In child body ->
     Python.function_details cleandoc max_str_digits child <> Some (inl e)) ->
  match Python.class_details cleandoc max_str_digits s with
  | Some out => attribute_error out
  | None => True
  end.
Proof.
  intros Hok. destruct s; cbn; auto.
  pose proof (comprehension_error _ bases get_base_name_error) as Hb.
  destruct (Python.comprehension Python._get_base_name bases); [auto|].
  destruct (methods_loop_returns body) as [methods ->];
    [intros child e Hin; exact (Hok _ _ _ _ _ _ child e eq_refl Hin)|].
  pose proof (comprehension_error _ decorator_list get_decorator_name_error) as Hd.
  destruct (Python.comprehension Python._get_decorator_name decorator_list); auto.
Qed.

Lemma classes_loop_error (l : list Ast.node) :
  known_error (Python.classes_loop cleandoc max_str_digits l).
Proof.
  induction l as [|n l IH]; cbn; [exact I|].
  destruct n; try exact IH.
  pose proof (class_details_error s) as H.
  destruct (Python.class_details cleandoc max_str_digits s) as [[e|c]|];
    [exact H| |exact IH].
  destruct (Python.classes_loop cleandoc max_str_digits l); [exact IH|exact I].
Qed.

Lemma classes_loop_attribute_error (l : list Ast.node) :
  (forall lineno name bases keywords body decorator_list child e,
     In (Ast.NStmt (Ast.ClassDef lineno name bases keywords body decorator_list)) l ->
     In child body ->
     Python.function_details cleandoc max_str_digits child <> Some (inl e)) ->
  attribute_error (Python.classes_loop cleandoc max_str_digits l).
Proof.
  induction l as [|n l IH]; intros Hok; cbn; [exact I|].
  assert (attribute_error (Python.classes_loop cleandoc max_str_digits l)) as Hrest.
  { apply IH. intros ln nm bs ks bd ds child e Hin. apply (Hok ln nm bs ks bd ds child e).
    right. exact Hin. }
  destruct n; try exact Hrest.
  pose proof (class_details_attribute_error s) as H.
  destruct (Python.class_details cleandoc max_str_digits s) as [[e|c]|].
  - apply H. intros ln nm bs ks bd ds child e' ->. apply (Hok ln nm bs ks bd ds child e').
    left. reflexivity.
  - destruct (Python.classes_loop cleandoc max_str_digits l); [exact Hrest|exact I].
  - exact Hrest.
Qed.

Lemma classes_loop_fails (l : list Ast.node) (s : Ast.stmt) (e : Py.exn) :
  In (Ast.NStmt s) l -> Python.class_details cleandoc max_str_digits s = Some (inl e) ->
  exists e', Python.classes_loop cleandoc max_str_digits l = inl e'.
Proof.
  intros Hin Hs. induction l as [|n l IH]; [contradiction|]. cbn.
  destruct Hin as [->|Hin]; [rewrite Hs; eauto|].
  destruct (IH Hin) as [e' He'].
  destruct n; cbn; rewrite ?He'; eauto.
  match goal with
  | |- context [Python.class_details cleandoc max_str_digits ?s0] =>
      destruct (Python.class_details cleandoc max_str_digits s0) as [[e0|c]|]; eauto
  end.
Qed.

Lemma analyze_tree_error (p text : string) (tree : Ast.node) :
  known_error (Python.analyze_tree cleandoc max_str_digits p text tree).
Proof.
  unfold Python.analyze_tree, Python._analyze_functions, Python._analyze_classes.
  pose proof (functions_loop_error (Ast.walk tree)) as Hf.
  destruct (Python.functions_loop cleandoc max_str_digits (Ast.walk tree)); [exact Hf|].
  pose proof (classes_loop_error (Ast.walk tree)) as Hc.
  destruct (Python.classes_loop cleandoc max_str_digits (Ast.walk tree)); [exact Hc|exact I].
Qed.

(** X19. Every exception that [analyze_file] of the Python analyzer
    raises is one of five: an exception of [read_file]; the [ValueError]
    for a missing or empty file; whatever [ast.parse] raises other than
    [SyntaxError]; the [ValueError] of [str] on an integer return
    annotation over the digit limit of the interpreter; or an
    [AttributeError] from [_get_decorator_name] or [_get_base_name]. *)
Theorem python_analyze_file_exceptions (fs : filesystem)
    (ast_parse : string -> Py.exn + Ast.mod_) (p : string) (a a' : Base.analyzer)
    (e : Py.exn) :
  Python.analyze_file fs ast_parse cleandoc max_str_digits p a = (inl e, a') ->
  Base.read_file fs p a = (inl e, a')
  \/ e = Py.ValueError ("Could not read file: " ++ p)
  \/ (exists text, Base.read_file fs p a = (inr (Some text), a') /\ ast_parse text = inl e)
  \/ e = Py.digit_limit_error max_str_digits
  \/ Props.is_AttributeError e = true.
Proof.
  unfold Python.analyze_file, Py.bind.
  destruct (Base.read_file fs p a) as [[e0|text] a1]; [intros [= <- <-]; auto|].
  destruct text as [text|]; cbn [Py.truthy_opt negb];
    [|intros [= <- <-]; auto].
  destruct (Py.truthy text); cbn [negb]; [|intros [= <- <-]; auto].
  cbn [default from_option id].
  destruct (ast_parse text) as [e1|tree] eqn:Hparse.
  - destruct e1; intros [= <- <-]; try discriminate; right; right; left; eauto.
  - pose proof (analyze_tree_error p text (Ast.NMod tree)) as H.
    destruct (Python.analyze_tree cleandoc max_str_digits p text (Ast.NMod tree));
      [|discriminate].
    intros [= <- <-]. destruct H; auto.
Qed.

(** X18. A file that parses can still make [analyze_file] raise: when a
    class of the file has a base written as an attribute of something
    other than a plain name (as in [class Model(db.orm.Base)]),
    [analyze_file] raises and returns no result.  The exception is the
    [AttributeError] of [_get_base_name] or [_get_decorator_name], unless
    the pass over the functions, which runs first, has met an integer
    return annotation over the digit limit and raised its [ValueError]. *)
Theorem class_with_dotted_base_raises (fs : filesystem)
    (ast_parse : string -> Py.exn + Ast.mod_) (p text : string) (tree : Ast.mod_)
    (a a' : Base.analyzer) (lineno : Z) (name : string) (bases : list Ast.expr)
    (keywords : list Ast.keyword) (body : list Ast.stmt) (decorator_list : list Ast.expr)
    (value : Ast.expr) (attr : string) (ctx : Ast.expr_context) :
  Base.read_file fs p a = (inr (Some text), a') ->
  Py.truthy text = true ->
  ast_parse text = inr tree ->
  In (Ast.NStmt (Ast.ClassDef lineno name bases keywords body decorator_list))
    (Ast.walk (Ast.NMod tree)) ->
  In (Ast.Attribute value attr ctx) bases ->
  (forall id c, value <> Ast.Name id c) ->
  exists e,
    Python.analyze_file fs ast_parse cleandoc max_str_digits p a = (inl e, a')
    /\ (Props.is_AttributeError e = true \/ e = Py.digit_limit_error max_str_digits)
    /\ (forall functions,
          Python._analyze_functions cleandoc max_str_digits (Ast.NMod tree) = inr functions ->
          Props.is_AttributeError e = true).
Proof.
  intros Hread Htext Hparse Hclass Hbase Hvalue.
  assert (exists e, Python._get_base_name (Ast.Attribute value attr ctx) = inl e) as [e He].
  { cbn. destruct value; cbn; eauto. exfalso. exact (Hvalue _ _ eq_refl). }
  destruct (comprehension_fails _ _ _ _ Hbase He) as [e1 He1].
  assert (Python.class_details cleandoc max_str_digits
            (Ast.ClassDef lineno name bases keywords body decorator_list) = Some (inl e1))
    as Hdetails by (cbn; rewrite He1; reflexivity).
  destruct (classes_loop_fails _ _ _ Hclass Hdetails) as [e2 He2].
  assert (exists e3,
            Python.analyze_tree cleandoc max_str_digits p text (Ast.NMod tree) = inl e3
            /\ (forall functions,
                  Python._analyze_functions cleandoc max_str_digits (Ast.NMod tree)
                  = inr functions ->
                  Props.is_AttributeError e3 = true)) as (e3 & He3 & Hattr).
  { unfold Python.analyze_tree, Python._analyze_functions, Python._analyze_classes.
    destruct (Python.functions_loop cleandoc max_str_digits (Ast.walk (Ast.NMod tree)))
      as [e0|functions] eqn:Hf; [exists e0; split; [reflexivity|discriminate]|].
    rewrite He2. exists e2. split; [reflexivity|]. intros _ _.
    pose proof (classes_loop_attribute_error (Ast.walk (Ast.NMod tree))) as Hc.
    rewrite He2 in Hc. apply Hc.
    intros ln nm bs ks bd ds child e' Hin Hchild.
    apply (functions_loop_returns _ _ child e' Hf).
    apply (walk_children (Ast.NMod tree) _ _ Hin). cbn.
    apply in_or_app. right. apply in_or_app. right. apply in_or_app. left.
    apply in_map. exact Hchild. }
  pose proof (analyze_tree_error p text (Ast.NMod tree)) as Hknown. rewrite He3 in Hknown.
  exists e3. split; [|split; [exact Hknown|exact Hattr]].
  unfold Python.analyze_file, Py.bind. rewrite Hread. cbn [Py.truthy_opt].
  rewrite Htext. cbn [negb default from_option id]. rewrite Hparse, He3. reflexivity.
Qed.

End PythonExceptions.

Section PythonDependencies.

Variable fs : filesystem.
Variable resolve : string -> string.

Lemma truthy_append (s t : string) : Py.truthy t = true -> Py.truthy (s ++ t) = true.
Proof. destruct s; [trivial|reflexivity]. Qed.

(** X13. Which imports the resolver follows.  A dependency that
    [_build_dependencies] makes of an import is followed by the loop of
    [analyze_dependencies] exactly when the imported name has a dot, does
    not start with [django], [flask] or [fastapi], and the name with its
    dots turned into slashes and [.py] appended is, once resolved, a path
    on disk.  So [import helpers] is never followed, whatever is on
    disk. *)
Theorem python_import_is_followed_iff (imports : list (string * string * FileLocation))
    (dep : Dependency) (q : string) :
  In dep (Python._build_dependencies imports) ->
  (Props.dependency_target fs resolve dep = Some q
   <-> Py.contains (dep_name dep) "." = true
       /\ existsb (fun pkg => Py.startswith (dep_name dep) pkg)
            ["django"; "flask"; "fastapi"] = false
       /\ q = resolve (Py.replace_char "." "/" (dep_name dep) ++ ".py")
       /\ is_Some (fs !! q)).
Proof.
  unfold Python._build_dependencies. intros Hin.
  apply in_map_iff in Hin as ([[imp_name alias] loc] & <- & _).
  unfold Props.dependency_target. cbn [dep_name is_local import_path].
  destruct (Py.contains imp_name ".");
    [|cbn; split; [discriminate|intros (H & _); discriminate]].
  destruct (existsb _ _); cbn [negb andb];
    [cbn; split; [discriminate|intros (_ & H & _); discriminate]|].
  cbn [Py.truthy_opt default from_option id].
  rewrite truthy_append by reflexivity. cbn [andb].
  destruct (bool_decide (is_Some (fs !! resolve (Py.replace_char "." "/" imp_name ++ ".py"))))
    eqn:Hdisk.
  - apply bool_decide_eq_true in Hdisk. split.
    + intros [= <-]. auto.
    + intros (_ & _ & -> & _). reflexivity.
  - apply bool_decide_eq_false in Hdisk. split; [discriminate|].
    intros (_ & _ & -> & H). contradiction.
Qed.

End PythonDependencies.

Section PythonBlocks.

Lemma startswith_append (s p : string) : forall rest,
  Py.startswith s (p ++ rest) = true -> Py.startswith s p = true.
Proof.
  revert s. induction p as [|a p IH]; intros s rest H; [destruct s; reflexivity|].
  destruct s as [|b s]; [discriminate|]. cbn in *.
  apply andb_true_iff in H as [Hab H]. rewrite Hab. exact (IH _ _ H).
Qed.

Lemma contains_append (s p rest : string) :
  Py.contains s (p ++ rest) = true -> Py.contains s p = true.
Proof.
  induction s as [|c s IH]; cbn [Py.contains]; intros H.
  - apply orb_true_iff in H as [H|H]; [|discriminate].
    rewrite (startswith_append _ _ _ H). reflexivity.
  - apply orb_true_iff in H as [H|H].
    + rewrite (startswith_append _ _ _ H). reflexivity.
    + rewrite (IH H). apply orb_true_r.
Qed.

Lemma startswith_split (s p : string) :
  Py.startswith s p = true -> exists rest, s = p ++ rest.
Proof.
  revert s. induction p as [|a p IH]; intros s H; [exists s; reflexivity|].
  destruct s as [|b s]; [discriminate|]. cbn in H.
  apply andb_true_iff in H as [Hab H]. apply Ascii.eqb_eq in Hab as ->.
  destruct (IH _ H) as [rest ->]. exists rest. reflexivity.
Qed.

Lemma string_app_assoc (a b c : string) : (a ++ (b ++ c) = (a ++ b) ++ c)%string.
Proof.
  induction a as [|x a IH]; [reflexivity|]. exact (f_equal (String x) IH).
Qed.

(** A line that declares a name declares every prefix of the name. *)
Lemma declares_prefix (name name' line : string) :
  Py.startswith name' name = true ->
  Props.declares name' line = true -> Props.declares name line = true.
Proof.
  intros Hp H. destruct (startswith_split _ _ Hp) as [rest ->].
  unfold Props.declares in *. apply orb_true_iff in H as [H|H]; apply orb_true_iff.
  - left. apply (contains_append _ _ rest). rewrite <- string_app_assoc. exact H.
  - right. apply (contains_append _ _ rest). rewrite <- string_app_assoc. exact H.
Qed.

(** [_extract_block_content] starts the block at the first line that holds
    [def name] or [class name]. *)
Lemma extract_block_content_first (pre post : list string) (line name : string) :
  Forall (fun l => Props.declares name l = false) pre ->
  Props.declares name line = true ->
  Python._extract_block_content (pre ++ line :: post) name
  = Some (Py.join Py.LF (line :: Python.block_lines_after (Props.indent_of line) post)).
Proof.
  intros Hpre Hline. induction Hpre as [|l pre Hl _ IH]; cbn [app Python._extract_block_content].
  - unfold Props.declares in Hline. rewrite Hline. reflexivity.
  - unfold Props.declares in Hl. rewrite Hl. exact IH.
Qed.

(** X14. Blocks are found by the text [def name], so a name stands for
    every name it is a prefix of: when the first line that holds
    [def name] or [class name] is the declaration of a longer name that
    starts with [name] (as [get_stats] for [get]), the block extracted for
    [name] is the block of the longer name. *)
Theorem block_of_a_name_is_the_block_of_a_longer_name (pre post : list string)
    (line name name' : string) :
  Py.startswith name' name = true ->
  Forall (fun l => Props.declares name l = false) pre ->
  Props.declares name' line = true ->
  Python._extract_block_content (pre ++ line :: post) name
  = Some (Py.join Py.LF (line :: Python.block_lines_after (Props.indent_of line) post))
  /\ Python._extract_block_content (pre ++ line :: post) name'
     = Python._extract_block_content (pre ++ line :: post) name.
Proof.
  intros Hp Hpre Hline.
  assert (Props.declares name line = true) as Hshort
    by exact (declares_prefix _ _ _ Hp Hline).
  assert (Forall (fun l => Props.declares name' l = false) pre) as Hpre'.
  { eapply Forall_impl; [exact Hpre|]. intros l Hl. cbv beta in *.
    destruct (Props.declares name' l) eqn:Hd; [|reflexivity].
    rewrite (declares_prefix _ _ _ Hp Hd) in Hl. discriminate. }
  rewrite (extract_block_content_first _ _ _ _ Hpre Hshort).
  rewrite (extract_block_content_first _ _ _ _ Hpre' Hline). auto.
Qed.

(** X15. The extent of a block.  The lines that [_extract_block_content]
    takes after the declaration are the longest run of lines that are
    blank or indented more than the declaration: the block stops before
    the first line with text at the indentation of the declaration or
    less, or at the end of the file. *)
Theorem block_stops_at_the_first_dedent (indent : Z) (lines : list string) :
  exists rest,
    lines = (Python.block_lines_after indent lines ++ rest)%list
    /\ Forall (fun l => Props.is_blank l = true \/ indent < Props.indent_of l)
         (Python.block_lines_after indent lines)
    /\ match rest with
       | [] => True
       | l :: _ => Props.is_blank l = false /\ Props.indent_of l <= indent
       end.
Proof.
  induction lines as [|l lines (rest & Heq & Hall & Hrest)]; [exists []; cbn; auto|].
  cbn [Python.block_lines_after].
  destruct (Py.truthy (Py.strip l)) eqn:Htext; cbn [andb].
  - destruct (Py.len l - Py.len (Py.lstrip l) <=? indent) eqn:Hle.
    + exists (l :: lines). split; [reflexivity|]. split; [constructor|].
      unfold Props.is_blank, Props.indent_of. rewrite Htext. split; [reflexivity|lia].
    + exists rest. split; [cbn; rewrite <- Heq; reflexivity|]. split; [|exact Hrest].
      constructor; [|exact Hall]. right. unfold Props.indent_of. lia.
  - exists rest. split; [cbn; rewrite <- Heq; reflexivity|]. split; [|exact Hrest].
    constructor; [|exact Hall]. left. unfold Props.is_blank. rewrite Htext. reflexivity.
Qed.

Lemma blocks_for_shape (lines : list string) (kind : string) (names : list string) :
  Forall (fun b => location b = FileLocation_at 0 0 /\ block_type b = kind
                   /\ Py.truthy (content b) = true)
    (Python.blocks_for lines kind names).
Proof.
  unfold Python.blocks_for. induction names as [|name names IH]; cbn; [constructor|].
  apply Forall_app. split; [|exact IH].
  destruct (Python._extract_block_content lines name) as [block|]; [|constructor].
  destruct (Py.truthy block) eqn:Hb; constructor; [|constructor]. cbn. auto.
Qed.

(** X16. No block of a Python result says where it is: every block that
    [analyze_file] of the Python analyzer returns is located at line 0,
    column 0, whatever the line of its declaration; its type is
    [function] or [class] and its text is not empty. *)
Theorem python_blocks_are_located_at_the_origin (fs : filesystem)
    (ast_parse : string -> Py.exn + Ast.mod_) (cleandoc : string -> string)
    (max_str_digits : Z)
    (p : string) (a a' : Base.analyzer) (r : AnalysisResult) :
  Python.analyze_file fs ast_parse cleandoc max_str_digits p a = (inr r, a') ->
  Forall (fun b => location b = FileLocation_at 0 0
                   /\ (block_type b = "function" \/ block_type b = "class")
                   /\ Py.truthy (content b) = true)
    (blocks r).
Proof.
  unfold Python.analyze_file, Py.bind.
  destruct (Base.read_file fs p a) as [[e|text] a1]; [discriminate|].
  destruct (negb (Py.truthy_opt text)); [discriminate|].
  destruct (ast_parse (default "" text)) as [e|tree].
  - destruct e; try discriminate. intros [= <- _]. constructor.
  - unfold Python.analyze_tree.
    destruct (Python._analyze_functions cleandoc max_str_digits (Ast.NMod tree)); [discriminate|].
    destruct (Python._analyze_classes cleandoc max_str_digits (Ast.NMod tree)); [discriminate|].
    intros [= <- _]. cbn [blocks]. unfold Python._create_code_blocks.
    apply Forall_app. split.
    + eapply Forall_impl; [apply blocks_for_shape|]. cbv beta. intros b (H1 & H2 & H3). auto.
    + eapply Forall_impl; [apply blocks_for_shape|]. cbv beta. intros b (H1 & H2 & H3). auto.
Qed.

End PythonBlocks.

Section ComplexityCensus.

#[local] Abbreviation tally P l := (length (List.filter P l)).

Lemma complexity_fold_general (l : list Ast.node) : forall c : Z,
  fold_left Python.complexity_step l c
  = c + Z.of_nat (tally Props.is_If l + tally Props.is_While l + tally Props.is_For l
                  + tally Props.is_Try l + tally Props.is_ExceptHandler l
                  + tally Props.is_With l + tally Props.is_Assert l
                  + tally Props.is_Raise l)
    + Py.sum (map Props.boolop_extra l).
Proof.
  induction l as [|n l IH]; intros c; [cbn; lia|].
  cbn [fold_left List.filter map Py.sum fold_right]. rewrite IH.
  unfold Py.sum.
  destruct n as [m|s|e|h| | | | | | | | | | ]; try destruct s; try destruct e;
    cbn [Props.is_If Props.is_While Props.is_For Props.is_Try Props.is_ExceptHandler
         Props.is_With Props.is_Assert Props.is_Raise Props.boolop_extra
         Python.complexity_step Python.is_branching length]; lia.
Qed.

(** X17. The complexity score of any tree, class by class: one, plus the
    number of [If] nodes, of [While] nodes, of [For] nodes, of [Try]
    nodes, of [ExceptHandler] nodes, of [With] nodes, of [Assert] nodes
    and of [Raise] nodes that [ast.walk] yields from it (nested functions
    and classes included), plus the number of operands less one for every
    [BoolOp] node; the order of the walk does not matter. *)
Theorem complexity_is_one_plus_the_census (tree : Ast.node) :
  Python._calculate_complexity tree
  = 1 + Z.of_nat (Props.count Props.is_If tree + Props.count Props.is_While tree
                  + Props.count Props.is_For tree + Props.count Props.is_Try tree
                  + Props.count Props.is_ExceptHandler tree
                  + Props.count Props.is_With tree + Props.count Props.is_Assert tree
                  + Props.count Props.is_Raise tree)
    + Py.sum (map Props.boolop_extra (Ast.walk tree)).
Proof. apply complexity_fold_general. Qed.

End ComplexityCensus.

Section ClosingBrace.

#[local] Abbreviation pop_error := (Py.IndexError "pop from empty list").

(** Once a brace is open the loop cannot raise. *)
Lemma closing_brace_loop_open (chars : string) : forall (i : Z) (c : ascii) (stack : list ascii),
  exists r, React.closing_brace_loop chars i (c :: stack) = inr r.
Proof.
  induction chars as [|char chars IH]; intros i c stack; cbn; [eauto|].
  destruct (Ascii.eqb char "{"); [apply IH|].
  destruct (Ascii.eqb char "}"); [|apply IH].
  destruct stack as [|c' stack]; [eauto|apply IH].
Qed.

Lemma closing_brace_loop_error (chars : string) : forall (i : Z) (stack : list ascii) (e : Py.exn),
  React.closing_brace_loop chars i stack = inl e -> e = pop_error.
Proof.
  induction chars as [|char chars IH]; intros i stack e; cbn; [discriminate|].
  destruct (Ascii.eqb char "{"); [apply IH|].
  destruct (Ascii.eqb char "}"); [|apply IH].
  destruct stack as [|c [|c' stack]]; [intros [= <-]; reflexivity|discriminate|apply IH].
Qed.

Lemma closing_brace_loop_raises (chars : string) : forall i : Z,
  React.closing_brace_loop chars i [] = inl pop_error
  <-> Props.first_brace chars = Some "}"%char.
Proof.
  induction chars as [|char chars IH]; intros i; cbn; [split; discriminate|].
  destruct (Ascii.eqb char "{") eqn:Hopen.
  - apply Ascii.eqb_eq in Hopen as ->. cbn.
    destruct (closing_brace_loop_open chars (i + 1) "{" []) as [r ->].
    split; discriminate.
  - destruct (Ascii.eqb char "}") eqn:Hclose; cbn.
    + apply Ascii.eqb_eq in Hclose as ->. split; reflexivity.
    + apply IH.
Qed.

(** A closing brace met first makes [_find_closing_brace] raise. *)
Lemma find_closing_brace_pops_nothing (text : string) (start : Z) :
  Props.first_brace (Py.slice_from text start) = Some "}"%char ->
  React._find_closing_brace text start = inl pop_error.
Proof.
  intros H. unfold React._find_closing_brace.
  rewrite (proj2 (closing_brace_loop_raises _ start) H). reflexivity.
Qed.

(** X21. [_find_closing_brace] raises exactly when the first brace at
    or after [start] is a closing one: [stack.pop()] is then called on the
    empty list and raises [IndexError].  It raises nothing else. *)
Theorem find_closing_brace_raises_iff (text : string) (start : Z) :
  (forall e, React._find_closing_brace text start = inl e -> e = pop_error)
  /\ (React._find_closing_brace text start = inl pop_error
      <-> Props.first_brace (Py.slice_from text start) = Some "}"%char).
Proof.
  unfold React._find_closing_brace. split.
  - intros e.
    destruct (React.closing_brace_loop (Py.slice_from text start) start []) as [e'|[r|]] eqn:H;
      try discriminate.
    intros [= <-]. exact (closing_brace_loop_error _ _ _ _ H).
  - rewrite <- (closing_brace_loop_raises _ start).
    destruct (React.closing_brace_loop (Py.slice_from text start) start []) as [e'|[r|]];
      split; try discriminate; congruence.
Qed.

(** What the loop has read when it returns a position: as many closing
    braces as opening ones, the braces open at the start counted. *)
Lemma closing_brace_loop_balance (chars : string) : forall (i j : Z) (stack : list ascii),
  React.closing_brace_loop chars i stack = inr (Some j) ->
  exists n : nat,
    j = i + Z.of_nat n /\ (1 <= n <= String.length chars)%nat
    /\ (length stack + Props.count_char "{" (Py.take_chars n chars)
        = Props.count_char "}" (Py.take_chars n chars))%nat.
Proof.
  induction chars as [|char chars IH]; intros i j stack; cbn [React.closing_brace_loop];
    [discriminate|].
  destruct (Ascii.eqb char "{") eqn:Hopen.
  - intros H. destruct (IH _ _ _ H) as (n & -> & Hn & Hbal). exists (S n).
    cbn [Py.take_chars Props.count_char String.length length] in *.
    rewrite Hopen. apply Ascii.eqb_eq in Hopen as ->. cbn. repeat split; lia.
  - destruct (Ascii.eqb char "}") eqn:Hclose.
    + destruct stack as [|c [|c' stack]]; [discriminate| |].
      * intros [= <-]. exists 1%nat.
        cbn [Py.take_chars Props.count_char String.length length].
        rewrite Hopen, Hclose. destruct chars; cbn; repeat split; lia.
      * intros H. destruct (IH _ _ _ H) as (n & -> & Hn & Hbal). exists (S n).
        cbn [Py.take_chars Props.count_char String.length length] in *.
        rewrite Hopen, Hclose. repeat split; lia.
    + intros H. destruct (IH _ _ _ H) as (n & -> & Hn & Hbal). exists (S n).
      cbn [Py.take_chars Props.count_char String.length length] in *.
      rewrite Hopen, Hclose. repeat split; lia.
Qed.

Lemma drop_chars_length (n : nat) : forall s : string,
  String.length (Py.drop_chars n s) = (String.length s - n)%nat.
Proof.
  induction n as [|n IH]; intros [|c s]; cbn; try reflexivity. apply IH.
Qed.

(** X22. The block that [_find_closing_brace] delimits.  For a start
    inside the text, the position returned is after the start and within
    the text, and the text between the two has as many closing braces as
    opening ones; or no position closes the first opening brace and the
    end of the text is returned. *)
Theorem find_closing_brace_balances (text : string) (start stop : Z) :
  0 <= start <= Py.len text ->
  React._find_closing_brace text start = inr stop ->
  (start < stop <= Py.len text
   /\ Props.count_char "{" (Py.slice text start stop)
      = Props.count_char "}" (Py.slice text start stop))
  \/ stop = Py.len text.
Proof.
  intros Hstart. unfold React._find_closing_brace.
  destruct (React.closing_brace_loop (Py.slice_from text start) start []) as [e|[j|]] eqn:H;
    [discriminate| |intros [= <-]; right; reflexivity].
  intros [= <-]. left.
  destruct (closing_brace_loop_balance _ _ _ _ H) as (n & -> & Hn & Hbal).
  unfold Py.slice_from, Py.slice, Py.slice_index, Py.len in *.
  destruct (start <? 0) eqn:Hneg; [lia|].
  rewrite drop_chars_length in Hn.
  destruct (start + Z.of_nat n <? 0) eqn:Hneg'; [lia|].
  replace (Z.to_nat (Z.min (start + Z.of_nat n) (Z.of_nat (String.length text)))
           - Z.to_nat (Z.min start (Z.of_nat (String.length text))))%nat with n by lia.
  split; [lia|]. cbn [length] in Hbal. exact Hbal.
Qed.

End ClosingBrace.

Section ReactFile.

Variable fs : filesystem.
Variable _analyze_imports : string -> list React.JSImport.
Variable _analyze_components : string -> Py.exn + list Web.ReactComponent.
Variable hook_matches : string -> list (Z * string).
Variable _find_dependencies : string -> list string.
Variable _analyze_types : string -> Py.exn + list Web.TypeScriptType.
Variable _analyze_styles : string -> gmap string string.

Lemma hooks_loop_fails (text : string) (matches : list (Z * string)) (start : Z)
    (name : string) :
  In (start, name) matches ->
  Props.first_brace (Py.slice_from text start) = Some "}"%char ->
  exists e, React.hooks_loop _find_dependencies text matches = inl e.
Proof.
  intros Hin Hbrace. induction matches as [|[s n] matches IH]; [contradiction|].
  cbn [React.hooks_loop]. destruct Hin as [[= -> ->]|Hin].
  - rewrite (find_closing_brace_pops_nothing text start Hbrace). eauto.
  - destruct (React._find_closing_brace text s); [eauto|].
    destruct (IH Hin) as [e ->]. eauto.
Qed.

(** X23. A use of a hook that is followed by a closing brace before any
    opening one fails the whole file: when [_hook_pattern] matches at a
    position from which the first brace is a closing one (as
    [useContext(Theme); }] inside a component), [analyze_file] of the
    React analyzer raises and returns no result. *)
Theorem hook_before_a_closing_brace_fails_the_file (p text : string)
    (a a' : Base.analyzer) (start : Z) (name : string) :
  Base.read_file fs p a = (inr (Some text), a') ->
  In (start, name) (hook_matches text) ->
  Props.first_brace (Py.slice_from text start) = Some "}"%char ->
  exists e,
    React.analyze_file fs _analyze_imports _analyze_components
      (React._analyze_hooks hook_matches _find_dependencies)
      _analyze_types _analyze_styles p a = (inl e, a').
Proof.
  intros Hread Hin Hbrace.
  assert (Py.truthy text = true) as Htext.
  { destruct text; [|reflexivity]. unfold Py.slice_from in Hbrace.
    destruct (Py.slice_index EmptyString start); discriminate. }
  destruct (hooks_loop_fails text _ start name Hin Hbrace) as [e He].
  unfold React.analyze_file, Py.bind. rewrite Hread. cbn [Py.truthy_opt].
  rewrite Htext. cbn [negb default from_option id].
  unfold React.analyze_content, React._analyze_hooks.
  destruct (_analyze_components text); [eauto|]. rewrite He. eauto.
Qed.

(** X24. The types pass runs for [.ts] and [.tsx] files only: for a path
    with any other suffix [analyze_file] does not depend on
    [_analyze_types] (it cannot fail there), and a result has no
    types. *)
Theorem types_are_analyzed_for_typescript_only
    (_analyze_hooks : string -> Py.exn + list Web.ReactHook)
    (other_types : string -> Py.exn + list Web.TypeScriptType)
    (p : string) (a : Base.analyzer) :
  React.path_suffix p ∉ [".tsx"; ".ts"] ->
  React.analyze_file fs _analyze_imports _analyze_components _analyze_hooks
    _analyze_types _analyze_styles p a
  = React.analyze_file fs _analyze_imports _analyze_components _analyze_hooks
      other_types _analyze_styles p a
  /\ (forall r a',
        React.analyze_file fs _analyze_imports _analyze_components _analyze_hooks
          _analyze_types _analyze_styles p a = (inr r, a') ->
        Web.types r = []).
Proof.
  intros Hsuffix. unfold React.analyze_file, React.analyze_content, Py.bind.
  rewrite (bool_decide_eq_false_2 _ Hsuffix). split; [reflexivity|].
  intros r a'. destruct (Base.read_file fs p a) as [[e|text] a1]; [discriminate|].
  destruct (negb (Py.truthy_opt text)); [discriminate|].
  destruct (_analyze_components (default "" text)); [discriminate|].
  destruct (_analyze_hooks (default "" text)); [discriminate|].
  intros [= <- _]. reflexivity.
Qed.

End ReactFile.

Section ReactImports.

Lemma categorize_items (t : Web.ImportType) (items : list string) :
  forall (d : gmap string Web.ImportType) (k : string),
  fold_left (fun d item => <[ item := t ]> d) items d !! k
  = if bool_decide (k ∈ items) then Some t else d !! k.
Proof.
  induction items as [|item items IH]; intros d k; cbn [fold_left].
  - rewrite bool_decide_eq_false_2 by apply not_elem_of_nil. reflexivity.
  - rewrite IH. destruct (decide (k ∈ items)) as [Hin|Hout].
    + rewrite !bool_decide_eq_true_2; [reflexivity|right; exact Hin|exact Hin].
    + rewrite (bool_decide_eq_false_2 _ Hout).
      destruct (decide (k = item)) as [->|Hne].
      * rewrite lookup_insert_eq, bool_decide_eq_true_2 by left. reflexivity.
      * rewrite lookup_insert_ne by congruence.
        rewrite bool_decide_eq_false_2; [reflexivity|].
        intros Hin. apply elem_of_cons in Hin as [?|?]; contradiction.
Qed.

#[local] Abbreviation categorize_from :=
  (fold_left
     (fun categorized imp =>
        fold_left (fun d item => <[ item := React.js_import_type imp ]> d)
          (React.js_items imp) categorized)).

Lemma categorize_unlisted (imps : list React.JSImport) :
  forall (d : gmap string Web.ImportType) (k : string),
  Forall (fun imp => k ∉ React.js_items imp) imps ->
  categorize_from imps d !! k = d !! k.
Proof.
  induction imps as [|imp imps IH]; intros d k Hall; [reflexivity|].
  cbn [fold_left]. apply Forall_cons in Hall as [Hk Hall].
  rewrite (IH _ _ Hall), categorize_items, bool_decide_eq_false_2 by exact Hk.
  reflexivity.
Qed.

(** X25. [_categorize_imports] keeps one type for a name, that of the
    last import statement that lists it: a name imported twice loses the
    type of the first import, and a name that no import lists has no
    entry. *)
Theorem categorize_imports_keeps_the_last_type (imps : list React.JSImport) (k : string) :
  (Forall (fun imp => k ∉ React.js_items imp) imps ->
   React._categorize_imports imps !! k = None)
  /\ (forall earlier imp later,
        imps = (earlier ++ imp :: later)%list ->
        k ∈ React.js_items imp ->
        Forall (fun imp' => k ∉ React.js_items imp') later ->
        React._categorize_imports imps !! k = Some (React.js_import_type imp)).
Proof.
  unfold React._categorize_imports. split.
  - intros Hall. rewrite (categorize_unlisted _ _ _ Hall). apply lookup_empty.
  - intros earlier imp later -> Hk Hlater.
    rewrite fold_left_app. cbn [fold_left].
    rewrite (categorize_unlisted _ _ _ Hlater), categorize_items.
    rewrite bool_decide_eq_true_2 by exact Hk. reflexivity.
Qed.

End ReactImports.

Section CacheBehaviour.

Import Cache.

Variable config : CacheConfig.
Variable Json : Type.
Variable dumps : Json -> string.
Variable loads : string -> Json.

#[local] Abbreviation lookup_row p h :=
  (List.find (fun r => String.eqb (file_path r) p && String.eqb (content_hash r) h)).

(** X26. What [get] finds after [set].  On the table left by
    [set(p, h, data)], [get(p, h')] returns the stored data exactly when
    the cache is enabled, the hash asked for is the hash stored and the
    time-to-live test passes; in every other case, a changed hash
    included, it returns nothing, whatever the table held before. *)
Theorem get_after_set (now now' : float) (p h h' : string) (data : Json) (db : table) :
  get config Json loads now' p h' (set config Json dumps now p h data db)
  = if enabled config && String.eqb h h' && within_ttl config now' (Py.int_of_float now)
    then Some (loads (dumps data))
    else None.
Proof.
  unfold get, set. destruct (enabled config); [|reflexivity]. cbn [negb andb].
  unfold insert_or_replace. cbn [file_path].
  rewrite find_append, find_other_paths.
  cbn [List.find file_path content_hash]. rewrite String.eqb_refl. cbn [andb].
  destruct (String.eqb h h'); [|reflexivity]. cbn [timestamp analysis_data].
  destruct (within_ttl config now' (Py.int_of_float now)); reflexivity.
Qed.

Lemma lookup_row_filter (keep : row -> bool) (q h : string) (db : table) :
  (forall r, file_path r = q -> keep r = true) ->
  lookup_row q h (List.filter keep db) = lookup_row q h db.
Proof.
  intros Hkeep. induction db as [|r db IH]; [reflexivity|]. cbn [List.filter List.find].
  destruct (String.eqb (file_path r) q) eqn:Hq.
  - apply String.eqb_eq in Hq. rewrite (Hkeep r Hq). cbn [List.find].
    apply String.eqb_eq in Hq. rewrite Hq. cbn [andb].
    destruct (String.eqb (content_hash r) h); [reflexivity|exact IH].
  - cbn [andb]. destruct (keep r); [|exact IH]. cbn [List.find]. rewrite Hq. exact IH.
Qed.

Lemma other_path_row (p q h : string) (r : row) (db : table) :
  q <> p -> file_path r = p ->
  lookup_row q h (db ++ [r]) = lookup_row q h db.
Proof.
  intros Hne Hp. rewrite find_append. destruct (lookup_row q h db); [reflexivity|].
  cbn [List.find]. rewrite Hp.
  destruct (String.eqb p q) eqn:Hpq; [apply String.eqb_eq in Hpq; congruence|reflexivity].
Qed.

(** X27. [invalidate(p)] forgets [p] and nothing else: after it [get]
    finds no entry for [p] under any hash, and finds for every other path
    what it found before. *)
Theorem invalidate_forgets_one_path (now : float) (p q h : string) (db : table) :
  get config Json loads now p h (invalidate p db) = None
  /\ (q <> p ->
      get config Json loads now q h (invalidate p db)
      = get config Json loads now q h db).
Proof.
  unfold get, invalidate. split.
  - rewrite find_other_paths. destruct (negb (enabled config)); reflexivity.
  - intros Hne. rewrite lookup_row_filter; [reflexivity|].
    intros r Hr. destruct (String.eqb (file_path r) p) eqn:Hp; [|reflexivity].
    apply String.eqb_eq in Hp. congruence.
Qed.

(** X28. Within the budget [set] touches one path only: when the stored
    sizes add up to [max_size] megabytes at most, [get] finds for every
    path other than the one set what it found before. *)
Theorem set_within_budget_keeps_other_paths (now now' : float) (p q h h' : string)
    (data : Json) (db : table) :
  total_size db <= max_size config * 1024 * 1024 ->
  q <> p ->
  get config Json loads now' q h' (set config Json dumps now p h data db)
  = get config Json loads now' q h' db.
Proof.
  intros Hunder Hne. unfold get, set. destruct (enabled config); [|reflexivity].
  cbn [negb]. unfold _cleanup_if_needed.
  destruct (max_size config * 1024 * 1024 <? total_size db) eqn:Hlt; [lia|].
  unfold insert_or_replace. cbn [file_path].
  rewrite (other_path_row p q h') by (exact Hne || reflexivity).
  rewrite lookup_row_filter; [reflexivity|].
  intros r Hr. destruct (String.eqb (file_path r) p) eqn:Hp; [|reflexivity].
  apply String.eqb_eq in Hp. congruence.
Qed.

Lemma filter_map_NoDup (keep : row -> bool) (db : table) :
  NoDup (map file_path db) -> NoDup (map file_path (List.filter keep db)).
Proof.
  induction db as [|r db IH]; cbn; [trivial|]. intros Hnd.
  apply NoDup_cons in Hnd as [Hr Hnd]. destruct (keep r); [|exact (IH Hnd)].
  cbn. apply NoDup_cons. split; [|exact (IH Hnd)].
  intros Hin. apply Hr. apply list_elem_of_In in Hin. apply list_elem_of_In.
  apply in_map_iff in Hin as (r' & Hr' & Hin). apply filter_In in Hin as [Hin _].
  apply in_map_iff. eauto.
Qed.

(** X29. The primary key stays unique: [set], [invalidate] and
    [_cleanup_if_needed] turn a table with one row per path into a table
    with one row per path. *)
Theorem primary_key_is_kept (now : float) (p h : string) (data : Json) (db : table) :
  Props.primary_key db ->
  Props.primary_key (set config Json dumps now p h data db)
  /\ Props.primary_key (invalidate p db)
  /\ Props.primary_key (_cleanup_if_needed config db).
Proof.
  unfold Props.primary_key. intros Hpk.
  assert (NoDup (map file_path (_cleanup_if_needed config db))) as Hclean.
  { unfold _cleanup_if_needed. destruct (_ <? _); [|exact Hpk].
    apply filter_map_NoDup, Hpk. }
  split; [|split; [apply filter_map_NoDup, Hpk|exact Hclean]].
  unfold set. destruct (enabled config); [|exact Hpk]. cbn [negb].
  unfold insert_or_replace. cbn [file_path]. rewrite map_app. apply NoDup_app.
  split; [apply filter_map_NoDup, Hclean|]. split; [|apply NoDup_singleton].
  intros x Hx Hp. apply list_elem_of_In in Hx. apply list_elem_of_singleton in Hp as ->.
  apply in_map_iff in Hx as (r & Hr & Hin). apply filter_In in Hin as [_ Hkeep].
  rewrite Hr, String.eqb_refl in Hkeep. discriminate.
Qed.

Lemma take_all {A} (k : nat) (l : list A) : (length l <= k)%nat -> take k l = l.
Proof.
  revert k. induction l as [|x l IH]; intros [|k] H; cbn in *; try reflexivity; try lia.
  rewrite IH by lia. reflexivity.
Qed.

(** X30. The limit of the eviction is a number of rows computed from a
    number of bytes.  When the stored sizes exceed the budget and the
    table has no more rows than [int(total_size * 0.2)] (five bytes a row
    on average are enough), [_cleanup_if_needed] deletes every row, the
    newest included. *)
Theorem eviction_can_empty_the_cache (db : table) :
  max_size config * 1024 * 1024 < total_size db ->
  Z.of_nat (length db) <= eviction_limit (total_size db) ->
  _cleanup_if_needed config db = [].
Proof.
  intros Hover Hrows. unfold _cleanup_if_needed.
  destruct (max_size config * 1024 * 1024 <? total_size db) eqn:Hlt; [|lia].
  unfold oldest. rewrite take_all
    by (rewrite (Permutation_length (order_by_timestamp_perm db)); lia).
  unfold delete_in. apply filter_none. intros r Hr.
  rewrite bool_decide_eq_true_2; [reflexivity|].
  apply list_elem_of_In, in_map.
  apply (Permutation_in _ (Permutation_sym (order_by_timestamp_perm db))), Hr.
Qed.

End CacheBehaviour.

(* ===================================================================== *)
(** * The further properties on the example inputs *)
(* ===================================================================== *)

Section FurtherWitnesses.

Import Examples.

#[local] Abbreviation a_read := (Base.set_file_cache "/ws/a.py" "import pkg.b" Base.init).

(** X1 on [a.py]: read once from the workspace, then served with no file
    on disk at all. *)
Lemma X1_witness :
  Base.read_file ∅ "/ws/a.py" a_read = (inr (Some "import pkg.b"), a_read).
Proof.
  apply (read_file_serves_cached_text workspace ∅ "/ws/a.py" "import pkg.b" Base.init).
  vm_compute. reflexivity.
Defined.

(** X2 on [big.py], one byte over the default limit of a mebibyte. *)
Lemma X2_witness :
  let e := Py.ValueError "File /ws/big.py exceeds maximum size (1048576 bytes)" in
  Base.read_file workspace_with_big_file "/ws/big.py" Base.init = (inl e, Base.init)
  /\ Base.analyze_dependencies workspace_with_big_file resolve
       (Python.analyze_file workspace_with_big_file parse cleandoc max_str_digits)
       "/ws/big.py" 3 Base.init = (inl e, Base.init).
Proof.
  destruct (oversized_file_fails_every_operation workspace_with_big_file resolve digest
              parse cleandoc max_str_digits react_imports (fun _ => inr []) (fun _ => inr [])
              (fun _ => inr []) (fun _ => ∅) "/ws/big.py" oversized Base.init 3)
    as (Hread & _ & _ & _ & Hdeps);
    [vm_compute; reflexivity|vm_compute; reflexivity|reflexivity|reflexivity
    |discriminate|].
  split; [exact Hread|exact Hdeps].
Defined.

(** X4 on [a.py], which a new analyzer accepts. *)
Lemma X4_witness :
  exists f,
    workspace !! "/ws/a.py" = Some f
    /\ st_size f <= max_file_size (Base.options Base.init)
    /\ Base.read_file workspace "/ws/a.py" Base.init
       = match read_text f with
         | inr text => (inr (Some text), Base.set_file_cache "/ws/a.py" text Base.init)
         | inl e => (inl (Py.ValueError ("Failed to read /ws/a.py: " ++ e)), Base.init)
         end.
Proof.
  apply (validated_file_is_read workspace "/ws/a.py" Base.init);
    vm_compute; reflexivity.
Defined.

(** X5 on a file under [node_modules], which is on disk and small. *)
Lemma X5_witness :
  Base.validate_file workspace_with_modules "/ws/node_modules/left-pad/index.js"
    Base.init = true
  /\ Base.validate_file workspace_with_modules "/ws/node_modules/left-pad/index.js"
       ignoring_node_modules = false.
Proof.
  split; [vm_compute; reflexivity|].
  apply (ignore_patterns_match_substrings workspace_with_modules
           "/ws/node_modules/left-pad/index.js" "node_modules" ["node_modules"]
           ignoring_node_modules);
    [reflexivity|left; reflexivity|left; vm_compute; reflexivity].
Defined.

(** X6 on [a.py]: hashed once, then hashed again with no file on disk. *)
Lemma X6_witness :
  Base.get_file_hash ∅ digest "/ws/a.py" a_read = (inr "md5:import pkg.b", a_read).
Proof.
  apply (get_file_hash_is_stable workspace digest ∅ "/ws/a.py" "md5:import pkg.b"
           Base.init).
  vm_compute. reflexivity.
Defined.

(** X7 on a path that is not in the workspace and on [empty.py]. *)
Lemma X7_witness :
  Base.get_file_hash workspace digest "/ws/missing.py" Base.init
  = (inl (Py.ValueError "Cannot hash nonexistent file: /ws/missing.py"), Base.init)
  /\ exists a', Base.get_file_hash workspace digest "/ws/empty.py" Base.init
                = (inr "md5:", a').
Proof.
  split.
  - apply (get_file_hash_of_missing_and_empty_files workspace digest "/ws/missing.py"
             Base.init (init_coherent workspace));
      [discriminate|vm_compute; reflexivity].
  - apply (proj2 (get_file_hash_of_missing_and_empty_files workspace digest
                    "/ws/empty.py" Base.init (init_coherent workspace)
                    ltac:(discriminate)) (text_file ""));
      [vm_compute; reflexivity|reflexivity|reflexivity].
Defined.

(** X9 on [a.py], for an analyzer that had memoized the empty set for it:
    after [clear_caches] the resolver finds [pkg/b.py] again. *)
Lemma X9_witness :
  exists a',
    Base.analyze_dependencies workspace resolve python_analyze_file "/ws/a.py" 1
      (Base.clear_caches (Base.set_dependency_cache "/ws/a.py" ∅ Base.init))
    = (inr {[ "/ws/pkg/b.py" ]}, a').
Proof.
  destruct (python_analyze_file "/ws/a.py"
              (Base.clear_caches (Base.set_dependency_cache "/ws/a.py" ∅ Base.init)))
    as [[e|r] a1] eqn:Hrun; [vm_compute in Hrun; discriminate|].
  destruct (clear_caches_resets_resolution workspace resolve python_analyze_file
              "/ws/a.py" (Base.set_dependency_cache "/ws/a.py" ∅ Base.init) a1 r Hrun)
    as (Hres & _).
  eexists. rewrite Hres. f_equal. f_equal.
  vm_compute in Hrun. injection Hrun as <- _. vm_compute. reflexivity.
Defined.

(** X10 on [a.py]: resolved at depth 1, then asked again at depth 3. *)
Lemma X10_witness :
  exists s a',
    Base.analyze_dependencies workspace resolve python_analyze_file "/ws/a.py" 1 Base.init
    = (inr s, a')
    /\ Base.analyze_dependencies workspace resolve python_analyze_file "/ws/a.py" 3 a'
       = (inr s, a').
Proof.
  destruct (Base.analyze_dependencies workspace resolve python_analyze_file
              "/ws/a.py" 1 Base.init) as [[e|s] a'] eqn:Hrun;
    [vm_compute in Hrun; discriminate|].
  exists s, a'. split; [reflexivity|].
  apply (analyze_dependencies_repeats_its_answer workspace resolve python_analyze_file
           "/ws/a.py" 1 3 Base.init a' s); [discriminate|discriminate|exact Hrun].
Defined.

Lemma memo_on_disk_init (fs : filesystem) : Props.memo_on_disk fs Base.init.
Proof. intros p s q H. cbn in H. rewrite lookup_empty in H. discriminate. Qed.

(** X11 on [a.py] at depth 3. *)
Lemma X11_witness :
  exists s a',
    Base.analyze_dependencies workspace resolve python_analyze_file "/ws/a.py" 3 Base.init
    = (inr s, a')
    /\ (forall q, q ∈ s -> is_Some (workspace !! q))
    /\ Props.memo_on_disk workspace a'.
Proof.
  destruct (Base.analyze_dependencies workspace resolve python_analyze_file
              "/ws/a.py" 3 Base.init) as [[e|s] a'] eqn:Hrun;
    [vm_compute in Hrun; discriminate|].
  exists s, a'. split; [reflexivity|].
  apply (resolved_dependencies_are_on_disk workspace resolve python_analyze_file
           "/ws/a.py" 3 Base.init a' s);
    [apply python_leaves_memo|apply memo_on_disk_init|exact Hrun].
Defined.

(** X12 on the class [Stack]: its method [push] is among the functions
    of the file. *)
Lemma X12_witness :
  exists functions classes c m,
    Python._analyze_functions cleandoc max_str_digits (Ast.NMod (Ast.Module [stack_class])) = inr functions
    /\ Python._analyze_classes cleandoc max_str_digits (Ast.NMod (Ast.Module [stack_class])) = inr classes
    /\ In c classes /\ In m (Python.cls_methods c)
    /\ Python.fn_name m = "push" /\ In m functions.
Proof.
  eexists _, _, _, _.
  split; [vm_compute; reflexivity|]. split; [vm_compute; reflexivity|].
  split; [left; reflexivity|]. split; [left; reflexivity|]. split; [reflexivity|].
  eapply (methods_are_also_functions cleandoc max_str_digits (Ast.NMod (Ast.Module [stack_class])));
    [vm_compute; reflexivity|vm_compute; reflexivity|left; reflexivity|left; reflexivity].
Defined.

(** X13 on [import pkg.b] in the workspace. *)
Lemma X13_witness :
  Props.dependency_target workspace resolve
    (mkDependency "pkg.b" None true (Some "pkg/b.py") (Some [FileLocation_at 1 0]))
  = Some "/ws/pkg/b.py".
Proof.
  apply (proj2 (python_import_is_followed_iff workspace resolve
                  [("pkg.b", "pkg.b", FileLocation_at 1 0)] _ "/ws/pkg/b.py"
                  ltac:(left; reflexivity))).
  repeat split; try (vm_compute; reflexivity). eexists. vm_compute. reflexivity.
Defined.

(** X14 on a file that declares [get_stats] before [get]: the block of
    [get] is the block of [get_stats]. *)
Lemma X14_witness :
  Python._extract_block_content stats_lines "get"
  = Some (Py.join Py.LF ["def get_stats(self):"; "    return 1"; ""])
  /\ Python._extract_block_content stats_lines "get_stats"
     = Python._extract_block_content stats_lines "get".
Proof.
  apply (block_of_a_name_is_the_block_of_a_longer_name []
           ["    return 1"; ""; "def get(self):"; "    return 2"]
           "def get_stats(self):" "get" "get_stats");
    [reflexivity|constructor|vm_compute; reflexivity].
Defined.

(** X16 on [handler.py]: the one block, of the function declared at
    line 1, is located at line 0. *)
Lemma X16_witness :
  exists r a',
    python_analyze_file "/ws/handler.py" Base.init = (inr r, a')
    /\ length (blocks r) = 1%nat
    /\ Forall (fun b => location b = FileLocation_at 0 0
                        /\ (block_type b = "function" \/ block_type b = "class")
                        /\ Py.truthy (content b) = true) (blocks r).
Proof.
  eexists _, _. split; [vm_compute; reflexivity|]. split; [reflexivity|].
  eapply (python_blocks_are_located_at_the_origin workspace parse cleandoc max_str_digits
            "/ws/handler.py" Base.init).
  vm_compute. reflexivity.
Defined.

(** A return annotation over the digit limit: the pass over the functions
    raises the [ValueError] of [str] under the default limit of 4300
    digits, and returns where the limit is switched off. *)
Lemma return_annotation_over_the_digit_limit :
  Python._analyze_functions cleandoc 4300 (Ast.NMod (Ast.Module [wide_def]))
  = inl (Py.digit_limit_error 4300)
  /\ exists functions,
       Python._analyze_functions cleandoc 0 (Ast.NMod (Ast.Module [wide_def]))
       = inr functions.
Proof. split; [vm_compute; reflexivity|eexists; vm_compute; reflexivity]. Qed.

(** X18 on [class Model(db.orm.Base): pass], where the pass over the
    functions returns: the exception is an [AttributeError]. *)
Lemma X18_witness :
  exists e,
    Python.analyze_file workspace_with_model parse_model cleandoc max_str_digits
      "/ws/model.py" Base.init
    = (inl e, Base.set_file_cache "/ws/model.py" model_source Base.init)
    /\ Props.is_AttributeError e = true.
Proof.
  destruct (class_with_dotted_base_raises cleandoc max_str_digits workspace_with_model
              parse_model "/ws/model.py" model_source (Ast.Module [model_class])
              Base.init (Base.set_file_cache "/ws/model.py" model_source Base.init)
              1 "Model" [model_base] [] [Ast.Pass] []
              (Ast.Attribute (name_ "db") "orm" Ast.Load) "Base" Ast.Load)
    as (e & Hrun & _ & Hattr);
    [vm_compute; reflexivity|reflexivity|vm_compute; reflexivity
    |right; left; reflexivity|left; reflexivity|discriminate|].
  exists e. split; [exact Hrun|]. apply (Hattr []). vm_compute. reflexivity.
Defined.

(** X19 on the same file: the exception is the [AttributeError]. *)
Lemma X19_witness :
  let e := Py.AttributeError "'Attribute' object has no attribute 'id'" in
  let a' := Base.set_file_cache "/ws/model.py" model_source Base.init in
  Base.read_file workspace_with_model "/ws/model.py" Base.init = (inl e, a')
  \/ e = Py.ValueError "Could not read file: /ws/model.py"
  \/ (exists text,
        Base.read_file workspace_with_model "/ws/model.py" Base.init
        = (inr (Some text), a')
        /\ parse_model text = inl e)
  \/ e = Py.digit_limit_error max_str_digits
  \/ Props.is_AttributeError e = true.
Proof.
  apply (python_analyze_file_exceptions cleandoc max_str_digits workspace_with_model
           parse_model "/ws/model.py" Base.init).
  vm_compute. reflexivity.
Defined.

(** X20 on [handler.py]: analysed from the workspace, then again with no
    file on disk. *)
Lemma X20_witness :
  exists out a',
    python_analyze_file "/ws/handler.py" Base.init = (out, a')
    /\ Python.analyze_file ∅ parse cleandoc max_str_digits "/ws/handler.py" a' = (out, a').
Proof.
  eexists _, _. split; [vm_compute; reflexivity|].
  eapply (analyze_file_is_frozen_by_the_cache parse cleandoc max_str_digits workspace ∅
            "/ws/handler.py" Base.init);
    [vm_compute; reflexivity|eexists; vm_compute; reflexivity].
Defined.

(** X22 on [useEffect(() => { run(); }, [])] from its start: the block
    ends after the brace at offset 25. *)
Lemma X22_witness :
  (0 < 26 <= Py.len effect_source
   /\ Props.count_char "{" (Py.slice effect_source 0 26)
      = Props.count_char "}" (Py.slice effect_source 0 26))
  \/ 26 = Py.len effect_source.
Proof.
  apply (find_closing_brace_balances effect_source 0 26);
    [split; discriminate|vm_compute; reflexivity].
Defined.

(** X23 on the component [Themed], whose call of [useContext] is followed
    by the closing brace of the component. *)
Lemma X23_witness :
  exists e,
    React.analyze_file workspace_with_component react_imports (fun _ => inr [])
      (React._analyze_hooks themed_hooks (fun _ => []))
      (fun _ => inr []) (fun _ => ∅) "/ws/Themed.jsx" Base.init
    = (inl e, Base.set_file_cache "/ws/Themed.jsx" themed_source Base.init).
Proof.
  apply (hook_before_a_closing_brace_fails_the_file workspace_with_component
           react_imports (fun _ => inr []) themed_hooks (fun _ => [])
           (fun _ => inr []) (fun _ => ∅) "/ws/Themed.jsx" themed_source Base.init _
           34 "useContext");
    [vm_compute; reflexivity|left; reflexivity|vm_compute; reflexivity].
Defined.

(** X24 on [Themed.jsx]: a types pass that always fails is never run. *)
Lemma X24_witness :
  React.analyze_file workspace_with_component react_imports (fun _ => inr [])
    (fun _ => inr []) (fun _ => inr []) (fun _ => ∅) "/ws/Themed.jsx" Base.init
  = React.analyze_file workspace_with_component react_imports (fun _ => inr [])
      (fun _ => inr []) (fun _ => inl (Py.TypeError "unreachable")) (fun _ => ∅)
      "/ws/Themed.jsx" Base.init.
Proof.
  apply (types_are_analyzed_for_typescript_only workspace_with_component react_imports
           (fun _ => inr []) (fun _ => inr []) (fun _ => ∅) (fun _ => inr [])
           (fun _ => inl (Py.TypeError "unreachable")) "/ws/Themed.jsx" Base.init).
  apply (bool_decide_unpack _). vm_compute. exact I.
Defined.

(** X28 on the rows of the example and the default budget: setting
    [d.py] leaves the entry of [a.py] as it was. *)
Lemma X28_witness :
  Cache.get defaults string id 0x1.954fc40500000p+30%float "a.py" "h1"
    (Cache.set defaults string id 0x1.954fc40200000p+30%float "d.py" "h4" "{}" rows)
  = Cache.get defaults string id 0x1.954fc40500000p+30%float "a.py" "h1" rows.
Proof.
  apply (set_within_budget_keeps_other_paths defaults string id id
           0x1.954fc40200000p+30%float 0x1.954fc40500000p+30%float
           "d.py" "a.py" "h4" "h1" "{}" rows);
    [vm_compute; discriminate|discriminate].
Defined.

(** X29 on the rows of the example, over a budget of zero. *)
Lemma X29_witness :
  Props.primary_key
    (Cache.set tight string id 0x1.954fc40200000p+30%float "a.py" "h9" "{}" rows)
  /\ Props.primary_key (Cache.invalidate "a.py" rows)
  /\ Props.primary_key (Cache._cleanup_if_needed tight rows).
Proof.
  apply (primary_key_is_kept tight string id 0x1.954fc40200000p+30%float
           "a.py" "h9" "{}" rows).
  apply (bool_decide_unpack _). vm_compute. exact I.
Defined.

(** X30 on three rows of ten bytes over a budget of zero: the limit is
    [int(30 * 0.2) = 6] rows, and the three rows go. *)
Lemma X30_witness : Cache._cleanup_if_needed tight wide_rows = [].
Proof.
  apply (eviction_can_empty_the_cache tight wide_rows);
    [vm_compute; reflexivity|vm_compute; discriminate].
Defined.

End FurtherWitnesses.

Section CycleWitness.

Import Examples.

Lemma hub_imports_spoke :
  Props.imports workspace_with_hub resolve hub_analyze_file
    (Props.settled workspace_with_hub) "/ws/pkg/hub.py" "/ws/pkg/spoke.py".
Proof.
  eapply (python_file_imports workspace_with_hub parse_hub cleandoc max_str_digits
            resolve "/ws/pkg/hub.py" "/ws/pkg/spoke.py" hub_source hub_tree);
    [vm_compute; reflexivity|vm_compute; discriminate|reflexivity|reflexivity
    |vm_compute; reflexivity|].
  vm_compute. apply list_elem_of_here.
Qed.

Lemma spoke_imports_hub :
  Props.imports workspace_with_hub resolve hub_analyze_file
    (Props.settled workspace_with_hub) "/ws/pkg/spoke.py" "/ws/pkg/hub.py".
Proof.
  eapply (python_file_imports workspace_with_hub parse_hub cleandoc max_str_digits
            resolve "/ws/pkg/spoke.py" "/ws/pkg/hub.py" spoke_source (import_ "pkg.hub"));
    [vm_compute; reflexivity|vm_compute; discriminate|reflexivity|reflexivity
    |vm_compute; reflexivity|].
  vm_compute. apply list_elem_of_here.
Qed.

(** On a stack with room for one nested call, the cycle at depth 5 ends in
    [RecursionError]. *)
Lemma cycle_overflows_a_short_stack :
  exists a',
    Base.analyze_dependencies_within workspace_with_hub resolve hub_analyze_file
      1 "/ws/pkg/hub.py" 5 Base.init = (inl Base.recursion_error, a').
Proof. eexists. vm_compute. reflexivity. Qed.

(** With room for a hundred nested calls it returns the three files. *)
Lemma hub_resolution :
  exists a',
    Base.analyze_dependencies_within workspace_with_hub resolve hub_analyze_file
      100 "/ws/pkg/hub.py" 5 Base.init
    = (inr {[ "/ws/pkg/hub.py"; "/ws/pkg/spoke.py"; "/ws/pkg/c.py" ]}, a').
Proof. eexists. vm_compute. reflexivity. Qed.


End CycleWitness.
